(** * Glyph Engine: a shallow embedding of the governed core

    The development follows the Python package [glyph_engine] module by
    module: [token], [scroll], [validator], [audit], [store], [input] and
    [engine].  Every definition carries the name of the Python function or
    class it embeds.  The definitions come first; the theorems about them
    are collected in the second half of the file.

    Modelling conventions.
    - Python [int] is [Z]; [float] (IEEE binary64) is modelled by the
      rationals [Q] with exact arithmetic.
    - [datetime] is the number of microseconds since [datetime.min]
      (0001-01-01T00:00:00), a [Z]; [timedelta(seconds=n)] is [n * 10^6].
    - [str] is [string]; a Python [dict] used as a map is a [gmap], a [set]
      a [gset].
    - Exceptions are the constructor [Raised] of [result]; stateful code
      runs in the state-and-exception monad [M].
    - Every call of [datetime.utcnow()] made while one operation runs reads
      the argument [now] of that operation. *)

From Stdlib Require Import ZArith QArith String Ascii List Sorted.
From stdpp Require Import base option gmap strings list pretty.

Open Scope Z_scope.
Set Warnings "-register-all".

(** ** Python preliminaries *)

Module py.

(** [InvalidReference] is no exception of Python: it is what the model
    answers when a reference names no object of the heap, which no state
    built by the program does. *)
Inductive exn : Type :=
| ValueError
| ValidationError
| OverflowError
| RuntimeError
| InvalidReference.

Inductive result (A : Type) : Type :=
| Ok (a : A)
| Raised (e : exn).
Arguments Ok {A} a.
Arguments Raised {A} e.

(** [max(a, b)]: the first argument unless the second is strictly
    greater. *)
Definition max (a b : Q) : Q :=
  if Qlt_le_dec a b then b else a.

(** [a > b], [a <= b] on floats. *)
Definition gt (a b : Q) : bool := negb (Qle_bool a b).
Definition le (a b : Q) : bool := Qle_bool a b.

(** [str.lower()], on the ASCII letters. *)
Definition lower_ascii (c : ascii) : ascii :=
  let n := nat_of_ascii c in
  if bool_decide (65 <= n <= 90)%nat then ascii_of_nat (n + 32) else c.

Fixpoint lower (s : string) : string :=
  match s with
  | EmptyString => EmptyString
  | String c s' => String (lower_ascii c) (lower s')
  end.

(** [needle in haystack] on strings. *)
Fixpoint contains (needle haystack : string) : bool :=
  String.prefix needle haystack ||
  match haystack with
  | EmptyString => false
  | String _ rest => contains needle rest
  end.

(** [f"{n:0wd}"] for a natural number [n]: decimal digits, padded with
    zeros on the left to at least [w] characters. *)
Fixpoint zeros (k : nat) : string :=
  match k with
  | O => EmptyString
  | S k' => String "0" (zeros k')
  end.

Definition zfill (w : nat) (n : nat) : string :=
  let d := pretty n in
  (zeros (w - String.length d) ++ d)%string.

(** [f"{x}"] for an [Optional[str]]. *)
Definition str_opt (x : option string) : string := default "None"%string x.

(** [f"{b}"] for a [bool]. *)
Definition str_bool (b : bool) : string :=
  if b then "True" else "False".

(** [datetime]: microseconds since [datetime.min]; [datetime.max] is
    9999-12-31T23:59:59.999999, day 3652059 of the proleptic calendar. *)
Definition datetime : Type := Z.
Definition timedelta : Type := Z.

Definition MAX_DATETIME : Z := 3652059 * 86400 * 1000000 - 1.

(** [timedelta(seconds=n)]: [OverflowError] when the normalised number of
    days leaves [-999999999, 999999999]. *)
Definition timedelta_seconds (n : Z) : result timedelta :=
  if bool_decide (-999999999 <= n `div` 86400 <= 999999999)
  then Ok (n * 1000000)
  else Raised OverflowError.

(** [t + d]: [OverflowError] when the sum is no date of the years 1 to
    9999. *)
Definition datetime_add (t : datetime) (d : timedelta) : result datetime :=
  if bool_decide (0 <= t + d <= MAX_DATETIME)
  then Ok (t + d)
  else Raised OverflowError.

(** Values held in a [Dict[str, Any]] ([model_dump()] output). *)
Inductive val : Type :=
| VNone
| VBool (b : bool)
| VInt (n : Z)
| VFloat (q : Q)
| VStr (s : string)
| VDatetime (t : datetime)
| VList (l : list val)
| VDict (d : list (string * val)).

(** A [dict] with its keys in insertion order. *)
Definition dict : Type := list (string * val).

(** Truth value of an [Optional[Dict]]: [None] and [{}] are false. *)
Definition truthy (d : option dict) : bool :=
  match d with
  | Some (_ :: _) => true
  | _ => false
  end.

(** [d.get(k)] *)
Fixpoint dict_get (k : string) (d : dict) : option val :=
  match d with
  | [] => None
  | (k', v) :: d' => if String.eqb k' k then Some v else dict_get k d'
  end.

(** [sorted(l, key=key)]: a stable sort by an integer key. *)
Fixpoint insert_sorted {A : Type} (key : A -> Z) (a : A) (l : list A) : list A :=
  match l with
  | [] => [a]
  | b :: l' => if key a <=? key b then a :: b :: l' else b :: insert_sorted key a l'
  end.

Fixpoint sorted {A : Type} (key : A -> Z) (l : list A) : list A :=
  match l with
  | [] => []
  | a :: l' => insert_sorted key a (sorted key l')
  end.

(** [str.upper()], on the ASCII letters. *)
Definition upper_ascii (c : ascii) : ascii :=
  let n := nat_of_ascii c in
  if bool_decide (97 <= n <= 122)%nat then ascii_of_nat (n - 32) else c.

Fixpoint upper (s : string) : string :=
  match s with
  | EmptyString => EmptyString
  | String c s' => String (upper_ascii c) (upper s')
  end.

(** The pieces of an f-string whose arguments are not strings: the text
    is kept as written, and a formatted argument as its value together
    with the way it is formatted. *)
Inductive piece : Type :=
| Lit (s : string)
| StrDatetime (t : datetime)
| IsoDatetime (t : datetime)
| StrFloat (q : Q)
| Fixed2Float (q : Q)
| StrInt (n : Z).
Definition text : Type := list piece.

(** State and exceptions: a computation runs on a state [S], and returns
    the state it leaves together with a value or the exception raised. *)
Definition M (S A : Type) : Type := S -> S * result A.

Definition ret {S A : Type} (a : A) : M S A := fun s => (s, Ok a).
Definition raise {S A : Type} (e : exn) : M S A := fun s => (s, Raised e).
Definition bind {S A B : Type} (m : M S A) (k : A -> M S B) : M S B :=
  fun s =>
    match m s with
    | (s', Ok a) => k a s'
    | (s', Raised e) => (s', Raised e)
    end.
Definition get {S : Type} : M S S := fun s => (s, Ok s).
Definition put {S : Type} (s : S) : M S unit := fun _ => (s, Ok tt).
Definition modify {S : Type} (f : S -> S) : M S unit := fun s => (f s, Ok tt).
Definition of_result {S A : Type} (r : result A) : M S A := fun s => (s, r).

(** The value of a result, or [d] when an exception was raised. *)
Definition ok_or {A : Type} (d : A) (r : result A) : A :=
  match r with
  | Ok a => a
  | Raised _ => d
  end.

(** A computation on a component [T] of the state [S]. *)
Definition zoom {S T A : Type} (proj : S -> T) (upd : T -> S -> S) (m : M T A) : M S A :=
  fun s => let (t', r) := m (proj s) in (upd t' s, r).

End py.

Abbreviation Ok := py.Ok.
Abbreviation Raised := py.Raised.

Declare Scope py_scope.
Delimit Scope py_scope with py.
Notation "x <- m ;; k" := (py.bind m (fun x => k))
  (at level 100, m at next level, right associativity) : py_scope.
Notation "m ;; k" := (py.bind m (fun _ => k))
  (at level 100, right associativity) : py_scope.

(** ** [hashlib.sha256] (FIPS 180-4), on 32-bit words held in [Z] *)

Module hashlib.

Definition mask32 : Z := 0xffffffff.
Definition add32 (x y : Z) : Z := (x + y) mod 2 ^ 32.
Definition not32 (x : Z) : Z := Z.lxor x mask32.
Definition rotr (n x : Z) : Z :=
  Z.lor (Z.shiftr x n) (Z.land (Z.shiftl x (32 - n)) mask32).
Definition shr (n x : Z) : Z := Z.shiftr x n.

Definition Ch (x y z : Z) : Z := Z.lxor (Z.land x y) (Z.land (not32 x) z).
Definition Maj (x y z : Z) : Z :=
  Z.lxor (Z.lxor (Z.land x y) (Z.land x z)) (Z.land y z).
Definition bsig0 (x : Z) : Z := Z.lxor (Z.lxor (rotr 2 x) (rotr 13 x)) (rotr 22 x).
Definition bsig1 (x : Z) : Z := Z.lxor (Z.lxor (rotr 6 x) (rotr 11 x)) (rotr 25 x).
Definition ssig0 (x : Z) : Z := Z.lxor (Z.lxor (rotr 7 x) (rotr 18 x)) (shr 3 x).
Definition ssig1 (x : Z) : Z := Z.lxor (Z.lxor (rotr 17 x) (rotr 19 x)) (shr 10 x).

(** The constants are given by their definition: the first 32 bits of the
    fractional parts of the cube roots of the first 64 primes, and of the
    square roots of the first 8 primes for the initial hash value. *)
Definition is_prime (n : nat) : bool :=
  forallb (fun d => negb (n mod d =? 0)%nat) (seq 2 (n - 2)).

Definition primes : list Z :=
  map Z.of_nat (List.filter is_prime (seq 2 310)).

(** The integer cube root of [n], built bit by bit from bit [bits - 1]
    down. *)
Fixpoint icbrt_bits (bits : nat) (n r : Z) : Z :=
  match bits with
  | O => r
  | S b =>
      let r' := r + 2 ^ Z.of_nat b in
      icbrt_bits b n (if r' * r' * r' <=? n then r' else r)
  end.

Definition frac_cbrt32 (p : Z) : Z := icbrt_bits 36 (p * 2 ^ 96) 0 mod 2 ^ 32.
Definition frac_sqrt32 (p : Z) : Z := Z.sqrt (p * 2 ^ 64) mod 2 ^ 32.

Definition K : list Z := Eval vm_compute in map frac_cbrt32 primes.

Definition H0 : list Z := Eval vm_compute in map frac_sqrt32 (take 8 primes).

(** The message: the bytes, one bit, zeros up to 56 modulo 64, and the
    length in bits as a 64-bit big-endian number. *)
Definition be_bytes (k : nat) (x : Z) : list Z :=
  map (fun i => Z.land (Z.shiftr x (8 * Z.of_nat i)) 0xff) (rev (seq 0 k)).

Definition pad (msg : list Z) : list Z :=
  let len := Z.of_nat (length msg) in
  msg ++ [0x80] ++ repeat 0 (Z.to_nat ((55 - len) mod 64)) ++ be_bytes 8 (8 * len).

Fixpoint be_words (fuel : nat) (bs : list Z) : list Z :=
  match fuel, bs with
  | S fuel', b0 :: b1 :: b2 :: b3 :: rest =>
      (((b0 * 256 + b1) * 256 + b2) * 256 + b3) :: be_words fuel' rest
  | _, _ => []
  end.

Fixpoint blocks (fuel : nat) (ws : list Z) : list (list Z) :=
  match fuel, ws with
  | S fuel', _ :: _ => take 16 ws :: blocks fuel' (drop 16 ws)
  | _, _ => []
  end.

(** The message schedule, newest word first. *)
Fixpoint schedule (n : nat) (rw : list Z) : list Z :=
  match n with
  | O => rw
  | S n' =>
      let w := add32 (add32 (ssig1 (nth 1 rw 0)) (nth 6 rw 0))
                     (add32 (ssig0 (nth 14 rw 0)) (nth 15 rw 0)) in
      schedule n' (w :: rw)
  end.

Definition round (st : list Z) (kw : Z * Z) : list Z :=
  match st with
  | [a; b; c; d; e; f; g; h] =>
      let t1 := add32 (add32 (add32 h (bsig1 e)) (add32 (Ch e f g) (fst kw))) (snd kw) in
      let t2 := add32 (bsig0 a) (Maj a b c) in
      [add32 t1 t2; a; b; c; add32 d t1; e; f; g]
  | _ => st
  end.

Definition compress (h : list Z) (block : list Z) : list Z :=
  let w := rev (schedule 48 (rev block)) in
  let st := fold_left round (combine K w) h in
  map (fun p => add32 (fst p) (snd p)) (combine h st).

Definition digest_words (msg : list Z) : list Z :=
  let ws := be_words (length msg + 72) (pad msg) in
  fold_left compress (blocks (length ws) ws) H0.

Definition hex_digit (d : Z) : ascii :=
  nth (Z.to_nat d) (list_ascii_of_string "0123456789abcdef") "0"%char.

Definition hex32 (w : Z) : string :=
  string_of_list_ascii
    (map (fun i => hex_digit (Z.land (Z.shiftr w (4 * Z.of_nat i)) 0xf)) (rev (seq 0 8))).

(** [s.encode()]: the bytes of the string. *)
Definition encode (s : string) : list Z :=
  map (fun c => Z.of_nat (nat_of_ascii c)) (list_ascii_of_string s).

(** [hashlib.sha256(data).hexdigest()]. *)
Definition sha256_hexdigest (data : list Z) : string :=
  String.concat "" (map hex32 (digest_words data)).

End hashlib.


(** ** token.py *)

Module GlyphClass.

Inductive t : Type := ANCHOR | MUTATION | WARNING | AUDIT | CONSENT.

Definition value (c : t) : string :=
  match c with
  | ANCHOR => "anchor"
  | MUTATION => "mutation"
  | WARNING => "warning"
  | AUDIT => "audit"
  | CONSENT => "consent"
  end.

(** [GlyphClass(s)]: the member whose value is [s], or [ValueError]. *)
Definition of_value (s : string) : py.result t :=
  if String.eqb s "anchor" then Ok ANCHOR
  else if String.eqb s "mutation" then Ok MUTATION
  else if String.eqb s "warning" then Ok WARNING
  else if String.eqb s "audit" then Ok AUDIT
  else if String.eqb s "consent" then Ok CONSENT
  else Raised py.ValueError.

End GlyphClass.

Module GlyphVector.

Record t : Type := mk { x : Q; y : Q; z : Q }.

Definition in_unit_box (v : Q) : bool := Qle_bool (-1) v && Qle_bool v 1.

(** [GlyphVector(x=.., y=.., z=..)]: each axis is validated against
    [ge=-1.0, le=1.0]. *)
Definition new (x y z : Q) : py.result t :=
  if in_unit_box x && in_unit_box y && in_unit_box z
  then Ok (mk x y z)
  else Raised py.ValidationError.

Definition model_dump (v : t) : py.dict :=
  [("x", py.VFloat (x v)); ("y", py.VFloat (y v)); ("z", py.VFloat (z v))]%string.

End GlyphVector.

Module GlyphToken.

(** A constructed token.  [expires_at] is [Optional] in the class only
    until [model_post_init] has run, so the record holds a [datetime]. *)
Record t : Type := mk {
  glyph_id : string;
  glyph_class : GlyphClass.t;
  vector : GlyphVector.t;
  intensity : Q;
  source : string;
  owner : string;
  ttl_seconds : Z;
  created_at : py.datetime;
  expires_at : py.datetime;
  explanation : string;
  parent_id : option string;
}.

Definition set_glyph_class (c : GlyphClass.t) (g : t) : t :=
  mk (glyph_id g) c (vector g) (intensity g) (source g) (owner g)
     (ttl_seconds g) (created_at g) (expires_at g) (explanation g) (parent_id g).
Definition set_intensity (i : Q) (g : t) : t :=
  mk (glyph_id g) (glyph_class g) (vector g) i (source g) (owner g)
     (ttl_seconds g) (created_at g) (expires_at g) (explanation g) (parent_id g).
Definition set_ttl_seconds (n : Z) (g : t) : t :=
  mk (glyph_id g) (glyph_class g) (vector g) (intensity g) (source g) (owner g)
     n (created_at g) (expires_at g) (explanation g) (parent_id g).
Definition set_expires_at (e : py.datetime) (g : t) : t :=
  mk (glyph_id g) (glyph_class g) (vector g) (intensity g) (source g) (owner g)
     (ttl_seconds g) (created_at g) e (explanation g) (parent_id g).
Definition set_explanation (e : string) (g : t) : t :=
  mk (glyph_id g) (glyph_class g) (vector g) (intensity g) (source g) (owner g)
     (ttl_seconds g) (created_at g) (expires_at g) e (parent_id g).

(** The field constraints: [intensity] in [0, 1], [ttl_seconds >= 1],
    [explanation] of at most 200 characters. *)
Definition fields_valid (intensity : Q) (ttl_seconds : Z) (explanation : string) : bool :=
  Qle_bool 0 intensity && Qle_bool intensity 1
  && bool_decide (1 <= ttl_seconds)
  && bool_decide (String.length explanation <= 200)%nat.

(** [model_post_init]: the expiry is derived from the TTL when none was
    given. *)
Definition model_post_init (created_at : py.datetime) (ttl_seconds : Z)
    (expires_at : option py.datetime) : py.result py.datetime :=
  match expires_at with
  | Some e => Ok e
  | None =>
      match py.timedelta_seconds ttl_seconds with
      | Ok d => py.datetime_add created_at d
      | Raised e => Raised e
      end
  end.

(** [GlyphToken(...)]: validation of the fields, then [model_post_init].
    [created_at = None] stands for the default factory [datetime.utcnow],
    read as [now]. *)
Definition new (now : py.datetime) (glyph_id : string) (glyph_class : GlyphClass.t)
    (vector : GlyphVector.t) (intensity : Q) (source owner : string)
    (ttl_seconds : Z) (created_at expires_at : option py.datetime)
    (explanation : string) (parent_id : option string) : py.result t :=
  if fields_valid intensity ttl_seconds explanation then
    let created := default now created_at in
    match model_post_init created ttl_seconds expires_at with
    | Ok e =>
        Ok (mk glyph_id glyph_class vector intensity source owner ttl_seconds
               created e explanation parent_id)
    | Raised e => Raised e
    end
  else Raised py.ValidationError.

(** [is_expired]: [datetime.utcnow() > self.expires_at]. *)
Definition is_expired (now : py.datetime) (g : t) : bool :=
  bool_decide (expires_at g < now).

(** [refresh]: the TTL is extended first; the expiry is then recomputed
    from the current time.  An overflow leaves the new TTL in place. *)
Definition refresh (now : py.datetime) (additional_seconds : Z) (g : t) : t * py.result unit :=
  let g1 := set_ttl_seconds (ttl_seconds g + additional_seconds) g in
  match py.timedelta_seconds (ttl_seconds g1) with
  | Raised e => (g1, Raised e)
  | Ok d =>
      match py.datetime_add now d with
      | Raised e => (g1, Raised e)
      | Ok e => (set_expires_at e g1, Ok tt)
      end
  end.

(** [attenuate]: [self.intensity = max(0.0, self.intensity * factor)]. *)
Definition attenuate (factor : Q) (g : t) : t :=
  set_intensity (py.max 0 (intensity g * factor)) g.

(** [to_text]: the class in capitals, the explanation, the intensity
    with two decimals and the expiry in ISO format. *)
Definition to_text (g : t) : py.text :=
  [ py.Lit ("[" ++ py.upper (GlyphClass.value (glyph_class g)) ++ "] "
            ++ explanation g ++ " (intensity: ");
    py.Fixed2Float (intensity g);
    py.Lit ", expires: ";
    py.IsoDatetime (expires_at g);
    py.Lit ")" ]%string.

Definition model_dump (g : t) : py.dict :=
  [ ("glyph_id", py.VStr (glyph_id g));
    ("glyph_class", py.VStr (GlyphClass.value (glyph_class g)));
    ("vector", py.VDict (GlyphVector.model_dump (vector g)));
    ("intensity", py.VFloat (intensity g));
    ("source", py.VStr (source g));
    ("owner", py.VStr (owner g));
    ("ttl_seconds", py.VInt (ttl_seconds g));
    ("created_at", py.VDatetime (created_at g));
    ("expires_at", py.VDatetime (expires_at g));
    ("explanation", py.VStr (explanation g));
    ("parent_id", from_option py.VStr py.VNone (parent_id g)) ]%string.

(** [model_validate_json] on what [model_dump_json] wrote: the fields are
    validated again; the stored expiry is kept. *)
Definition model_validate_json (j : t) : py.result t :=
  if fields_valid (intensity j) (ttl_seconds j) (explanation j)
     && GlyphVector.in_unit_box (GlyphVector.x (vector j))
     && GlyphVector.in_unit_box (GlyphVector.y (vector j))
     && GlyphVector.in_unit_box (GlyphVector.z (vector j))
  then Ok j
  else Raised py.ValidationError.

End GlyphToken.

(** [GENESIS_GLYPHS], created when the module is imported at time [t0]. *)
Definition GENESIS_G000 (t0 : py.datetime) : py.result GlyphToken.t :=
  GlyphToken.new t0 "G-000" GlyphClass.ANCHOR (GlyphVector.mk 0 0 1) 1
    "system" "paul" 31536000 None None
    "Genesis anchor - system bootstrap state." None.

Definition GENESIS_G001 (t0 : py.datetime) : py.result GlyphToken.t :=
  GlyphToken.new t0 "G-001" GlyphClass.CONSENT (GlyphVector.mk 0 0 1) 1
    "system" "paul" 86400 None None
    "Default consent gate - requires explicit user approval." None.

Definition GENESIS_GLYPHS (t0 : py.datetime) : py.result (list GlyphToken.t) :=
  match GENESIS_G000 t0, GENESIS_G001 t0 with
  | Ok g0, Ok g1 => Ok [g0; g1]
  | Raised e, _ => Raised e
  | _, Raised e => Raised e
  end.

(** ** scroll.py *)

Module MutationType.

Inductive t : Type := ROTATE | ATTENUATE | AMPLIFY | TRANSFORM | REFRESH | DECAY.

Definition value (m : t) : string :=
  match m with
  | ROTATE => "rotate"
  | ATTENUATE => "attenuate"
  | AMPLIFY => "amplify"
  | TRANSFORM => "transform"
  | REFRESH => "refresh"
  | DECAY => "decay"
  end.

Definition to_nat (m : t) : nat :=
  match m with
  | ROTATE => 0 | ATTENUATE => 1 | AMPLIFY => 2
  | TRANSFORM => 3 | REFRESH => 4 | DECAY => 5
  end.

Definition of_nat (n : nat) : t :=
  match n with
  | 0%nat => ROTATE | 1%nat => ATTENUATE | 2%nat => AMPLIFY
  | 3%nat => TRANSFORM | 4%nat => REFRESH | _ => DECAY
  end.

#[global] Instance eq_dec : EqDecision t.
Proof. solve_decision. Defined.

#[global] Instance countable : Countable t.
Proof. apply (inj_countable' to_nat of_nat). intros []; reflexivity. Defined.

End MutationType.

Module ScrollTransition.

Record t : Type := mk {
  from_glyph_id : string;
  to_glyph_id : string;
  mutation_type : MutationType.t;
  requires_consent : bool;
  max_intensity_delta : Q;
}.

End ScrollTransition.

Module Scroll.

Record t : Type := mk {
  scroll_id : string;
  name : string;
  sequence : list string;
  allowed_mutations : gset MutationType.t;
  forbidden_mutations : gset MutationType.t;
  transitions : list ScrollTransition.t;
  validator_id : string;
  max_active_glyphs : Z;
}.

Definition is_mutation_allowed (self : t) (mutation : MutationType.t) : bool :=
  if bool_decide (mutation ∈ forbidden_mutations self) then false
  else bool_decide (mutation ∈ allowed_mutations self).

(** The [for] loop of [can_transition]: [true] when it returns [True],
    [false] when it runs to its end. *)
Fixpoint transition_found (ts : list ScrollTransition.t) (from_id to_id : string)
    (mutation : MutationType.t) : bool :=
  match ts with
  | [] => false
  | t :: rest =>
      if String.eqb (ScrollTransition.from_glyph_id t) from_id
         && String.eqb (ScrollTransition.to_glyph_id t) to_id
      then
        if bool_decide (ScrollTransition.mutation_type t = mutation) then true
        else transition_found rest from_id to_id mutation
      else transition_found rest from_id to_id mutation
  end.

Definition can_transition (self : t) (from_id to_id : string)
    (mutation : MutationType.t) : bool :=
  if negb (is_mutation_allowed self mutation) then false
  else if transition_found (transitions self) from_id to_id mutation then true
  else bool_decide (length (transitions self) = 0%nat).

(** [Scroll.model_validate]: the only constrained field is the
    [max_intensity_delta] of a transition, in [0, 1]. *)
Definition model_validate (j : t) : py.result t :=
  if forallb (fun tr => Qle_bool 0 (ScrollTransition.max_intensity_delta tr)
                        && Qle_bool (ScrollTransition.max_intensity_delta tr) 1)
       (transitions j)
  then Ok j
  else Raised py.ValidationError.

End Scroll.

Definition GENESIS_SCROLL : Scroll.t :=
  Scroll.mk "S-000" "Genesis Scroll" ["G-000"; "G-001"]%string
    {[ MutationType.ROTATE; MutationType.ATTENUATE; MutationType.REFRESH; MutationType.DECAY ]}
    {[ MutationType.AMPLIFY; MutationType.TRANSFORM ]}
    [] "V-00" 50.

Definition STANDARD_SCROLL : Scroll.t :=
  Scroll.mk "S-001" "Standard Session Scroll" []
    {[ MutationType.ROTATE; MutationType.ATTENUATE; MutationType.AMPLIFY;
       MutationType.REFRESH; MutationType.DECAY; MutationType.TRANSFORM ]}
    ∅
    [] "V-01" 100.

(** ** validator.py *)

Module ValidationAction.

Inductive t : Type := ALLOW | HALT | REVERT | REQUEST_CONFIRMATION.

Definition value (a : t) : string :=
  match a with
  | ALLOW => "allow"
  | HALT => "halt"
  | REVERT => "revert"
  | REQUEST_CONFIRMATION => "request_confirmation"
  end.

End ValidationAction.

Module ValidatorResult.

Record t : Type := mk {
  passed : bool;
  validator_id : string;
  check_name : string;
  message : string;
  action : ValidationAction.t;
  timestamp : py.datetime;
}.

Definition model_dump (r : t) : py.dict :=
  [ ("passed", py.VBool (passed r));
    ("validator_id", py.VStr (validator_id r));
    ("check_name", py.VStr (check_name r));
    ("message", py.VStr (message r));
    ("action", py.VStr (ValidationAction.value (action r)));
    ("timestamp", py.VDatetime (timestamp r)) ]%string.

End ValidatorResult.

Module ValidationCheck.

Record t : Type := mk {
  name : string;
  description : string;
  is_critical : bool;
}.

End ValidationCheck.

Module Validator.

Record t : Type := mk {
  validator_id : string;
  name : string;
  checks : list ValidationCheck.t;
  on_fail : ValidationAction.t;
  version : string;
  checksum : option string;
}.

Definition set_checks (cs : list ValidationCheck.t) (v : t) : t :=
  mk (validator_id v) (name v) cs (on_fail v) (version v) (checksum v).
Definition set_checksum (c : option string) (v : t) : t :=
  mk (validator_id v) (name v) (checks v) (on_fail v) (version v) c.

(** The string that is hashed: id, version and number of checks, then the
    name and the critical flag of every check. *)
Definition checksum_data (v : t) : string :=
  fold_left
    (fun data check =>
       data ++ ":" ++ ValidationCheck.name check
            ++ ":" ++ py.str_bool (ValidationCheck.is_critical check))%string
    (checks v)
    (validator_id v ++ ":" ++ version v ++ ":" ++ pretty (length (checks v)))%string.

Definition compute_checksum (v : t) : string :=
  String.substring 0 16 (hashlib.sha256_hexdigest (hashlib.encode (checksum_data v))).

Definition verify_integrity (v : t) : bool :=
  match checksum v with
  | None => true
  | Some c => String.eqb (compute_checksum v) c
  end.

End Validator.

(** The [context] dictionary of [validate_transition]; a field is [None]
    when its key is absent. *)
Module Context.

Record t : Type := mk {
  glyph : option GlyphToken.t;
  mutation : option MutationType.t;
  source : option string;
  authenticated : option bool;
  history : option (list py.dict);
}.

End Context.

Module ValidatorEngine.

(** [self.validators] *)
Abbreviation t := (gmap string Validator.t).

Definition core_validators_unsigned : list Validator.t :=
  [ Validator.mk "V-00" "Genesis Validator"
      [ ValidationCheck.mk "no_identity_fixation" "Glyphs cannot represent identity" true;
        ValidationCheck.mk "ttl_required" "All glyphs must have TTL" true ]
      ValidationAction.HALT "1.0.0" None;
    Validator.mk "V-01" "Standard Session Validator"
      [ ValidationCheck.mk "no_recursive_amplification" "Cannot amplify same glyph repeatedly" true;
        ValidationCheck.mk "no_identity_fixation" "Glyphs cannot represent identity" true;
        ValidationCheck.mk "ttl_required" "All glyphs must have TTL" true;
        ValidationCheck.mk "max_intensity" "Intensity cannot exceed 1.0" false;
        ValidationCheck.mk "authentication_required" "Mutations require authenticated source" true ]
      ValidationAction.HALT "1.0.0" None;
    Validator.mk "V-02" "Multi-Agent Validator"
      [ ValidationCheck.mk "no_ownership_conflict"
          "Cannot mutate glyph owned by another agent without consent" true;
        ValidationCheck.mk "no_race_condition" "Check for concurrent modification attempts" true ]
      ValidationAction.REQUEST_CONFIRMATION "1.0.0" None ]%string.

(** [_register_core_validators]: the three validators are stored under
    their ids, then every stored validator gets its checksum. *)
Definition _register_core_validators (validators : t) : t :=
  (fun v => Validator.set_checksum (Some (Validator.compute_checksum v)) v)
    <$> foldl (fun m v => <[Validator.validator_id v := v]> m) validators
              core_validators_unsigned.

(** [ValidatorEngine()] *)
Definition new : t := _register_core_validators ∅.

Definition get_validator (validators : t) (validator_id : string) : option Validator.t :=
  validators !! validator_id.

Definition fail (check : ValidationCheck.t) (validator : Validator.t) (msg : string)
    (now : py.datetime) : ValidatorResult.t :=
  ValidatorResult.mk false (Validator.validator_id validator)
    (ValidationCheck.name check) msg (Validator.on_fail validator) now.

Definition is_amplify (h : py.dict) : bool :=
  match py.dict_get "mutation" h with
  | Some (py.VStr m) => String.eqb m "amplify"
  | _ => false
  end.

Definition amplify_count (history : list py.dict) : nat :=
  length (List.filter is_amplify history).

Definition _run_check (check : ValidationCheck.t) (context : Context.t)
    (validator : Validator.t) (now : py.datetime) : ValidatorResult.t :=
  let glyph := Context.glyph context in
  let source := default "unknown"%string (Context.source context) in
  let history := default [] (Context.history context) in
  let pass :=
    ValidatorResult.mk true (Validator.validator_id validator)
      (ValidationCheck.name check) "Check passed" ValidationAction.ALLOW now in
  let name := ValidationCheck.name check in
  if String.eqb name "no_identity_fixation" then
    match glyph with
    | Some g =>
        if py.contains "identity" (py.lower (GlyphToken.explanation g))
        then fail check validator "Glyph explanation contains identity reference" now
        else pass
    | None => pass
    end
  else if String.eqb name "ttl_required" then
    match glyph with
    | Some g =>
        if bool_decide (GlyphToken.ttl_seconds g <= 0)
        then fail check validator "Glyph has no TTL" now
        else pass
    | None => pass
    end
  else if String.eqb name "no_recursive_amplification" then
    if bool_decide (3 <= amplify_count history)%nat
    then fail check validator "Recursive amplification detected" now
    else pass
  else if String.eqb name "authentication_required" then
    if String.eqb source "unknown" || negb (default false (Context.authenticated context))
    then fail check validator "Unauthenticated mutation attempt" now
    else pass
  else if String.eqb name "max_intensity" then
    match glyph with
    | Some g =>
        if py.gt (GlyphToken.intensity g) 1
        then fail check validator "Intensity exceeds maximum" now
        else pass
    | None => pass
    end
  else pass.

(** The loop over [validator.checks]: every result is appended, and the
    loop is left after a failing result of a critical check. *)
Fixpoint run_checks (checks : list ValidationCheck.t) (context : Context.t)
    (validator : Validator.t) (now : py.datetime) : list ValidatorResult.t :=
  match checks with
  | [] => []
  | check :: rest =>
      let result := _run_check check context validator now in
      if negb (ValidatorResult.passed result) && ValidationCheck.is_critical check
      then [result]
      else result :: run_checks rest context validator now
  end.

Definition validate_transition (validators : t) (validator_id : string)
    (context : Context.t) (now : py.datetime) : list ValidatorResult.t :=
  match get_validator validators validator_id with
  | None =>
      [ ValidatorResult.mk false validator_id "validator_exists"
          ("Validator " ++ validator_id ++ " not found") ValidationAction.HALT now ]
  | Some validator =>
      if negb (Validator.verify_integrity validator) then
        [ ValidatorResult.mk false validator_id "validator_integrity"
            ("Validator " ++ validator_id ++ " failed integrity check")
            ValidationAction.HALT now ]
      else run_checks (Validator.checks validator) context validator now
  end%string.

End ValidatorEngine.

(** ** audit.py *)

Module AuditEventType.

Inductive t : Type :=
| CREATED | MUTATED | DECAYED | EXPIRED | REJECTED
| REFRESHED | FORGOTTEN | VALIDATED | VALIDATION_FAILED.

Definition value (e : t) : string :=
  match e with
  | CREATED => "created"
  | MUTATED => "mutated"
  | DECAYED => "decayed"
  | EXPIRED => "expired"
  | REJECTED => "rejected"
  | REFRESHED => "refreshed"
  | FORGOTTEN => "forgotten"
  | VALIDATED => "validated"
  | VALIDATION_FAILED => "validation_failed"
  end.

#[global] Instance eq_dec : EqDecision t.
Proof. solve_decision. Defined.

End AuditEventType.

Module AuditEvent.

Record t : Type := mk {
  event_id : string;
  event_type : AuditEventType.t;
  glyph_id : string;
  timestamp : py.datetime;
  source : string;
  session_id : option string;
  reason : py.text;
  before_state : option py.dict;
  after_state : option py.dict;
  validator_id : option string;
  validation_results : option (list py.dict);
}.

End AuditEvent.

(** One entry of the [timeline] list of a reconstructed history. *)
Module TimelineEntry.

Record t : Type := mk {
  event_id : string;
  type : string;
  timestamp : py.datetime;
  reason : py.text;
  source : string;
}.

Definition of_event (event : AuditEvent.t) : t :=
  mk (AuditEvent.event_id event)
     (AuditEventType.value (AuditEvent.event_type event))
     (AuditEvent.timestamp event)
     (AuditEvent.reason event)
     (AuditEvent.source event).

End TimelineEntry.

(** The dictionary returned by [reconstruct_glyph_history]. *)
Module History.

Record t : Type := mk {
  glyph_id : string;
  total_events : nat;
  creation_event : option TimelineEntry.t;
  mutations : list TimelineEntry.t;
  current_state : option py.dict;
  timeline : list TimelineEntry.t;
}.

End History.

(** The dictionary returned by [generate_summary]. *)
Module Summary.

Record t : Type := mk {
  total_events : nat;
  by_type : gmap string nat;
  by_glyph : gmap string nat;
  rejected_count : nat;
  validation_failures : nat;
}.

End Summary.

Module AuditLog.

(** [log] is the content of the JSONL file, one event per line, oldest
    first; it is read back as it was written. *)
Record t : Type := mk {
  log : list AuditEvent.t;
  _event_counter : nat;
}.

(** [AuditLog(path)] on a file holding [lines]. *)
Definition new (lines : list AuditEvent.t) : t := mk lines 0.

Definition append (event : AuditEvent.t) (self : t) : t :=
  mk (log self ++ [event]) (_event_counter self).

Definition create_event (now : py.datetime) (event_type : AuditEventType.t)
    (glyph_id : string) (reason : py.text) (source : string)
    (session_id : option string) (before_state after_state : option py.dict)
    (validator_id : option string) (validation_results : option (list py.dict))
    (self : t) : t * AuditEvent.t :=
  let counter := S (_event_counter self) in
  let event :=
    AuditEvent.mk ("A-" ++ py.zfill 6 counter) event_type glyph_id now source
      session_id reason before_state after_state validator_id validation_results in
  (append event (mk (log self) counter), event).

Definition read_all (self : t) : list AuditEvent.t := log self.

Definition query_by_glyph (self : t) (glyph_id : string) : list AuditEvent.t :=
  List.filter (fun e => String.eqb (AuditEvent.glyph_id e) glyph_id) (read_all self).

Definition query_by_type (self : t) (event_type : AuditEventType.t) : list AuditEvent.t :=
  List.filter (fun e => bool_decide (AuditEvent.event_type e = event_type)) (read_all self).

(** One turn of the loop of [reconstruct_glyph_history]. *)
Definition history_step (history : History.t) (event : AuditEvent.t) : History.t :=
  let timeline_entry := TimelineEntry.of_event event in
  let creation :=
    if bool_decide (AuditEvent.event_type event = AuditEventType.CREATED)
    then Some timeline_entry
    else History.creation_event history in
  let mutations :=
    if bool_decide (AuditEvent.event_type event = AuditEventType.CREATED)
    then History.mutations history
    else if bool_decide (AuditEvent.event_type event = AuditEventType.MUTATED)
    then History.mutations history ++ [timeline_entry]
    else History.mutations history in
  let current :=
    if py.truthy (AuditEvent.after_state event)
    then AuditEvent.after_state event
    else History.current_state history in
  History.mk (History.glyph_id history) (History.total_events history)
    creation mutations current (History.timeline history ++ [timeline_entry]).

Definition reconstruct_glyph_history (self : t) (glyph_id : string) : History.t :=
  let events := query_by_glyph self glyph_id in
  let history := History.mk glyph_id (length events) None [] None [] in
  fold_left history_step (py.sorted AuditEvent.timestamp events) history.

(** One turn of the loop of [generate_summary]: the counters of the
    event's type and of its glyph go up by one, an absent counter
    starting at 0. *)
Definition summary_step (summary : Summary.t) (event : AuditEvent.t) : Summary.t :=
  let type_key := AuditEventType.value (AuditEvent.event_type event) in
  let by_type :=
    <[type_key := S (default 0%nat (Summary.by_type summary !! type_key))]>
      (Summary.by_type summary) in
  let by_glyph :=
    <[AuditEvent.glyph_id event :=
        S (default 0%nat (Summary.by_glyph summary !! AuditEvent.glyph_id event))]>
      (Summary.by_glyph summary) in
  let rejected_count :=
    if bool_decide (AuditEvent.event_type event = AuditEventType.REJECTED)
    then S (Summary.rejected_count summary)
    else Summary.rejected_count summary in
  let validation_failures :=
    if bool_decide (AuditEvent.event_type event = AuditEventType.VALIDATION_FAILED)
    then S (Summary.validation_failures summary)
    else Summary.validation_failures summary in
  Summary.mk (Summary.total_events summary) by_type by_glyph
    rejected_count validation_failures.

Definition generate_summary (self : t) : Summary.t :=
  let events := read_all self in
  fold_left summary_step events (Summary.mk (length events) ∅ ∅ 0%nat 0%nat).

End AuditLog.

(** ** store.py *)

Module Transaction.

Record t : Type := mk {
  transaction_id : string;
  operations : list (string * string);
  started_at : py.datetime;
  committed : bool;
  rolled_back : bool;
}.

Definition log_operation (type glyph_id : string) (tx : t) : t :=
  mk (transaction_id tx) (operations tx ++ [(type, glyph_id)])
     (started_at tx) (committed tx) (rolled_back tx).

End Transaction.

Module GlyphStore.

(** A reference to a [GlyphToken] object: its index in [objects]. *)
Definition loc : Type := nat.

(** The store and the token objects of the process.  [objects] is the
    heap: the cache, and the variables of a handler, hold references into
    it, so a token changed through one reference is changed for all.
    [glyphs_path], [scrolls_path] and [backup_path] are the directories,
    a file [<id>.json] being the entry [id] with the document it holds. *)
Record t : Type := mk {
  objects : list GlyphToken.t;
  glyphs_path : gmap string GlyphToken.t;
  scrolls_path : gmap string Scroll.t;
  backup_path : gmap string (gmap string GlyphToken.t);
  _transaction : option Transaction.t;
  _tx_counter : nat;
  _glyph_cache : gmap string loc;
  _scroll_cache : gmap string Scroll.t;
}.

(** The object behind a reference. *)
Definition deref (l : loc) : py.M t GlyphToken.t :=
  fun self =>
    match objects self !! l with
    | Some g => (self, Ok g)
    | None => (self, Raised py.InvalidReference)
    end.

(** A new object. *)
Definition alloc (g : GlyphToken.t) : py.M t loc :=
  fun self =>
    (mk (objects self ++ [g]) (glyphs_path self) (scrolls_path self) (backup_path self)
        (_transaction self) (_tx_counter self) (_glyph_cache self) (_scroll_cache self),
     Ok (length (objects self))).

(** Assignment to fields of the object behind a reference. *)
Definition assign (l : loc) (f : GlyphToken.t -> GlyphToken.t) : py.M t unit :=
  fun self =>
    match objects self !! l with
    | Some g =>
        (mk (<[l := f g]> (objects self)) (glyphs_path self) (scrolls_path self)
            (backup_path self) (_transaction self) (_tx_counter self)
            (_glyph_cache self) (_scroll_cache self),
         Ok tt)
    | None => (self, Raised py.InvalidReference)
    end.

(** A call of a method of the object behind a reference that changes
    the object and may raise after it did. *)
Definition call (l : loc) (method : GlyphToken.t -> GlyphToken.t * py.result unit)
    : py.M t unit :=
  fun self =>
    match objects self !! l with
    | Some g =>
        let (g', r) := method g in
        (mk (<[l := g']> (objects self)) (glyphs_path self) (scrolls_path self)
            (backup_path self) (_transaction self) (_tx_counter self)
            (_glyph_cache self) (_scroll_cache self),
         r)
    | None => (self, Raised py.InvalidReference)
    end.

Definition log_in_transaction (type glyph_id : string) (self : t) : option Transaction.t :=
  Transaction.log_operation type glyph_id <$> _transaction self.




(** [save_glyph]: the file named after the token's id is written, and
    the cache entry of that id becomes the object itself. *)
Definition save_glyph (glyph : loc) : py.M t unit :=
  fun self =>
    match objects self !! glyph with
    | None => (self, Raised py.InvalidReference)
    | Some g =>
        let glyph_id := GlyphToken.glyph_id g in
        (mk (objects self)
            (<[glyph_id := g]> (glyphs_path self))
            (scrolls_path self) (backup_path self)
            (log_in_transaction "save_glyph" glyph_id self)
            (_tx_counter self)
            (<[glyph_id := glyph]> (_glyph_cache self))
            (_scroll_cache self),
         Ok tt)
    end.

(** [load_glyph]: the cached object when there is one; else the file is
    parsed into a new object, which is cached. *)
Definition load_glyph (glyph_id : string) : py.M t (option loc) :=
  fun self =>
    match _glyph_cache self !! glyph_id with
    | Some glyph => (self, Ok (Some glyph))
    | None =>
        match glyphs_path self !! glyph_id with
        | None => (self, Ok None)
        | Some j =>
            match GlyphToken.model_validate_json j with
            | Raised e => (self, Raised e)
            | Ok g =>
                let glyph := length (objects self) in
                (mk (objects self ++ [g]) (glyphs_path self) (scrolls_path self)
                    (backup_path self) (_transaction self) (_tx_counter self)
                    (<[glyph_id := glyph]> (_glyph_cache self)) (_scroll_cache self),
                 Ok (Some glyph))
            end
        end
    end.

Definition delete_glyph (glyph_id : string) : py.M t bool :=
  fun self =>
    match glyphs_path self !! glyph_id with
    | None => (self, Ok false)
    | Some _ =>
        (mk (objects self)
            (delete glyph_id (glyphs_path self))
            (scrolls_path self) (backup_path self)
            (log_in_transaction "delete_glyph" glyph_id self)
            (_tx_counter self)
            (delete glyph_id (_glyph_cache self))
            (_scroll_cache self),
         Ok true)
    end.

(** [list_glyphs]: the stems of the files, in the order of the listing
    (here: the order of the keys of the map). *)
Definition list_glyphs (self : t) : list string :=
  (map_to_list (glyphs_path self)).*1.

(** The loop of [get_all_glyphs]; the dictionary under construction is
    kept as the list of its items. *)
Fixpoint get_all_loop (ids : list string) (glyphs : list (string * loc))
    : py.M t (list (string * loc)) :=
  match ids with
  | [] => py.ret glyphs
  | glyph_id :: rest =>
      (glyph <- load_glyph glyph_id ;;
       match glyph with
       | Some l => get_all_loop rest (glyphs ++ [(glyph_id, l)])
       | None => get_all_loop rest glyphs
       end)%py
  end.

Definition get_all_glyphs : py.M t (list (string * loc)) :=
  fun self => get_all_loop (list_glyphs self) [] self.

(** [{gid: g for gid, g in items if p(g)}] *)
Fixpoint select (p : GlyphToken.t -> bool) (items : list (string * loc))
    : py.M t (list (string * loc)) :=
  match items with
  | [] => py.ret []
  | (gid, l) :: rest =>
      (g <- deref l ;;
       kept <- select p rest ;;
       py.ret (if p g then (gid, l) :: kept else kept))%py
  end.

Definition get_active_glyphs (now : py.datetime) : py.M t (list (string * loc)) :=
  (all <- get_all_glyphs ;;
   select (fun g => negb (GlyphToken.is_expired now g)) all)%py.

Definition get_expired_glyphs (now : py.datetime) : py.M t (list (string * loc)) :=
  (all <- get_all_glyphs ;;
   select (GlyphToken.is_expired now) all)%py.

Definition save_scroll (scroll : Scroll.t) : py.M t unit :=
  fun self =>
    (mk (objects self) (glyphs_path self)
        (<[Scroll.scroll_id scroll := scroll]> (scrolls_path self))
        (backup_path self) (_transaction self) (_tx_counter self)
        (_glyph_cache self)
        (<[Scroll.scroll_id scroll := scroll]> (_scroll_cache self)),
     Ok tt).

Definition load_scroll (scroll_id : string) : py.M t (option Scroll.t) :=
  fun self =>
    match _scroll_cache self !! scroll_id with
    | Some scroll => (self, Ok (Some scroll))
    | None =>
        match scrolls_path self !! scroll_id with
        | None => (self, Ok None)
        | Some j =>
            match Scroll.model_validate j with
            | Raised e => (self, Raised e)
            | Ok scroll =>
                (mk (objects self) (glyphs_path self) (scrolls_path self)
                    (backup_path self) (_transaction self) (_tx_counter self)
                    (_glyph_cache self) (<[scroll_id := scroll]> (_scroll_cache self)),
                 Ok (Some scroll))
            end
        end
    end.

Definition list_scrolls (self : t) : list string :=
  (map_to_list (scrolls_path self)).*1.

Fixpoint save_all (glyphs : list loc) : py.M t unit :=
  match glyphs with
  | [] => py.ret tt
  | glyph :: rest => (save_glyph glyph ;; save_all rest)%py
  end.

(** [_ensure_genesis]: an empty glyph directory is seeded with the
    genesis glyphs and the genesis scroll. *)
Definition _ensure_genesis (genesis : list loc) : py.M t unit :=
  fun self =>
    if bool_decide (map_to_list (glyphs_path self) = [])
    then (save_all genesis ;; save_scroll GENESIS_SCROLL)%py self
    else (self, Ok tt).

(** [GlyphStore(vault_path)] on a vault holding the given glyph and scroll
    files, in a process whose module-level [GENESIS_GLYPHS] are the
    objects [genesis]. *)
Definition new (genesis : list GlyphToken.t)
    (glyph_files : gmap string GlyphToken.t) (scroll_files : gmap string Scroll.t)
    : t * py.result unit :=
  _ensure_genesis (seq 0 (length genesis))
    (mk genesis glyph_files scroll_files ∅ None 0 ∅ ∅).

End GlyphStore.

(** ** input.py *)

Module InputType.

Inductive t : Type := FACT | STATE | COMMAND.

Definition value (i : t) : string :=
  match i with
  | FACT => "fact"
  | STATE => "state"
  | COMMAND => "command"
  end.

(** [InputType(s)]: the member whose value is [s], or [ValueError]. *)
Definition of_value (s : string) : py.result t :=
  if String.eqb s "fact" then Ok FACT
  else if String.eqb s "state" then Ok STATE
  else if String.eqb s "command" then Ok COMMAND
  else Raised py.ValueError.

End InputType.

Module CommandVerb.

Inductive t : Type := REMEMBER | FORGET | REFRAME | AUDIT | REFRESH | ATTENUATE.

Definition value (v : t) : string :=
  match v with
  | REMEMBER => "remember"
  | FORGET => "forget"
  | REFRAME => "reframe"
  | AUDIT => "audit"
  | REFRESH => "refresh"
  | ATTENUATE => "attenuate"
  end.

(** [CommandVerb(s)]: the member whose value is [s], or [ValueError]. *)
Definition of_value (s : string) : py.result t :=
  if String.eqb s "remember" then Ok REMEMBER
  else if String.eqb s "forget" then Ok FORGET
  else if String.eqb s "reframe" then Ok REFRAME
  else if String.eqb s "audit" then Ok AUDIT
  else if String.eqb s "refresh" then Ok REFRESH
  else if String.eqb s "attenuate" then Ok ATTENUATE
  else Raised py.ValueError.

End CommandVerb.

(** The [payload] dictionary, by the keys the engine reads; a field is
    [None] when its key is absent, and a present value has the type the
    engine expects of it. *)
Module Payload.

Record t : Type := mk {
  class : option string;
  urgency : option Q;
  complexity : option Q;
  alignment : option Q;
  intensity : option Q;
  owner : option string;
  ttl : option Z;
  explanation : option string;
  parent_id : option string;
  reason : option string;
  seconds : option Z;
  factor : option Q;
}.


(** The empty dictionary. *)
Definition empty : t :=
  mk None None None None None None None None None None None None.

End Payload.

Module InputMessage.

Record t : Type := mk {
  input_type : InputType.t;
  payload : Payload.t;
  source : string;
  timestamp : py.datetime;
  command_verb : option CommandVerb.t;
  target_glyph_id : option string;
  auth_token : option string;
  session_id : option string;
}.


Definition is_authenticated (self : t) : bool :=
  bool_decide (auth_token self <> None) || String.eqb (source self) "system".

Definition validate_command (self : t) : bool :=
  match input_type self with
  | InputType.COMMAND =>
      match command_verb self with
      | None => false
      | Some (CommandVerb.FORGET | CommandVerb.REFRAME
              | CommandVerb.REFRESH | CommandVerb.ATTENUATE) =>
          bool_decide (target_glyph_id self <> None)
      | Some _ => true
      end
  | _ => true
  end.

End InputMessage.

(** The raw dictionary given to the parser, by the keys the parser
    reads; a field is [None] when its key is absent. *)
Module RawInput.

Record t : Type := mk {
  type : option string;
  payload : option Payload.t;
  source : option string;
  timestamp : option string;
  verb : option string;
  target : option string;
  auth_token : option string;
  session_id : option string;
}.

End RawInput.

Module InputParser.

Section Parse.

(** [datetime.fromisoformat]: the date that a string denotes, [None]
    standing for the [ValueError] of a string that denotes none. *)
Variable fromisoformat : string -> option py.datetime.

(** [InputParser.parse(raw)], called at the time [now]. *)
Definition parse (now : py.datetime) (raw : RawInput.t) : py.result InputMessage.t :=
  match RawInput.type raw with
  | None => Raised py.ValueError
  | Some type =>
      match InputType.of_value type with
      | Raised e => Raised e
      | Ok input_type =>
          let timestamp :=
            match RawInput.timestamp raw with
            | Some s =>
                match fromisoformat s with
                | Some t => Ok t
                | None => Raised py.ValueError
                end
            | None => Ok now
            end in
          match timestamp with
          | Raised e => Raised e
          | Ok timestamp =>
              let command_verb :=
                match RawInput.verb raw with
                | Some v =>
                    match CommandVerb.of_value v with
                    | Ok verb => Ok (Some verb)
                    | Raised e => Raised e
                    end
                | None => Ok None
                end in
              match command_verb with
              | Raised e => Raised e
              | Ok command_verb =>
                  let msg :=
                    InputMessage.mk input_type
                      (default Payload.empty (RawInput.payload raw))
                      (default "user"%string (RawInput.source raw))
                      timestamp command_verb (RawInput.target raw)
                      (RawInput.auth_token raw) (RawInput.session_id raw) in
                  if negb (InputMessage.validate_command msg)
                  then Raised py.ValueError
                  else Ok msg
              end
          end
      end
  end.

End Parse.

End InputParser.

(** ** engine.py *)

Module EngineConfig.

Record t : Type := mk {
  max_active_glyphs : Z;
  default_ttl_seconds : Z;
  enable_fast_path : bool;
  require_auth : bool;
}.

(** [EngineConfig()] *)
Definition default : t := mk 100 86400 true true.

End EngineConfig.

Module EngineResponse.

Record t : Type := mk {
  success : bool;
  message : string;
  glyph_id : option string;
  validation_results : option (list py.dict);
  text_output : option py.text;
  timestamp : py.datetime;
}.

End EngineResponse.

Module GlyphEngine.

Record t : Type := mk {
  config : EngineConfig.t;
  store : GlyphStore.t;
  audit : AuditLog.t;
  validator : ValidatorEngine.t;
  _scrolls : gmap string Scroll.t;
  session_id : string;
  _glyph_counter : nat;
  _mutation_history : gmap string (list py.dict);
}.

Definition set_store (st : GlyphStore.t) (self : t) : t :=
  mk (config self) st (audit self) (validator self) (_scrolls self)
     (session_id self) (_glyph_counter self) (_mutation_history self).
Definition set_audit (a : AuditLog.t) (self : t) : t :=
  mk (config self) (store self) a (validator self) (_scrolls self)
     (session_id self) (_glyph_counter self) (_mutation_history self).
Definition set_glyph_counter (n : nat) (self : t) : t :=
  mk (config self) (store self) (audit self) (validator self) (_scrolls self)
     (session_id self) n (_mutation_history self).

(** An operation of [self.store]. *)
Definition in_store {A : Type} (m : py.M GlyphStore.t A) : py.M t A :=
  py.zoom store set_store m.

(** [self.audit.create_event(..., session_id=self.session_id, ...)] *)
Definition audit_event (now : py.datetime) (event_type : AuditEventType.t)
    (glyph_id : string) (reason : py.text) (source : string)
    (before_state after_state : option py.dict)
    (validation_results : option (list py.dict)) : py.M t AuditEvent.t :=
  fun self =>
    let (a, event) :=
      AuditLog.create_event now event_type glyph_id reason source
        (Some (session_id self)) before_state after_state None validation_results
        (audit self) in
    (set_audit a self, Ok event).

(** The loop of [_load_scrolls]. *)
Fixpoint load_scrolls_loop (ids : list string) (scrolls : gmap string Scroll.t)
    : py.M GlyphStore.t (gmap string Scroll.t) :=
  match ids with
  | [] => py.ret scrolls
  | scroll_id :: rest =>
      (scroll <- GlyphStore.load_scroll scroll_id ;;
       match scroll with
       | Some sc => load_scrolls_loop rest (<[scroll_id := sc]> scrolls)
       | None => load_scrolls_loop rest scrolls
       end)%py
  end.

Definition ensure_default (scroll : Scroll.t) (scrolls : gmap string Scroll.t)
    : gmap string Scroll.t :=
  match scrolls !! Scroll.scroll_id scroll with
  | Some _ => scrolls
  | None => <[Scroll.scroll_id scroll := scroll]> scrolls
  end.

Definition _load_scrolls : py.M GlyphStore.t (gmap string Scroll.t) :=
  fun st =>
    (scrolls <- load_scrolls_loop (GlyphStore.list_scrolls st) ∅ ;;
     py.ret (ensure_default STANDARD_SCROLL (ensure_default GENESIS_SCROLL scrolls)))%py st.

(** [GlyphEngine(config)] on a vault with the given glyph files, scroll
    files and audit lines; [session] is the identifier drawn for the
    session. *)
Definition new (config : EngineConfig.t) (session : string)
    (genesis : list GlyphToken.t)
    (glyph_files : gmap string GlyphToken.t) (scroll_files : gmap string Scroll.t)
    (audit_lines : list AuditEvent.t) : py.result t :=
  match GlyphStore.new genesis glyph_files scroll_files with
  | (_, Raised e) => Raised e
  | (st, Ok _) =>
      match _load_scrolls st with
      | (_, Raised e) => Raised e
      | (st', Ok scrolls) =>
          Ok (mk config st' (AuditLog.new audit_lines) ValidatorEngine.new
                 scrolls session 0 ∅)
      end
  end.

Definition _generate_glyph_id : py.M t string :=
  fun self =>
    let counter := S (_glyph_counter self) in
    (set_glyph_counter counter self, Ok ("G-" ++ py.zfill 3 counter)%string).

(** [_get_scroll()], with its default argument ["S-001"]. *)
Definition _get_scroll (self : t) : Scroll.t :=
  default STANDARD_SCROLL (_scrolls self !! "S-001"%string).

Definition _check_accretion (now : py.datetime) : py.M t bool :=
  (active <- in_store (GlyphStore.get_active_glyphs now) ;;
   self <- py.get ;;
   py.ret (bool_decide (Z.of_nat (length active)
                        < EngineConfig.max_active_glyphs (config self))))%py.

(** The loop of [_run_decay_cycle]. *)
Fixpoint decay_loop (now : py.datetime) (expired : list (string * GlyphStore.loc))
    (removed : list string) : py.M t (list string) :=
  match expired with
  | [] => py.ret removed
  | (glyph_id, l) :: rest =>
      (in_store (GlyphStore.delete_glyph glyph_id) ;;
       glyph <- in_store (GlyphStore.deref l) ;;
       audit_event now AuditEventType.EXPIRED glyph_id
         [py.Lit "TTL expired at "; py.StrDatetime (GlyphToken.expires_at glyph)]
         "system" (Some (GlyphToken.model_dump glyph)) None None ;;
       decay_loop now rest (removed ++ [glyph_id]))%py
  end.

Definition _run_decay_cycle (now : py.datetime) : py.M t (list string) :=
  (expired <- in_store (GlyphStore.get_expired_glyphs now) ;;
   decay_loop now expired [])%py.

Definition failure (message : string) (now : py.datetime) : EngineResponse.t :=
  EngineResponse.mk false message None None None now.

(** The token that [_handle_state] builds from the payload. *)
Definition build_glyph (now : py.datetime) (glyph_id : string)
    (default_ttl : Z) (msg : InputMessage.t) : py.result GlyphToken.t :=
  let payload := InputMessage.payload msg in
  match GlyphClass.of_value (default "anchor"%string (Payload.class payload)) with
  | Raised e => Raised e
  | Ok glyph_class =>
      match GlyphVector.new (default 0%Q (Payload.urgency payload))
                            (default 0%Q (Payload.complexity payload))
                            (default (1 # 2)%Q (Payload.alignment payload)) with
      | Raised e => Raised e
      | Ok vector =>
          GlyphToken.new now glyph_id glyph_class vector
            (default (1 # 2)%Q (Payload.intensity payload))
            (InputMessage.source msg)
            (default "paul"%string (Payload.owner payload))
            (default default_ttl (Payload.ttl payload))
            None None
            (default "User-declared state"%string (Payload.explanation payload))
            (Payload.parent_id payload)
      end
  end.

(** The context that [_handle_state] gives to the validator. *)
Definition state_context (g : GlyphToken.t) (msg : InputMessage.t) : Context.t :=
  Context.mk (Some g) None (Some (InputMessage.source msg))
    (Some (InputMessage.is_authenticated msg)) (Some []).

Definition _handle_state (now : py.datetime) (msg : InputMessage.t)
    : py.M t EngineResponse.t :=
  (_run_decay_cycle now ;;
   ok <- _check_accretion now ;;
   if negb ok then
     py.ret (failure "Glyph limit reached. Run consolidation or wait for decay." now)
   else
     glyph_id <- _generate_glyph_id ;;
     self <- py.get ;;
     g <- py.of_result
            (build_glyph now glyph_id
               (EngineConfig.default_ttl_seconds (config self)) msg) ;;
     glyph <- in_store (GlyphStore.alloc g) ;;
     let results :=
       ValidatorEngine.validate_transition (validator self) "V-01"
         (state_context g msg) now in
     let failed := List.filter (fun r => negb (ValidatorResult.passed r)) results in
     match failed with
     | first :: _ =>
         audit_event now AuditEventType.VALIDATION_FAILED glyph_id
           [py.Lit (ValidatorResult.message first)] (InputMessage.source msg)
           None None (Some (map ValidatorResult.model_dump results)) ;;
         py.ret (EngineResponse.mk false
                   ("Validation failed: " ++ ValidatorResult.message first)
                   None (Some (map ValidatorResult.model_dump results)) None now)
     | [] =>
         in_store (GlyphStore.save_glyph glyph) ;;
         audit_event now AuditEventType.CREATED glyph_id
           [py.Lit "State glyph created"] (InputMessage.source msg)
           None (Some (GlyphToken.model_dump g)) None ;;
         py.ret (EngineResponse.mk true ("State recorded: " ++ glyph_id)
                   (Some glyph_id) None (Some (GlyphToken.to_text g)) now)
     end)%py%string.


(** The assignments of [_cmd_reframe], one field after the other; an
    unknown class raises after nothing was assigned. *)
Definition apply_reframe (payload : Payload.t) (glyph : GlyphStore.loc)
    : py.M GlyphStore.t unit :=
  (match Payload.class payload with
   | Some c =>
       glyph_class <- py.of_result (GlyphClass.of_value c) ;;
       GlyphStore.assign glyph (GlyphToken.set_glyph_class glyph_class)
   | None => py.ret tt
   end ;;
   match Payload.explanation payload with
   | Some e => GlyphStore.assign glyph (GlyphToken.set_explanation e)
   | None => py.ret tt
   end ;;
   match Payload.intensity payload with
   | Some i => GlyphStore.assign glyph (GlyphToken.set_intensity i)
   | None => py.ret tt
   end)%py.

Definition _cmd_reframe (now : py.datetime) (msg : InputMessage.t)
    : py.M t EngineResponse.t :=
  (let glyph_id := py.str_opt (InputMessage.target_glyph_id msg) in
   loaded <- in_store (GlyphStore.load_glyph glyph_id) ;;
   match loaded with
   | None => py.ret (failure ("Glyph not found: " ++ glyph_id) now)
   | Some glyph =>
       before <- in_store (GlyphStore.deref glyph) ;;
       let before_state := GlyphToken.model_dump before in
       in_store (apply_reframe (InputMessage.payload msg) glyph) ;;
       self <- py.get ;;
       let scroll := _get_scroll self in
       if negb (Scroll.is_mutation_allowed scroll MutationType.TRANSFORM) then
         py.ret (failure "Transform not allowed in current scroll" now)
       else
         in_store (GlyphStore.save_glyph glyph) ;;
         after <- in_store (GlyphStore.deref glyph) ;;
         audit_event now AuditEventType.MUTATED glyph_id
           [py.Lit "Reframe command"] (InputMessage.source msg)
           (Some before_state) (Some (GlyphToken.model_dump after)) None ;;
         py.ret (EngineResponse.mk true ("Reframed: " ++ glyph_id)
                   (Some glyph_id) None (Some (GlyphToken.to_text after)) now)
   end)%py%string.

Definition _cmd_attenuate (now : py.datetime) (msg : InputMessage.t)
    : py.M t EngineResponse.t :=
  (let glyph_id := py.str_opt (InputMessage.target_glyph_id msg) in
   loaded <- in_store (GlyphStore.load_glyph glyph_id) ;;
   match loaded with
   | None => py.ret (failure ("Glyph not found: " ++ glyph_id) now)
   | Some glyph =>
       before <- in_store (GlyphStore.deref glyph) ;;
       let before_state := GlyphToken.model_dump before in
       let factor := default (9 # 10)%Q (Payload.factor (InputMessage.payload msg)) in
       in_store (GlyphStore.assign glyph (GlyphToken.attenuate factor)) ;;
       in_store (GlyphStore.save_glyph glyph) ;;
       after <- in_store (GlyphStore.deref glyph) ;;
       audit_event now AuditEventType.MUTATED glyph_id
         [py.Lit "Attenuated by factor "; py.StrFloat factor] (InputMessage.source msg)
         (Some before_state) (Some (GlyphToken.model_dump after)) None ;;
       py.ret (EngineResponse.mk true ("Attenuated: " ++ glyph_id)
                 (Some glyph_id) None (Some (GlyphToken.to_text after)) now)
   end)%py%string.

(** [_cmd_forget]: the result of [delete_glyph] is not looked at. *)
Definition _cmd_forget (now : py.datetime) (msg : InputMessage.t)
    : py.M t EngineResponse.t :=
  (let glyph_id := py.str_opt (InputMessage.target_glyph_id msg) in
   loaded <- in_store (GlyphStore.load_glyph glyph_id) ;;
   match loaded with
   | None => py.ret (failure ("Glyph not found: " ++ glyph_id) now)
   | Some glyph =>
       in_store (GlyphStore.delete_glyph glyph_id) ;;
       g <- in_store (GlyphStore.deref glyph) ;;
       audit_event now AuditEventType.FORGOTTEN glyph_id
         [py.Lit (default "User requested forget"
                    (Payload.reason (InputMessage.payload msg)))]
         (InputMessage.source msg) (Some (GlyphToken.model_dump g)) None None ;;
       py.ret (EngineResponse.mk true ("Forgot: " ++ glyph_id) (Some glyph_id) None
                 (Some [py.Lit "Removed glyph: "; py.Lit (GlyphToken.explanation g)]) now)
   end)%py%string.

Definition _cmd_refresh (now : py.datetime) (msg : InputMessage.t)
    : py.M t EngineResponse.t :=
  (let glyph_id := py.str_opt (InputMessage.target_glyph_id msg) in
   loaded <- in_store (GlyphStore.load_glyph glyph_id) ;;
   match loaded with
   | None => py.ret (failure ("Glyph not found: " ++ glyph_id) now)
   | Some glyph =>
       before <- in_store (GlyphStore.deref glyph) ;;
       let before_state := GlyphToken.model_dump before in
       let additional := default 86400 (Payload.seconds (InputMessage.payload msg)) in
       in_store (GlyphStore.call glyph (GlyphToken.refresh now additional)) ;;
       in_store (GlyphStore.save_glyph glyph) ;;
       after <- in_store (GlyphStore.deref glyph) ;;
       audit_event now AuditEventType.REFRESHED glyph_id
         [py.Lit "TTL extended by "; py.StrInt additional; py.Lit " seconds"]
         (InputMessage.source msg)
         (Some before_state) (Some (GlyphToken.model_dump after)) None ;;
       py.ret (EngineResponse.mk true ("Refreshed: " ++ glyph_id)
                 (Some glyph_id) None (Some (GlyphToken.to_text after)) now)
   end)%py%string.

End GlyphEngine.

(** * Sample data and vocabulary of the statements *)

(** A moment of the year 2025, in microseconds, and a token built then
    with the defaults of the class. *)
Definition t2025 : py.datetime := 63900000000000000.

Definition sample_token : GlyphToken.t :=
  GlyphToken.mk "G-001" GlyphClass.ANCHOR (GlyphVector.mk 0 0 (1 # 2)) (1 # 2)
     "user" "paul" 86400 t2025 (t2025 + 86400000000) "Test anchor glyph" None.

(** A scroll that both allows and forbids amplification. *)
Definition conflicted_scroll : Scroll.t :=
  Scroll.mk "S-900" "Conflicted" []
     {[ MutationType.AMPLIFY; MutationType.ROTATE ]} {[ MutationType.AMPLIFY ]}
     [] "V-01" 100.

(** A scroll with one explicit transition. *)
Definition pinned_scroll : Scroll.t :=
  Scroll.mk "S-901" "Pinned" []
     {[ MutationType.ROTATE; MutationType.ATTENUATE ]} {[ MutationType.AMPLIFY ]}
     [ScrollTransition.mk "G-001" "G-002" MutationType.ROTATE false (1 # 2)]
     "V-01" 100.


(** A check halts the run of a validator when its result fails and the
    check is marked critical. *)
Definition halts (context : Context.t) (validator : Validator.t) (now : py.datetime)
    (check : ValidationCheck.t) : bool :=
  negb (ValidatorResult.passed (ValidatorEngine._run_check check context validator now))
  && ValidationCheck.is_critical check.

(** The single result that reports a failed integrity check. *)
Definition integrity_failure (validator_id : string) (now : py.datetime) : ValidatorResult.t :=
  ValidatorResult.mk false validator_id "validator_integrity"
    ("Validator " ++ validator_id ++ " failed integrity check")
    ValidationAction.HALT now.

(** The standard session validator as [ValidatorEngine()] registers it. *)
Definition V01 : Validator.t :=
  Validator.mk "V-01" "Standard Session Validator"
    [ ValidationCheck.mk "no_recursive_amplification" "Cannot amplify same glyph repeatedly" true;
      ValidationCheck.mk "no_identity_fixation" "Glyphs cannot represent identity" true;
      ValidationCheck.mk "ttl_required" "All glyphs must have TTL" true;
      ValidationCheck.mk "max_intensity" "Intensity cannot exceed 1.0" false;
      ValidationCheck.mk "authentication_required" "Mutations require authenticated source" true ]
    ValidationAction.HALT "1.0.0" (Some "cd65e10815e8daa5").

(** Its check list with one description rewritten, and with one check
    removed. *)
Definition V01_checks_redescribed : list ValidationCheck.t :=
  [ ValidationCheck.mk "no_recursive_amplification" "Cannot amplify same glyph repeatedly" true;
    ValidationCheck.mk "no_identity_fixation" "Glyphs cannot represent identity" true;
    ValidationCheck.mk "ttl_required" "All glyphs must have TTL" true;
    ValidationCheck.mk "max_intensity" "Intensity is not looked at" false;
    ValidationCheck.mk "authentication_required" "Mutations require authenticated source" true ].

Definition V01_checks_shortened : list ValidationCheck.t :=
  [ ValidationCheck.mk "no_recursive_amplification" "Cannot amplify same glyph repeatedly" true;
    ValidationCheck.mk "ttl_required" "All glyphs must have TTL" true ].

(** An authenticated request of the user about the sample token. *)
Definition sample_context : Context.t :=
  Context.mk (Some sample_token) None (Some "user") (Some true) (Some []).

(** A validator without stored checksum whose first check is not
    critical, and a token that this check rejects. *)
Definition lenient_validator : Validator.t :=
  Validator.mk "V-01" "Lenient"
    [ ValidationCheck.mk "no_identity_fixation" "Glyphs cannot represent identity" false;
      ValidationCheck.mk "ttl_required" "All glyphs must have TTL" true;
      ValidationCheck.mk "authentication_required" "Mutations require authenticated source" true;
      ValidationCheck.mk "max_intensity" "Intensity cannot exceed 1.0" false ]
    ValidationAction.HALT "1.0.0" None.

Definition identity_token : GlyphToken.t :=
  GlyphToken.mk "G-002" GlyphClass.ANCHOR (GlyphVector.mk 0 0 (1 # 2)) (1 # 2)
     "user" "paul" 86400 t2025 (t2025 + 86400000000) "This is my identity marker" None.

(** The same token presented without authentication. *)
Definition anonymous_context : Context.t :=
  Context.mk (Some identity_token) None (Some "user") (Some false) (Some []).

(** The sample token attenuated once and twice, and the log of a session
    that created it, attenuated it twice and then forgot it, while another
    token was created in between. *)
Definition sample_token_1 : GlyphToken.t := GlyphToken.attenuate (1 # 2) sample_token.
Definition sample_token_2 : GlyphToken.t := GlyphToken.attenuate (1 # 2) sample_token_1.

Definition sample_log : AuditLog.t :=
  let log0 := AuditLog.new [] in
  let log1 :=
    (AuditLog.create_event t2025 AuditEventType.CREATED "G-001"
       [py.Lit "State glyph created"] "user" (Some "5e551041") None
       (Some (GlyphToken.model_dump sample_token)) None None log0).1 in
  let log2 :=
    (AuditLog.create_event (t2025 + 1000000) AuditEventType.MUTATED "G-001"
       [py.Lit "Attenuated by factor "; py.StrFloat (1 # 2)] "user" (Some "5e551041")
       (Some (GlyphToken.model_dump sample_token))
       (Some (GlyphToken.model_dump sample_token_1)) None None log1).1 in
  let log3 :=
    (AuditLog.create_event (t2025 + 1500000) AuditEventType.CREATED "G-002"
       [py.Lit "State glyph created"] "user" (Some "5e551041") None
       (Some (GlyphToken.model_dump identity_token)) None None log2).1 in
  let log4 :=
    (AuditLog.create_event (t2025 + 2000000) AuditEventType.MUTATED "G-001"
       [py.Lit "Attenuated by factor "; py.StrFloat (1 # 2)] "user" (Some "5e551041")
       (Some (GlyphToken.model_dump sample_token_1))
       (Some (GlyphToken.model_dump sample_token_2)) None None log3).1 in
  (AuditLog.create_event (t2025 + 3000000) AuditEventType.FORGOTTEN "G-001"
     [py.Lit "User requested forget"] "user" (Some "5e551041")
     (Some (GlyphToken.model_dump sample_token_2)) None None None log4).1.

(** The store as a reader sees it.  [current st gid j] is the token that
    [load_glyph gid] yields when the file [gid] holds [j]: the cached
    object when there is one, and else the document; [tokens st] maps every
    stored glyph id to that token. *)
Definition current (st : GlyphStore.t) (glyph_id : string) (j : GlyphToken.t) : GlyphToken.t :=
  match GlyphStore._glyph_cache st !! glyph_id with
  | Some l => default j (GlyphStore.objects st !! l)
  | None => j
  end.

Definition tokens (st : GlyphStore.t) : gmap string GlyphToken.t :=
  map_imap (fun glyph_id j => Some (current st glyph_id j)) (GlyphStore.glyphs_path st).

(** The number of stored tokens that are not expired at [now]. *)
Definition active_count (now : py.datetime) (st : GlyphStore.t) : nat :=
  size (filter (fun kv => GlyphToken.is_expired now kv.2 = false) (tokens st)).

(** A store is well formed when every cached reference names an object,
    and every file that is not cached holds a document that validates. *)
Definition store_wf (st : GlyphStore.t) : Prop :=
  (forall glyph_id l,
      GlyphStore._glyph_cache st !! glyph_id = Some l ->
      is_Some (GlyphStore.objects st !! l))
  /\ (forall glyph_id j,
      GlyphStore.glyphs_path st !! glyph_id = Some j ->
      GlyphStore._glyph_cache st !! glyph_id = None ->
      GlyphToken.model_validate_json j = Ok j).

(** The id that the next state glyph gets, the token that [_handle_state]
    builds for a message, and the results of its validation. *)
Definition next_glyph_id (self : GlyphEngine.t) : string :=
  ("G-" ++ py.zfill 3 (S (GlyphEngine._glyph_counter self)))%string.

Definition state_glyph (now : py.datetime) (msg : InputMessage.t) (self : GlyphEngine.t)
    : py.result GlyphToken.t :=
  GlyphEngine.build_glyph now (next_glyph_id self)
    (EngineConfig.default_ttl_seconds (GlyphEngine.config self)) msg.

Definition state_results (now : py.datetime) (msg : InputMessage.t) (self : GlyphEngine.t)
    (g : GlyphToken.t) : list ValidatorResult.t :=
  ValidatorEngine.validate_transition (GlyphEngine.validator self) "V-01"
    (GlyphEngine.state_context g msg) now.

(** The response of a request that was turned away at the ceiling. *)
Definition limit_reached (now : py.datetime) : EngineResponse.t :=
  GlyphEngine.failure "Glyph limit reached. Run consolidation or wait for decay." now.

(** The token after the field overrides of a reframe payload. *)
Definition reframed (payload : Payload.t) (g : GlyphToken.t) : GlyphToken.t :=
  let g1 :=
    match Payload.class payload with
    | Some c =>
        match GlyphClass.of_value c with
        | Ok glyph_class => GlyphToken.set_glyph_class glyph_class g
        | Raised _ => g
        end
    | None => g
    end in
  let g2 :=
    match Payload.explanation payload with
    | Some e => GlyphToken.set_explanation e g1
    | None => g1
    end in
  match Payload.intensity payload with
  | Some i => GlyphToken.set_intensity i g2
  | None => g2
  end.

(** The store with another heap. *)
Definition with_objects (objects : list GlyphToken.t) (st : GlyphStore.t) : GlyphStore.t :=
  GlyphStore.mk objects (GlyphStore.glyphs_path st) (GlyphStore.scrolls_path st)
    (GlyphStore.backup_path st) (GlyphStore._transaction st) (GlyphStore._tx_counter st)
    (GlyphStore._glyph_cache st) (GlyphStore._scroll_cache st).

(** The response of a reframe that the scroll does not permit. *)
Definition transform_refused (now : py.datetime) : EngineResponse.t :=
  GlyphEngine.failure "Transform not allowed in current scroll" now.

(** One store extends another when loads led from the first to the
    second: the files and the tokens are the same, every cached reference
    is still cached, and the second store is well formed. *)
Record extends (st st' : GlyphStore.t) : Prop := {
  ext_files : GlyphStore.glyphs_path st' = GlyphStore.glyphs_path st;
  ext_tokens : tokens st' = tokens st;
  ext_cache : GlyphStore._glyph_cache st ⊆ GlyphStore._glyph_cache st';
  ext_wf : store_wf st';
}.

(** Whether [select p] keeps an item. *)
Definition keeps (p : GlyphToken.t -> bool) (st : GlyphStore.t)
    (it : string * GlyphStore.loc) : bool :=
  match GlyphStore.objects st !! it.2 with
  | Some g => p g
  | None => false
  end.

(** What a handler leaves of the engine outside the store, the audit log
    and the glyph counter. *)
Record same_settings (self self' : GlyphEngine.t) : Prop := {
  same_config : GlyphEngine.config self' = GlyphEngine.config self;
  same_validator : GlyphEngine.validator self' = GlyphEngine.validator self;
  same_scrolls : GlyphEngine._scrolls self' = GlyphEngine._scrolls self;
  same_session : GlyphEngine.session_id self' = GlyphEngine.session_id self;
}.

(** The audit log grew by the events [evs]. *)
Definition appended (self self' : GlyphEngine.t) (evs : list AuditEvent.t) : Prop :=
  AuditLog.log (GlyphEngine.audit self') = AuditLog.log (GlyphEngine.audit self) ++ evs.

(** A decidable form of [store_wf]. *)
Definition store_wf_check (st : GlyphStore.t) : bool :=
  forallb (fun kv => bool_decide (is_Some (GlyphStore.objects st !! kv.2)))
          (map_to_list (GlyphStore._glyph_cache st))
  && forallb (fun kv =>
                match GlyphStore._glyph_cache st !! kv.1 with
                | Some _ => true
                | None =>
                    match GlyphToken.model_validate_json kv.2 with
                    | Ok _ => true
                    | Raised _ => false
                    end
                end)
             (map_to_list (GlyphStore.glyphs_path st)).

(** Engines on a new vault.  The process was started one second before
    [t2025], so the genesis consent glyph expires one second before
    [t2025] plus a day. *)
Definition sample_genesis : list GlyphToken.t :=
  py.ok_or [] (GENESIS_GLYPHS (t2025 - 1000000)).

Definition no_engine : GlyphEngine.t :=
  GlyphEngine.mk EngineConfig.default (GlyphStore.mk [] ∅ ∅ ∅ None 0 ∅ ∅)
    (AuditLog.new []) ∅ ∅ "" 0 ∅.

Definition fresh_engine (ceiling : Z) (scroll_files : gmap string Scroll.t) : GlyphEngine.t :=
  py.ok_or no_engine
    (GlyphEngine.new (EngineConfig.mk ceiling 86400 true true) "5e551041"
       sample_genesis ∅ scroll_files []).

Definition a_day_later : py.datetime := t2025 + 86400000000.

(** An authenticated state request. *)
Definition sample_state : InputMessage.t :=
  InputMessage.mk InputType.STATE
    (Payload.mk (Some "anchor") None None None (Some (7 # 10)) None None
       (Some "Test state glyph") None None None None)
    "user" t2025 None None (Some "test-token") None.

(** An authenticated state request whose explanation names an identity,
    and an engine whose validator V-01 is the lenient one. *)
Definition identity_state : InputMessage.t :=
  InputMessage.mk InputType.STATE
    (Payload.mk (Some "anchor") None None None (Some (7 # 10)) None None
       (Some "This is my identity marker") None None None None)
    "user" t2025 None None (Some "test-token") None.

Definition lenient_engine : GlyphEngine.t :=
  let e := fresh_engine 100 ∅ in
  GlyphEngine.mk (GlyphEngine.config e) (GlyphEngine.store e) (GlyphEngine.audit e)
    {[ "V-01"%string := lenient_validator ]} (GlyphEngine._scrolls e)
    (GlyphEngine.session_id e) (GlyphEngine._glyph_counter e)
    (GlyphEngine._mutation_history e).

(** A session scroll that forbids transformation, an engine on a vault
    that holds it, and a reframe of the genesis anchor. *)
Definition strict_scroll : Scroll.t :=
  Scroll.mk "S-001" "Strict Session Scroll" []
    {[ MutationType.ROTATE; MutationType.ATTENUATE; MutationType.REFRESH; MutationType.DECAY ]}
    {[ MutationType.AMPLIFY; MutationType.TRANSFORM ]}
    [] "V-01" 100.

Definition strict_engine : GlyphEngine.t :=
  fresh_engine 100 {[ "S-001"%string := strict_scroll ]}.

Definition sample_reframe : InputMessage.t :=
  InputMessage.mk InputType.COMMAND
    (Payload.mk (Some "warning") None None None (Some (1 # 4)) None None
       (Some "Rewritten") None None None None)
    "user" t2025 (Some CommandVerb.REFRAME) (Some "G-000") (Some "test-token") None.

(** The names of the checks that [_run_check] implements, and the result
    of a check that passed. *)
Definition implemented_checks : list string :=
  [ "no_identity_fixation"; "ttl_required"; "no_recursive_amplification";
    "authentication_required"; "max_intensity" ]%string.

Definition passing (check : ValidationCheck.t) (validator : Validator.t)
    (now : py.datetime) : ValidatorResult.t :=
  ValidatorResult.mk true (Validator.validator_id validator)
    (ValidationCheck.name check) "Check passed" ValidationAction.ALLOW now.

(** The multi-agent validator as [ValidatorEngine()] registers it. *)
Definition V02 : Validator.t :=
  Validator.mk "V-02" "Multi-Agent Validator"
    [ ValidationCheck.mk "no_ownership_conflict"
        "Cannot mutate glyph owned by another agent without consent" true;
      ValidationCheck.mk "no_race_condition" "Check for concurrent modification attempts" true ]
    ValidationAction.REQUEST_CONFIRMATION "1.0.0" (Some "05ccffbb233231cf").

(** The audit logs that calls of [create_event] lead to from the log
    [self0]. *)
Inductive created_from (self0 : AuditLog.t) : AuditLog.t -> Prop :=
| created_from_refl : created_from self0 self0
| created_from_step (self : AuditLog.t) (now : py.datetime)
    (event_type : AuditEventType.t) (glyph_id : string) (reason : py.text)
    (source : string) (session_id : option string)
    (before_state after_state : option py.dict) (validator_id : option string)
    (validation_results : option (list py.dict)) :
    created_from self0 self ->
    created_from self0
      (AuditLog.create_event now event_type glyph_id reason source session_id
         before_state after_state validator_id validation_results self).1.

(** Tests on the events of a log. *)
Definition is_type (event_type : AuditEventType.t) (e : AuditEvent.t) : bool :=
  bool_decide (AuditEvent.event_type e = event_type).

Definition has_after_state (e : AuditEvent.t) : bool :=
  py.truthy (AuditEvent.after_state e).

Definition stamped (t : py.datetime) (e : AuditEvent.t) : bool :=
  bool_decide (AuditEvent.timestamp e = t).









(** A refresh of the genesis anchor by one hour. *)
Definition sample_refresh : InputMessage.t :=
  InputMessage.mk InputType.COMMAND
    (Payload.mk None None None None None None None None None None (Some 3600) None)
    "user" t2025 (Some CommandVerb.REFRESH) (Some "G-000") (Some "test-token") None.


(** A forget of the genesis anchor, and of a glyph that does not exist. *)
Definition sample_forget : InputMessage.t :=
  InputMessage.mk InputType.COMMAND Payload.empty
    "user" t2025 (Some CommandVerb.FORGET) (Some "G-000") (Some "test-token") None.


(** A refresh of the genesis anchor by ten thousand years. *)
Definition overlong_refresh : InputMessage.t :=
  InputMessage.mk InputType.COMMAND
    (Payload.mk None None None None None None None None None None (Some 315360000000) None)
    "user" t2025 (Some CommandVerb.REFRESH) (Some "G-000") (Some "test-token") None.

(** The verbs that need a target. *)
Definition targeted_verbs : list CommandVerb.t :=
  [ CommandVerb.FORGET; CommandVerb.REFRAME; CommandVerb.REFRESH; CommandVerb.ATTENUATE ].

(** A parser of ISO dates that knows one date, and raw inputs: a forget
    command with its target, and a state input that carries a misspelt
    verb. *)
Definition sample_fromisoformat (s : string) : option py.datetime :=
  if String.eqb s "2025-11-30T08:00:00" then Some t2025 else None.

Definition raw_forget : RawInput.t :=
  RawInput.mk (Some "command") None None (Some "2025-11-30T08:00:00") (Some "forget")
    (Some "G-000") (Some "test-token") None.

Definition raw_state_with_verb : RawInput.t :=
  RawInput.mk (Some "state") None None None (Some "forgett") None None None.


(** A reframe of the genesis anchor that sets its intensity to 5. *)
Definition intense_reframe : InputMessage.t :=
  InputMessage.mk InputType.COMMAND
    (Payload.mk None None None None (Some 5%Q) None None None None None None None)
    "user" t2025 (Some CommandVerb.REFRAME) (Some "G-000") (Some "test-token") None.

(** The store of a process started later on the same files. *)
Definition restarted (st : GlyphStore.t) : GlyphStore.t :=
  GlyphStore.mk [] (GlyphStore.glyphs_path st) (GlyphStore.scrolls_path st)
    (GlyphStore.backup_path st) None 0 ∅ ∅.

(** The scroll that [load_scroll] yields for an id that has a file: the
    cached one when there is one, and else the document.  The scroll
    files are valid when every document that is not cached validates. *)
Definition visible_scroll (st : GlyphStore.t) (scroll_id : string) : option Scroll.t :=
  match GlyphStore._scroll_cache st !! scroll_id with
  | Some scroll => Some scroll
  | None => GlyphStore.scrolls_path st !! scroll_id
  end.

Definition scrolls_valid (st : GlyphStore.t) : Prop :=
  forall scroll_id j,
    GlyphStore.scrolls_path st !! scroll_id = Some j ->
    GlyphStore._scroll_cache st !! scroll_id = None ->
    Scroll.model_validate j = Ok j.

(** The scrolls that the engine falls back to. *)
Definition builtin_scroll (scroll_id : string) : option Scroll.t :=
  if String.eqb scroll_id "S-000" then Some GENESIS_SCROLL
  else if String.eqb scroll_id "S-001" then Some STANDARD_SCROLL
  else None.

(** A vault that holds the strict session scroll and one more scroll. *)
Definition scroll_vault : GlyphStore.t :=
  GlyphStore.mk [] ∅ {[ "S-001"%string := strict_scroll; "S-901"%string := pinned_scroll ]}
    ∅ None 0 ∅ ∅.

(** An attenuation of the genesis anchor by the factor 3. *)
Definition sample_attenuate : InputMessage.t :=
  InputMessage.mk InputType.COMMAND
    (Payload.mk None None None None None None None None None None None (Some 3%Q))
    "user" t2025 (Some CommandVerb.ATTENUATE) (Some "G-000") (Some "test-token") None.
(** * Theorems *)

(** ** [hashlib]: the test vectors of FIPS 180-4 *)

Example sha256_abc :
  hashlib.sha256_hexdigest (hashlib.encode "abc")
  = "ba7816bf8f01cfea414140de5dae2223b00361a396177a9cb410ff61f20015ad"%string.
Proof. vm_compute. reflexivity. Qed.

Example sha256_empty :
  hashlib.sha256_hexdigest (hashlib.encode "")
  = "e3b0c44298fc1c149afbf4c8996fb92427ae41e4649b934ca495991b7852b855"%string.
Proof. vm_compute. reflexivity. Qed.

Example sha256_constants :
  length hashlib.K = 64%nat
  /\ hashlib.K !! 0%nat = Some 0x428a2f98 /\ hashlib.K !! 63%nat = Some 0xc67178f2
  /\ hashlib.H0 !! 0%nat = Some 0x6a09e667 /\ hashlib.H0 !! 7%nat = Some 0x5be0cd19.
Proof. repeat split. Qed.

(** ** token.py *)

Section Token.

Import GlyphToken.

Example sample_token_constructed :
  new t2025 "G-001" GlyphClass.ANCHOR (GlyphVector.mk 0 0 (1 # 2)) (1 # 2)
      "user" "paul" 86400 None None "Test anchor glyph" None
  = Ok sample_token.
Proof. reflexivity. Qed.

Lemma model_post_init_derived created ttl e :
  model_post_init created ttl None = Ok e -> e = created + ttl * 1000000.
Proof.
  unfold model_post_init, py.timedelta_seconds, py.datetime_add.
  repeat case_bool_decide; congruence.
Qed.

Lemma new_fields now gid cls vec i src own ttl created expires expl par g :
  new now gid cls vec i src own ttl created expires expl par = Ok g ->
  glyph_id g = gid /\ intensity g = i /\ ttl_seconds g = ttl /\
  created_at g = default now created /\ explanation g = expl /\
  fields_valid i ttl expl = true /\
  model_post_init (default now created) ttl expires = Ok (expires_at g).
Proof.
  unfold new. destruct (fields_valid i ttl expl); [|discriminate].
  destruct (model_post_init _ _ _) as [e|]; [|discriminate].
  intros [= <-]. simpl. auto 10.
Qed.

Lemma refresh_ok now extra g g' :
  refresh now extra g = (g', Ok tt) ->
  ttl_seconds g' = ttl_seconds g + extra /\
  expires_at g' = now + ttl_seconds g' * 1000000 /\
  created_at g' = created_at g /\ intensity g' = intensity g.
Proof.
  unfold refresh, py.timedelta_seconds, py.datetime_add. simpl.
  repeat case_bool_decide; intros [= <-]; simpl; auto.
Qed.

(** C1, as amended.  A token constructed without an explicit expiry
    expires at its creation time plus its TTL (in microseconds).  A
    [refresh(extra)] that returns adds [extra] to the TTL and sets the
    expiry to the time of the call plus the new TTL; the creation time is
    left as it was. *)
Theorem C1_expiry_from_ttl :
  (forall now gid cls vec i src own ttl created expl par g,
      new now gid cls vec i src own ttl created None expl par = Ok g ->
      expires_at g = created_at g + ttl_seconds g * 1000000)
  /\
  (forall now extra g g',
      refresh now extra g = (g', Ok tt) ->
      ttl_seconds g' = ttl_seconds g + extra /\
      expires_at g' = now + ttl_seconds g' * 1000000 /\
      created_at g' = created_at g).
Proof.
  split.
  - intros * H. apply new_fields in H as (_ & _ & -> & -> & _ & _ & H).
    by apply model_post_init_derived in H.
  - intros * H. apply refresh_ok in H. tauto.
Qed.

(** C1 at the sample token, refreshed by one hour five seconds after its
    creation. *)
Lemma C1_expiry_from_ttl_witness :
  expires_at sample_token = created_at sample_token + ttl_seconds sample_token * 1000000
  /\ (let g' := (refresh (t2025 + 5000000) 3600 sample_token).1 in
      ttl_seconds g' = 90000 /\ expires_at g' = t2025 + 5000000 + 90000 * 1000000).
Proof.
  split.
  - exact (proj1 C1_expiry_from_ttl t2025 _ _ _ _ _ _ _ None _ _ _ sample_token_constructed).
  - pose proof (proj2 C1_expiry_from_ttl (t2025 + 5000000) 3600 sample_token _ eq_refl)
      as (H1 & H2 & _).
    split; [exact H1 | exact H2].
Defined.

(** C1 as stated fails: five seconds after its creation the sample token
    is refreshed by one hour, and its expiry is then five seconds later
    than its creation time plus its TTL. *)
Lemma C1_refresh_counterexample :
  exists g',
    refresh (t2025 + 5000000) 3600 sample_token = (g', Ok tt) /\
    expires_at g' <> created_at g' + ttl_seconds g' * 1000000.
Proof. eexists. split; [reflexivity | simpl; unfold t2025; lia]. Qed.

Lemma py_max_ge_l a b : (a <= py.max a b)%Q.
Proof.
  unfold py.max. destruct (Qlt_le_dec a b); [by apply Qlt_le_weak | apply Qle_refl].
Qed.

Lemma py_max_zero_of_nonneg b : (0 <= b)%Q -> (py.max 0 b == b)%Q.
Proof.
  intros H. unfold py.max. destruct (Qlt_le_dec 0 b); [reflexivity|].
  by apply Qle_antisym.
Qed.

(** C2, as amended.  After [attenuate(f)] the intensity is never
    negative, whatever the factor; it is at most its value before the call
    when that value is not negative and the factor lies in [0, 1]. *)
Theorem C2_attenuate_non_increasing (g : GlyphToken.t) (f : Q) :
  (0 <= intensity (attenuate f g))%Q
  /\ ((0 <= intensity g)%Q -> (0 <= f)%Q -> (f <= 1)%Q ->
      (intensity (attenuate f g) <= intensity g)%Q).
Proof.
  split; simpl.
  - apply py_max_ge_l.
  - intros Hi Hf0 Hf1.
    rewrite py_max_zero_of_nonneg by (by apply Qmult_le_0_compat).
    rewrite <- (Qmult_1_r (intensity g)) at 2.
    rewrite !(Qmult_comm (intensity g)).
    by apply Qmult_le_compat_r.
Qed.

(** C2 at the sample token attenuated by [1/2]. *)
Lemma C2_attenuate_non_increasing_witness :
  (0 <= intensity (attenuate (1 # 2) sample_token))%Q
  /\ (intensity (attenuate (1 # 2) sample_token) <= intensity sample_token)%Q.
Proof.
  destruct (C2_attenuate_non_increasing sample_token (1 # 2)) as [H0 H1].
  split; [exact H0 | apply H1; discriminate].
Defined.

(** C2 as stated fails for a factor above one: the sample token has
    intensity [1/2], and [attenuate(2)] raises it to [1]. *)
Lemma C2_attenuate_counterexample :
  (0 <= 2)%Q /\
  ~ (intensity (attenuate 2 sample_token) <= intensity sample_token)%Q.
Proof. split; [discriminate | vm_compute; auto]. Qed.

End Token.

(** ** scroll.py *)

Section ScrollPolicy.

Import Scroll.

(** C5.  A mutation kind of the forbidden set is not allowed, also when
    it is in the allowed set; any other kind is allowed exactly when it is
    in the allowed set. *)
Theorem C5_is_mutation_allowed (s : Scroll.t) (kind : MutationType.t) :
  (kind ∈ forbidden_mutations s -> is_mutation_allowed s kind = false)
  /\ (kind ∉ forbidden_mutations s ->
      (is_mutation_allowed s kind = true <-> kind ∈ allowed_mutations s)).
Proof.
  unfold is_mutation_allowed. split; intros H.
  - by rewrite bool_decide_eq_true_2.
  - rewrite bool_decide_eq_false_2 by done. apply bool_decide_eq_true.
Qed.

(** C5 on a scroll whose allowed and forbidden sets share a kind. *)
Lemma C5_is_mutation_allowed_witness :
  MutationType.AMPLIFY ∈ allowed_mutations conflicted_scroll
  /\ is_mutation_allowed conflicted_scroll MutationType.AMPLIFY = false
  /\ is_mutation_allowed conflicted_scroll MutationType.ROTATE = true.
Proof.
  split; [set_solver|]. split.
  - apply (proj1 (C5_is_mutation_allowed conflicted_scroll MutationType.AMPLIFY)).
    set_solver.
  - apply (proj2 (C5_is_mutation_allowed conflicted_scroll MutationType.ROTATE));
      set_solver.
Defined.

(** The loop of [can_transition] returns [True] exactly when the list
    holds a transition with the three given components. *)
Lemma transition_found_iff ts from_id to_id kind :
  transition_found ts from_id to_id kind = true <->
  exists t, t ∈ ts
            /\ ScrollTransition.from_glyph_id t = from_id
            /\ ScrollTransition.to_glyph_id t = to_id
            /\ ScrollTransition.mutation_type t = kind.
Proof.
  induction ts as [|t ts IH]; simpl.
  - split; [discriminate | intros (t & Ht & _); by apply elem_of_nil in Ht].
  - destruct (String.eqb_spec (ScrollTransition.from_glyph_id t) from_id) as [Hf|Hf];
      destruct (String.eqb_spec (ScrollTransition.to_glyph_id t) to_id) as [Ht|Ht];
      simpl; try case_bool_decide as Hk;
      (split;
       [ intros H; first [ by exists t; split; [left|] | apply IH in H as (t' & ? & ?); exists t'; split; [by right | done] ]
       | intros (t' & [->|Hin]%elem_of_cons & Hf' & Ht' & Hk');
         first [ done | congruence | apply IH; by exists t' ] ]).
Qed.

(** C4.  [can_transition] is false when the mutation kind is not allowed
    by the scroll.  When it is allowed and the scroll lists transitions,
    the answer is true exactly when a listed transition has the given
    from id, to id and mutation kind; when the list is empty the answer is
    true. *)
Theorem C4_can_transition (s : Scroll.t) (from_id to_id : string) (kind : MutationType.t) :
  (is_mutation_allowed s kind = false -> can_transition s from_id to_id kind = false)
  /\ (is_mutation_allowed s kind = true ->
      (transitions s <> [] ->
       (can_transition s from_id to_id kind = true <->
        exists t, t ∈ transitions s
                  /\ ScrollTransition.from_glyph_id t = from_id
                  /\ ScrollTransition.to_glyph_id t = to_id
                  /\ ScrollTransition.mutation_type t = kind))
      /\ (transitions s = [] -> can_transition s from_id to_id kind = true)).
Proof.
  unfold can_transition. split; [by intros -> | intros ->]. simpl. split.
  - intros Hne. rewrite <- transition_found_iff.
    destruct (transition_found _ _ _ _); [done|].
    rewrite bool_decide_eq_false_2; [done|].
    by destruct (transitions s).
  - by intros ->.
Qed.

(** C4 on the genesis scroll (no explicit transition) and on a scroll
    with one. *)
Lemma C4_can_transition_witness :
  can_transition GENESIS_SCROLL "G-000" "G-001" MutationType.AMPLIFY = false
  /\ can_transition GENESIS_SCROLL "G-000" "G-001" MutationType.ROTATE = true
  /\ can_transition pinned_scroll "G-001" "G-002" MutationType.ROTATE = true
  /\ can_transition pinned_scroll "G-001" "G-003" MutationType.ROTATE <> true.
Proof.
  split; [|split; [|split]].
  - apply (proj1 (C4_can_transition GENESIS_SCROLL "G-000" "G-001" MutationType.AMPLIFY)).
    by vm_compute.
  - destruct (proj2 (C4_can_transition GENESIS_SCROLL "G-000" "G-001" MutationType.ROTATE))
      as [_ H]; [by vm_compute | by apply H].
  - destruct (proj2 (C4_can_transition pinned_scroll "G-001" "G-002" MutationType.ROTATE))
      as [H _]; [by vm_compute |].
    apply H; [done |]. eexists. split; [by left | done].
  - intros Hc.
    destruct (proj2 (C4_can_transition pinned_scroll "G-001" "G-003" MutationType.ROTATE))
      as [H _]; [by vm_compute |].
    apply H in Hc as (t & Ht & _ & Hto & _); [| done].
    apply list_elem_of_singleton in Ht as ->. discriminate Hto.
Defined.

End ScrollPolicy.

(** ** validator.py *)

Section Validation.

Import ValidatorEngine.

Example V01_registered : ValidatorEngine.new !! "V-01"%string = Some V01.
Proof. vm_compute. reflexivity. Qed.

Lemma run_checks_no_halt checks context validator now :
  Forall (fun c => halts context validator now c = false) checks ->
  run_checks checks context validator now
  = map (fun c => _run_check c context validator now) checks.
Proof.
  induction 1 as [|c cs Hc _ IH]; simpl; [done|].
  unfold halts in Hc. rewrite Hc. by rewrite IH.
Qed.

Lemma run_checks_halt pre c post context validator now :
  Forall (fun c => halts context validator now c = false) pre ->
  halts context validator now c = true ->
  run_checks (pre ++ c :: post) context validator now
  = map (fun c => _run_check c context validator now) (pre ++ [c]).
Proof.
  intros Hpre Hc. induction Hpre as [|d ds Hd _ IH]; simpl.
  - unfold halts in Hc. by rewrite Hc.
  - unfold halts in Hd. rewrite Hd. by rewrite IH.
Qed.

(** Every check list either has no halting check, or splits at its first
    one. *)
Lemma first_halt_split (p : ValidationCheck.t -> bool) (checks : list ValidationCheck.t) :
  Forall (fun c => p c = false) checks
  \/ exists pre c post,
       checks = pre ++ c :: post /\ Forall (fun c => p c = false) pre /\ p c = true.
Proof.
  induction checks as [|c cs IH]; [by left|].
  destruct (p c) eqn:Hc.
  - right. exists [], c, cs. by repeat split.
  - destruct IH as [IH | (pre & d & post & -> & Hpre & Hd)].
    + left. by constructor.
    + right. exists (c :: pre), d, post. repeat split; [|done]. by constructor.
Qed.

(** C7.  For a known validator whose integrity check passes, the results
    are those of the declared checks, in the order of the declaration:
    of all of them when no check halts the run, and otherwise of the
    checks up to and including the first one that fails and is critical.
    A check that fails without being critical does not halt the run. *)
Theorem C7_checks_in_order (validators : ValidatorEngine.t) (validator_id : string)
    (v : Validator.t) (context : Context.t) (now : py.datetime) :
  validators !! validator_id = Some v ->
  Validator.verify_integrity v = true ->
  let run := fun c => _run_check c context v now in
  let results := validate_transition validators validator_id context now in
  (Forall (fun c => halts context v now c = false) (Validator.checks v)
   /\ results = map run (Validator.checks v))
  \/ (exists pre c post,
        Validator.checks v = pre ++ c :: post
        /\ Forall (fun c => halts context v now c = false) pre
        /\ ValidatorResult.passed (run c) = false
        /\ ValidationCheck.is_critical c = true
        /\ results = map run (pre ++ [c])).
Proof.
  intros Hv Hint. simpl. unfold validate_transition, get_validator.
  rewrite Hv, Hint. simpl.
  destruct (first_halt_split (halts context v now) (Validator.checks v))
    as [Hall | (pre & c & post & Hsplit & Hpre & Hc)].
  - left. split; [done|]. by apply run_checks_no_halt.
  - right. exists pre, c, post. rewrite Hsplit.
    pose proof Hc as Hc'. unfold halts in Hc'.
    apply andb_true_iff in Hc' as [Hfail%negb_true_iff Hcrit].
    repeat split; [done..|]. by apply run_checks_halt.
Qed.

(** C7 on a validator whose first check fails without being critical and
    whose third check fails and is critical: three results come back, the
    fourth check is not run. *)
Lemma C7_checks_in_order_witness :
  map ValidatorResult.check_name
      (validate_transition {[ "V-01"%string := lenient_validator ]} "V-01" anonymous_context t2025)
  = ["no_identity_fixation"; "ttl_required"; "authentication_required"]%string
  /\ map ValidatorResult.passed
      (validate_transition {[ "V-01"%string := lenient_validator ]} "V-01" anonymous_context t2025)
  = [false; true; false].
Proof.
  destruct (C7_checks_in_order {[ "V-01"%string := lenient_validator ]} "V-01"
              lenient_validator anonymous_context t2025
              (lookup_singleton_eq _ _) eq_refl)
    as [[_ _] | (pre & c & post & _ & _ & _ & _ & _)];
    split; vm_compute; reflexivity.
Defined.

Lemma integrity_mismatch (validators : ValidatorEngine.t) (validator_id : string)
    (v : Validator.t) (stored : string) (context : Context.t) (now : py.datetime) :
  validators !! validator_id = Some v ->
  Validator.checksum v = Some stored ->
  Validator.compute_checksum v <> stored ->
  validate_transition validators validator_id context now
  = [integrity_failure validator_id now].
Proof.
  intros Hv Hsum Hne. unfold validate_transition, get_validator, Validator.verify_integrity.
  rewrite Hv, Hsum.
  destruct (String.eqb_spec (Validator.compute_checksum v) stored); [done|].
  reflexivity.
Qed.

(** C3, as amended.  Take a validator registered with the checksum
    computed from it, and replace its check list without touching the
    stored checksum.  When the new list changes the recomputed checksum
    (which covers the id, the version, the number of checks and the name
    and critical flag of each check), every [validate_transition] against
    the validator returns the single failing result of the integrity
    check, with the action halt, whatever the checks and the context. *)
Theorem C3_integrity_before_content (validators : ValidatorEngine.t)
    (validator_id : string) (v : Validator.t) (checks' : list ValidationCheck.t)
    (context : Context.t) (now : py.datetime) :
  validators !! validator_id = Some v ->
  Validator.checksum v = Some (Validator.compute_checksum v) ->
  Validator.compute_checksum (Validator.set_checks checks' v)
    <> Validator.compute_checksum v ->
  let results :=
    validate_transition (<[validator_id := Validator.set_checks checks' v]> validators)
      validator_id context now in
  results = [integrity_failure validator_id now]
  /\ Forall (fun r => ValidatorResult.passed r = false
                      /\ ValidatorResult.action r = ValidationAction.HALT
                      /\ ValidatorResult.check_name r = "validator_integrity"%string) results.
Proof.
  intros Hv Hsum Hne. simpl.
  rewrite (integrity_mismatch _ validator_id (Validator.set_checks checks' v)
             (Validator.compute_checksum v) context now);
    [| by rewrite lookup_insert_eq | done | done].
  split; [done|]. by repeat constructor.
Qed.

(** C3 on the standard validator after two of its checks were removed:
    the request that passed before is now answered by the integrity
    failure alone. *)
Lemma C3_integrity_before_content_witness :
  validate_transition
    (<["V-01"%string := Validator.set_checks V01_checks_shortened V01]> ValidatorEngine.new)
    "V-01" sample_context t2025
  = [integrity_failure "V-01" t2025].
Proof.
  refine (proj1 (C3_integrity_before_content ValidatorEngine.new "V-01" V01
                   V01_checks_shortened sample_context t2025 V01_registered _ _)).
  - vm_compute. reflexivity.
  - vm_compute. discriminate.
Defined.

(** C3 as stated fails: the description of a check of the standard
    validator is rewritten and the stored checksum is left alone; the
    integrity check does not notice, and all five checks run and pass. *)
Lemma C3_description_counterexample :
  let v' := Validator.set_checks V01_checks_redescribed V01 in
  let results :=
    validate_transition (<["V-01"%string := v']> ValidatorEngine.new)
      "V-01" sample_context t2025 in
  ValidatorEngine.new !! "V-01"%string = Some V01
  /\ Validator.checks v' <> Validator.checks V01
  /\ Validator.checksum v' = Validator.checksum V01
  /\ results <> [integrity_failure "V-01" t2025]
  /\ map ValidatorResult.passed results = [true; true; true; true; true].
Proof.
  simpl. split; [exact V01_registered|].
  split; [discriminate|]. split; [reflexivity|].
  split; [vm_compute; discriminate | vm_compute; reflexivity].
Qed.

End Validation.

(** ** audit.py *)

Section Archaeology.

Import AuditLog.

(** A list whose keys never decrease is left as it is by [sorted]. *)
Lemma sorted_of_sorted {A : Type} (key : A -> Z) (l : list A) :
  Sorted (fun a b => key a <= key b) l -> py.sorted key l = l.
Proof.
  induction 1 as [|a l Hl IH Hhd]; simpl; [done|].
  rewrite IH. destruct Hhd as [|b l' Hab]; simpl; [done|].
  by rewrite (proj2 (Z.leb_le _ _) Hab).
Qed.

(** C8.  Let the events of one token be, in the order of the log and
    with timestamps that do not decrease: a created event, two mutated
    events of which the second carries a (non-empty) after-state, and a
    forgotten event without after-state.  The reconstructed history then
    has that created event as its creation event, exactly the two mutated
    events as its mutations, and the after-state of the second mutated
    event as its current state. *)
Theorem C8_reconstruct_created_mutated_forgotten (self : AuditLog.t) (glyph_id : string)
    (c m1 m2 f : AuditEvent.t) (s2 : py.dict) :
  query_by_glyph self glyph_id = [c; m1; m2; f] ->
  AuditEvent.event_type c = AuditEventType.CREATED ->
  AuditEvent.event_type m1 = AuditEventType.MUTATED ->
  AuditEvent.event_type m2 = AuditEventType.MUTATED ->
  AuditEvent.event_type f = AuditEventType.FORGOTTEN ->
  AuditEvent.after_state m2 = Some s2 -> s2 <> [] ->
  AuditEvent.after_state f = None ->
  AuditEvent.timestamp c <= AuditEvent.timestamp m1 ->
  AuditEvent.timestamp m1 <= AuditEvent.timestamp m2 ->
  AuditEvent.timestamp m2 <= AuditEvent.timestamp f ->
  let history := reconstruct_glyph_history self glyph_id in
  History.total_events history = 4%nat
  /\ History.creation_event history = Some (TimelineEntry.of_event c)
  /\ History.mutations history = [TimelineEntry.of_event m1; TimelineEntry.of_event m2]
  /\ length (History.mutations history) = 2%nat
  /\ History.current_state history = Some s2.
Proof.
  intros Hq Hc Hm1 Hm2 Hf Hs2 Hne Hsf Ht1 Ht2 Ht3. simpl.
  unfold reconstruct_glyph_history. rewrite Hq.
  rewrite sorted_of_sorted by (repeat constructor; done).
  simpl. unfold history_step; simpl.
  rewrite Hc, Hm1, Hm2, Hf, Hs2, Hsf. simpl.
  destruct s2 as [|kv s2]; [done|]. simpl.
  repeat split.
Qed.

(** C8 on the log of a session that created the sample token, attenuated
    it twice and forgot it. *)
Lemma C8_reconstruct_created_mutated_forgotten_witness :
  let history := reconstruct_glyph_history sample_log "G-001" in
  History.total_events history = 4%nat
  /\ TimelineEntry.event_id <$> History.creation_event history = Some "A-000001"%string
  /\ map TimelineEntry.event_id (History.mutations history)
     = ["A-000002"; "A-000004"]%string
  /\ History.current_state history = Some (GlyphToken.model_dump sample_token_2).
Proof.
  destruct (query_by_glyph sample_log "G-001") as [|c [|m1 [|m2 [|f [|]]]]] eqn:Hq;
    try (vm_compute in Hq; discriminate Hq).
  pose proof (C8_reconstruct_created_mutated_forgotten sample_log "G-001" c m1 m2 f
                (GlyphToken.model_dump sample_token_2) Hq) as H.
  vm_compute in Hq. injection Hq as <- <- <- <-.
  destruct H as (H1 & H2 & H3 & _ & H5);
    try reflexivity; try discriminate; try (vm_compute; discriminate).
  cbv zeta. rewrite H1, H2, H3, H5. repeat split.
Defined.

End Archaeology.

(** ** store.py *)

Section StoreFacts.

Import GlyphStore.

Lemma validate_json_ok j g : GlyphToken.model_validate_json j = Ok g -> g = j.
Proof. unfold GlyphToken.model_validate_json. case_match; congruence. Qed.

Lemma tokens_lookup st gid :
  tokens st !! gid = current st gid <$> glyphs_path st !! gid.
Proof. unfold tokens. rewrite map_lookup_imap. by destruct (glyphs_path st !! gid). Qed.

Lemma tokens_cached st gid l g :
  store_wf st -> _glyph_cache st !! gid = Some l -> tokens st !! gid = Some g ->
  objects st !! l = Some g.
Proof.
  intros [Hwf _] Hc. rewrite tokens_lookup. unfold current. rewrite Hc.
  destruct (Hwf _ _ Hc) as [x Hx]. rewrite Hx.
  destruct (glyphs_path st !! gid); simpl; congruence.
Qed.

Lemma extends_refl st : store_wf st -> extends st st.
Proof. by split. Qed.

Lemma extends_trans st1 st2 st3 : extends st1 st2 -> extends st2 st3 -> extends st1 st3.
Proof.
  intros [] []. split; [congruence | congruence | by etrans | done].
Qed.

Lemma load_glyph_stored st gid j :
  store_wf st -> glyphs_path st !! gid = Some j ->
  exists st' l,
    load_glyph gid st = (st', Ok (Some l))
    /\ extends st st'
    /\ _glyph_cache st' !! gid = Some l.
Proof.
  intros Hwf Hj. unfold load_glyph.
  destruct (_glyph_cache st !! gid) as [l|] eqn:Hc.
  { exists st, l. split; [done|]. split; [by apply extends_refl | done]. }
  rewrite Hj. destruct Hwf as [Hobj Hval]. rewrite (Hval _ _ Hj Hc).
  eexists _, _. split; [reflexivity|]. split; [|by simpl; rewrite lookup_insert_eq].
  split; simpl.
  - done.
  - apply map_eq. intros k. rewrite !tokens_lookup. simpl.
    destruct (glyphs_path st !! k) as [jk|] eqn:Hk; [simpl|done]. f_equal.
    unfold current. simpl. destruct (decide (k = gid)) as [->|Hne].
    + rewrite lookup_insert_eq, Hc. rewrite lookup_app_r by done.
      rewrite Nat.sub_diag. simpl. congruence.
    + rewrite lookup_insert_ne by done.
      destruct (_glyph_cache st !! k) as [lk|] eqn:Hck; [|done].
      destruct (Hobj _ _ Hck) as [x Hx].
      by rewrite (lookup_app_l_Some _ _ _ _ Hx), Hx.
  - by apply insert_subseteq.
  - split; simpl.
    + intros k lk. destruct (decide (k = gid)) as [->|Hne].
      * rewrite lookup_insert_eq. intros [= <-].
        rewrite lookup_app_r by done. rewrite Nat.sub_diag. by eexists.
      * rewrite lookup_insert_ne by done. intros Hk.
        destruct (Hobj _ _ Hk) as [x Hx]. exists x. by apply lookup_app_l_Some.
    + intros k jk Hk. destruct (decide (k = gid)) as [->|Hne].
      * by rewrite lookup_insert_eq.
      * rewrite lookup_insert_ne by done. by apply Hval.
Qed.


Lemma get_all_loop_spec ids : forall st acc,
  store_wf st ->
  (forall gid, gid ∈ ids -> is_Some (glyphs_path st !! gid)) ->
  exists st' items,
    get_all_loop ids acc st = (st', Ok (acc ++ items))
    /\ extends st st'
    /\ items.*1 = ids
    /\ Forall (fun it => _glyph_cache st' !! it.1 = Some it.2) items.
Proof.
  induction ids as [|gid ids IH]; intros st acc Hwf Hids; simpl.
  - exists st, []. rewrite app_nil_r.
    split; [done|]. split; [by apply extends_refl|]. by split.
  - destruct (Hids gid) as [j Hj]; [by left|].
    destruct (load_glyph_stored st gid j Hwf Hj) as (st1 & l & Hload & Hext1 & Hc1).
    unfold py.bind. rewrite Hload.
    destruct (IH st1 (acc ++ [(gid, l)])) as (st' & items & Hloop & Hext & Hfst & Hall).
    { apply Hext1. }
    { intros k Hk. rewrite (ext_files _ _ Hext1). apply Hids. by right. }
    exists st', ((gid, l) :: items). rewrite Hloop, <- app_assoc.
    split; [done|]. split; [by eapply extends_trans|].
    split; [by rewrite fmap_cons, Hfst|].
    constructor; [|done]. simpl.
    eapply lookup_weaken; [exact Hc1 | apply Hext].
Qed.

Lemma get_all_glyphs_spec st :
  store_wf st ->
  exists st' items,
    get_all_glyphs st = (st', Ok items)
    /\ extends st st'
    /\ items.*1 = list_glyphs st
    /\ Forall (fun it => _glyph_cache st' !! it.1 = Some it.2) items.
Proof.
  intros Hwf. unfold get_all_glyphs.
  destruct (get_all_loop_spec (list_glyphs st) st [] Hwf) as (st' & items & H).
  - intros gid [[k j] [-> Hin]]%list_elem_of_fmap. simpl.
    apply elem_of_map_to_list in Hin. by eexists.
  - by exists st', items.
Qed.

Lemma select_spec p st items :
  store_wf st ->
  Forall (fun it => _glyph_cache st !! it.1 = Some it.2) items ->
  select p items st = (st, Ok (List.filter (keeps p st) items)).
Proof.
  intros [Hobj _]. induction 1 as [|[gid l] items Hit _ IH]; simpl; [done|].
  unfold py.bind, deref at 1. simpl in Hit.
  destruct (Hobj _ _ Hit) as [g Hg]. unfold keeps at 1. simpl. rewrite Hg.
  rewrite IH. unfold py.ret. by destruct (p g).
Qed.

Lemma list_glyphs_elem st gid :
  gid ∈ list_glyphs st <-> is_Some (glyphs_path st !! gid).
Proof.
  unfold list_glyphs. rewrite list_elem_of_fmap. split.
  - intros [[k j] [-> Hin]]. apply elem_of_map_to_list in Hin. by eexists.
  - intros [j Hj]. exists (gid, j). split; [done|]. by apply elem_of_map_to_list.
Qed.

Lemma NoDup_fst_filter {A B : Type} (f : A * B -> bool) (l : list (A * B)) :
  NoDup l.*1 -> NoDup (List.filter f l).*1.
Proof.
  induction l as [|a l IH]; [done|].
  rewrite fmap_cons. intros [Hnotin Hnd]%NoDup_cons.
  cbn [List.filter]. destruct (f a); [|by apply IH].
  rewrite fmap_cons. apply NoDup_cons. split; [|by apply IH].
  intros [b [Hb Hin]]%list_elem_of_fmap. apply Hnotin.
  apply list_elem_of_fmap. exists b. split; [done|].
  apply list_elem_of_In. apply list_elem_of_In, filter_In in Hin. tauto.
Qed.

Lemma get_select_spec p st :
  store_wf st ->
  exists st' kept,
    py.bind get_all_glyphs (select p) st = (st', Ok kept)
    /\ extends st st'
    /\ NoDup kept.*1
    /\ Forall (fun it => _glyph_cache st' !! it.1 = Some it.2) kept
    /\ (forall gid, gid ∈ kept.*1 <-> exists g, tokens st !! gid = Some g /\ p g = true).
Proof.
  intros Hwf.
  destruct (get_all_glyphs_spec st Hwf) as (st' & items & Hall & Hext & Hfst & Hcached).
  unfold py.bind. rewrite Hall.
  rewrite (select_spec p st' items (ext_wf _ _ Hext) Hcached).
  exists st', (List.filter (keeps p st') items).
  split; [done|]. split; [done|].
  assert (Hnd : NoDup items.*1) by (rewrite Hfst; apply NoDup_fst_map_to_list).
  split; [|split].
  - by apply NoDup_fst_filter.
  - apply Forall_forall. intros it Hit%list_elem_of_In%filter_In.
    rewrite Forall_forall in Hcached. apply Hcached, list_elem_of_In, Hit.
  - intros gid. rewrite <- (ext_tokens _ _ Hext). split.
    + intros [[k l] [-> Hin]]%list_elem_of_fmap. simpl.
      apply list_elem_of_In, filter_In in Hin as [Hin Hkeep].
      apply list_elem_of_In in Hin.
      rewrite Forall_forall in Hcached. specialize (Hcached _ Hin). simpl in Hcached.
      assert (Hk : k ∈ list_glyphs st').
      { unfold list_glyphs. rewrite (ext_files _ _ Hext).
        fold (list_glyphs st). rewrite <- Hfst. apply list_elem_of_fmap. by exists (k, l). }
      apply list_glyphs_elem in Hk as [j Hj].
      unfold keeps in Hkeep. simpl in Hkeep.
      destruct (objects st' !! l) as [g|] eqn:Hg; [|done].
      exists g. split; [|done]. rewrite tokens_lookup, Hj. simpl.
      unfold current. by rewrite Hcached, Hg.
    + intros (g & Hg & Hp).
      assert (Hk : gid ∈ items.*1).
      { rewrite Hfst. apply list_glyphs_elem. rewrite <- (ext_files _ _ Hext).
        rewrite tokens_lookup in Hg. by destruct (glyphs_path st' !! gid). }
      apply list_elem_of_fmap in Hk as [[k l] [-> Hin]]. simpl in *.
      apply list_elem_of_fmap. exists (k, l). split; [done|].
      apply list_elem_of_In, filter_In. split; [by apply list_elem_of_In|].
      rewrite Forall_forall in Hcached. specialize (Hcached _ Hin). simpl in Hcached.
      unfold keeps. simpl.
      by rewrite (tokens_cached st' k l g (ext_wf _ _ Hext) Hcached Hg).
Qed.

End StoreFacts.

(** ** engine.py *)

Section EngineFacts.

Import GlyphEngine.

Lemma in_store_run {A : Type} (m : py.M GlyphStore.t A) self st' r :
  m (store self) = (st', r) -> in_store m self = (set_store st' self, r).
Proof. intros H. unfold in_store, py.zoom. by rewrite H. Qed.

Lemma same_settings_refl self : same_settings self self.
Proof. by split. Qed.


Lemma filter_delete_cons {A : Type} (m : gmap string A) (gid : string) (ids : list string) :
  filter (fun kv => kv.1 ∉ ids) (delete gid m) = filter (fun kv => kv.1 ∉ gid :: ids) m.
Proof.
  apply map_eq. intros k. apply option_eq. intros x.
  rewrite !map_lookup_filter_Some. simpl. rewrite not_elem_of_cons.
  destruct (decide (k = gid)) as [->|Hne].
  - rewrite lookup_delete_eq. split; [by intros [? _] | by intros [_ [? _]]].
  - rewrite lookup_delete_ne by done. tauto.
Qed.

Lemma decay_loop_spec now expired : forall self removed,
  NoDup expired.*1 ->
  Forall (fun it => is_Some (GlyphStore.glyphs_path (store self) !! it.1)
                    /\ is_Some (GlyphStore.objects (store self) !! it.2)) expired ->
  exists self' evs,
    decay_loop now expired removed self = (self', Ok (removed ++ expired.*1))
    /\ same_settings self self'
    /\ _glyph_counter self' = _glyph_counter self
    /\ appended self self' evs
    /\ Forall (fun e => AuditEvent.event_type e = AuditEventType.EXPIRED) evs
    /\ GlyphStore.objects (store self') = GlyphStore.objects (store self)
    /\ GlyphStore.glyphs_path (store self')
       = filter (fun kv => kv.1 ∉ expired.*1) (GlyphStore.glyphs_path (store self))
    /\ GlyphStore._glyph_cache (store self')
       = filter (fun kv => kv.1 ∉ expired.*1) (GlyphStore._glyph_cache (store self)).
Proof.
  induction expired as [|[gid l] expired IH]; intros self removed Hnd Hall.
  - exists self, []. simpl. rewrite !app_nil_r.
    split; [done|]. split; [apply same_settings_refl|]. split; [done|].
    split; [unfold appended; by rewrite app_nil_r|]. split; [done|]. split; [done|].
    split; symmetry; apply map_filter_id; intros; apply not_elem_of_nil.
  - rewrite fmap_cons in Hnd. apply NoDup_cons in Hnd as [Hnotin Hnd].
    apply Forall_cons in Hall as [[[j Hj] [g Hg]] Hall]. simpl in Hj, Hg, Hnotin.
    cbn [decay_loop]. unfold py.bind at 1.
    erewrite in_store_run;
      [| unfold GlyphStore.delete_glyph; rewrite Hj; reflexivity].
    unfold py.bind at 1.
    erewrite in_store_run;
      [| unfold GlyphStore.deref; simpl; rewrite Hg; reflexivity].
    unfold py.bind at 1. unfold audit_event at 1.
    cbn [AuditLog.create_event].
    match goal with |- context [decay_loop now expired ?r ?s] =>
      remember s as s1 eqn:Hs1;
      destruct (IH s1 r Hnd) as (self' & evs & Hloop & Hset & Hcnt & Happ & Hevs & Hobj & Hfiles & Hcache)
    end.
    { subst s1. simpl. apply Forall_forall. intros [k lk] Hin.
      rewrite Forall_forall in Hall. destruct (Hall _ Hin) as [[jk Hk] Hlk]. simpl in *.
      split; [|done]. exists jk. rewrite lookup_delete_ne; [done|].
      intros ->. apply Hnotin, list_elem_of_fmap. by exists (k, lk). }
    rewrite Hloop. rewrite fmap_cons. cbn [fst].
    unfold appended in *. subst s1. simpl in Hset, Hcnt, Happ, Hobj, Hfiles, Hcache.
    eexists self', (_ :: evs).
    split; [by rewrite <- app_assoc|].
    split; [destruct Hset; split; simpl in *; congruence|].
    split; [done|].
    split; [rewrite Happ, <- app_assoc; reflexivity|].
    split; [by constructor|].
    split; [done|].
    rewrite Hfiles, Hcache. split; apply filter_delete_cons.
Qed.

Lemma kept_count {A : Type} (m : gmap string A) (Q : string * A -> Prop)
    `{!forall kv, Decision (Q kv)} (ids : list string) :
  NoDup ids ->
  (forall gid, gid ∈ ids <-> exists g, m !! gid = Some g /\ Q (gid, g)) ->
  length ids = size (filter Q m).
Proof.
  intros Hnd Hiff. rewrite <- length_map_to_list, <- (length_fmap fst (map_to_list _)).
  apply Permutation_length, NoDup_Permutation; [done | apply NoDup_fst_map_to_list |].
  intros gid. rewrite Hiff, list_elem_of_fmap. split.
  - intros (g & Hg & HQ). exists (gid, g). split; [done|].
    apply elem_of_map_to_list, map_lookup_filter_Some. by split.
  - intros [[k g] [-> Hin]]. simpl.
    apply elem_of_map_to_list, map_lookup_filter_Some in Hin. by exists g.
Qed.

(** The store after the expired tokens were deleted. *)
Lemma swept_store now st st1 (ids : list string) :
  store_wf st ->
  (forall gid, gid ∈ ids <->
     exists g, tokens st !! gid = Some g /\ GlyphToken.is_expired now g = true) ->
  GlyphStore.objects st1 = GlyphStore.objects st ->
  GlyphStore.glyphs_path st1 = filter (fun kv => kv.1 ∉ ids) (GlyphStore.glyphs_path st) ->
  GlyphStore._glyph_cache st1 = filter (fun kv => kv.1 ∉ ids) (GlyphStore._glyph_cache st) ->
  store_wf st1
  /\ tokens st1 = filter (fun kv => GlyphToken.is_expired now kv.2 = false) (tokens st).
Proof.
  intros [Hobj Hval] Hids Ho Hf Hc. split; [split|].
  - intros gid l. rewrite Hc, Ho. intros [Hl _]%map_lookup_filter_Some. by eapply Hobj.
  - intros gid j. rewrite Hf, Hc. intros [Hj Hnotin]%map_lookup_filter_Some Hnone.
    apply (Hval gid j Hj). rewrite map_lookup_filter in Hnone.
    destruct (GlyphStore._glyph_cache st !! gid) as [l|]; [|done]. simpl in *.
    by rewrite option_guard_True in Hnone.
  - apply map_eq. intros k. apply option_eq. intros x.
    rewrite map_lookup_filter_Some, !tokens_lookup. simpl.
    rewrite Hf, map_lookup_filter.
    destruct (GlyphStore.glyphs_path st !! k) as [j|] eqn:Hj; simpl;
      [|split; [done | by intros [? _]]].
    assert (Htok : tokens st !! k = Some (current st k j))
      by (by rewrite tokens_lookup, Hj).
    destruct (decide (k ∈ ids)) as [Hin|Hnotin].
    + rewrite option_guard_False by (simpl; tauto). simpl.
      apply Hids in Hin as (g & Hg & Hexp). rewrite Htok in Hg.
      assert (g = current st k j) as -> by congruence.
      split; [done|]. intros [[= <-] ?]. congruence.
    + rewrite option_guard_True by done. simpl.
      assert (Hcur : current st1 k j = current st k j).
      { unfold current. rewrite Hc, Ho, map_lookup_filter.
        destruct (GlyphStore._glyph_cache st !! k); simpl; [|done].
        by rewrite option_guard_True. }
      rewrite Hcur. split.
      * intros [= <-]. split; [done|].
        destruct (GlyphToken.is_expired now (current st k j)) eqn:Hexp; [|done].
        exfalso. apply Hnotin, Hids. by exists (current st k j).
      * by intros [? _].
Qed.

Lemma run_decay_cycle_spec now self :
  store_wf (store self) ->
  exists self1 removed evs,
    _run_decay_cycle now self = (self1, Ok removed)
    /\ same_settings self self1
    /\ _glyph_counter self1 = _glyph_counter self
    /\ appended self self1 evs
    /\ Forall (fun e => AuditEvent.event_type e = AuditEventType.EXPIRED) evs
    /\ store_wf (store self1)
    /\ GlyphStore.glyphs_path (store self1) ⊆ GlyphStore.glyphs_path (store self)
    /\ tokens (store self1)
       = filter (fun kv => GlyphToken.is_expired now kv.2 = false) (tokens (store self)).
Proof.
  intros Hwf. unfold _run_decay_cycle.
  destruct (get_select_spec (GlyphToken.is_expired now) (store self) Hwf)
    as (st' & kept & Hsel & Hext & Hnd & Hcached & Hkept).
  unfold py.bind at 1.
  erewrite in_store_run; [|exact Hsel].
  destruct (decay_loop_spec now kept (set_store st' self) [] Hnd)
    as (self1 & evs & Hloop & Hset & Hcnt & Happ & Hevs & Hobj & Hfiles & Hcache).
  { simpl. apply Forall_forall. intros [gid l] Hin.
    rewrite Forall_forall in Hcached. specialize (Hcached _ Hin). simpl in *. split.
    - assert (Hg : gid ∈ kept.*1) by (apply list_elem_of_fmap; by exists (gid, l)).
      apply Hkept in Hg as (g & Hg & _). rewrite (ext_files _ _ Hext).
      rewrite tokens_lookup in Hg. by destruct (GlyphStore.glyphs_path (store self) !! gid).
    - by apply (proj1 (ext_wf _ _ Hext) gid). }
  rewrite Hloop. exists self1, kept.*1, evs. simpl in *.
  split; [done|]. split; [by destruct Hset|].
  split; [done|]. split; [done|]. split; [done|].
  assert (Hsw := swept_store now st' (store self1) kept.*1 (ext_wf _ _ Hext)).
  rewrite (ext_tokens _ _ Hext) in Hsw.
  destruct (Hsw Hkept Hobj Hfiles Hcache) as [Hwf1 Htok1].
  split; [done|]. split; [|done].
  rewrite Hfiles, (ext_files _ _ Hext). apply map_filter_subseteq.
Qed.

Lemma check_accretion_spec now self :
  store_wf (store self) ->
  exists st1,
    _check_accretion now self
    = (set_store st1 self,
       Ok (bool_decide (Z.of_nat (active_count now (store self))
                        < EngineConfig.max_active_glyphs (config self))))
    /\ extends (store self) st1.
Proof.
  intros Hwf. unfold _check_accretion, GlyphStore.get_active_glyphs.
  destruct (get_select_spec (fun g => negb (GlyphToken.is_expired now g)) (store self) Hwf)
    as (st' & kept & Hsel & Hext & Hnd & Hcached & Hkept).
  unfold py.bind at 1. erewrite in_store_run; [|exact Hsel].
  unfold py.bind, py.get, py.ret. simpl.
  exists st'. split; [|done].
  assert (Hlen : length kept = active_count now (store self)).
  { rewrite <- (length_fmap fst kept). unfold active_count.
    apply kept_count; [done|].
    intros gid. rewrite Hkept. simpl.
    split; intros (g & Hg & Hp); exists g; (split; [done|]);
      by destruct (GlyphToken.is_expired now g). }
  by rewrite Hlen.
Qed.

Lemma active_count_swept now st st1 :
  tokens st1 = filter (fun kv => GlyphToken.is_expired now kv.2 = false) (tokens st) ->
  active_count now st1 = active_count now st.
Proof.
  intros H. unfold active_count. rewrite H. f_equal.
  by apply map_filter_filter_l.
Qed.

Lemma alloc_spec g st :
  store_wf st ->
  exists st',
    GlyphStore.alloc g st = (st', Ok (length (GlyphStore.objects st)))
    /\ GlyphStore.objects st' = GlyphStore.objects st ++ [g]
    /\ GlyphStore.glyphs_path st' = GlyphStore.glyphs_path st
    /\ GlyphStore._glyph_cache st' = GlyphStore._glyph_cache st
    /\ tokens st' = tokens st
    /\ store_wf st'.
Proof.
  intros [Hobj Hval]. eexists. split; [reflexivity|]. simpl.
  split; [done|]. split; [done|]. split; [done|]. split.
  - apply map_eq. intros k. rewrite !tokens_lookup. simpl.
    destruct (GlyphStore.glyphs_path st !! k) as [j|]; [simpl|done]. f_equal.
    unfold current. simpl.
    destruct (GlyphStore._glyph_cache st !! k) as [l|] eqn:Hl; [|done].
    destruct (Hobj _ _ Hl) as [x Hx]. by rewrite (lookup_app_l_Some _ _ _ _ Hx), Hx.
  - split; simpl; [|done]. intros k l Hl.
    destruct (Hobj _ _ Hl) as [x Hx]. exists x. by apply lookup_app_l_Some.
Qed.

Lemma save_glyph_spec l g st :
  store_wf st ->
  GlyphStore.objects st !! l = Some g ->
  exists st',
    GlyphStore.save_glyph l st = (st', Ok tt)
    /\ GlyphStore.glyphs_path st' = <[GlyphToken.glyph_id g := g]> (GlyphStore.glyphs_path st)
    /\ tokens st' = <[GlyphToken.glyph_id g := g]> (tokens st)
    /\ store_wf st'.
Proof.
  intros [Hobj Hval] Hg. unfold GlyphStore.save_glyph. rewrite Hg.
  eexists. split; [reflexivity|]. simpl. split; [done|]. split.
  - apply map_eq. intros k. rewrite !tokens_lookup. simpl.
    destruct (decide (k = GlyphToken.glyph_id g)) as [->|Hne].
    + rewrite !lookup_insert_eq. simpl. unfold current. simpl.
      by rewrite lookup_insert_eq, Hg.
    + rewrite !lookup_insert_ne by done. rewrite tokens_lookup.
      destruct (GlyphStore.glyphs_path st !! k) as [j|]; [simpl|done]. f_equal.
      unfold current. simpl. by rewrite lookup_insert_ne.
  - split; simpl.
    + intros k lk. destruct (decide (k = GlyphToken.glyph_id g)) as [->|Hne].
      * rewrite lookup_insert_eq. intros [= <-]. by eexists.
      * rewrite lookup_insert_ne by done. apply Hobj.
    + intros k j. destruct (decide (k = GlyphToken.glyph_id g)) as [->|Hne].
      * by rewrite !lookup_insert_eq.
      * rewrite !lookup_insert_ne by done. apply Hval.
Qed.

(** The decay cycle followed by the accretion check. *)
Lemma sweep_and_count now self :
  store_wf (store self) ->
  exists self1 removed self2 evs,
    _run_decay_cycle now self = (self1, Ok removed)
    /\ _check_accretion now self1
       = (self2, Ok (bool_decide (Z.of_nat (active_count now (store self))
                                  < EngineConfig.max_active_glyphs (config self))))
    /\ same_settings self self2
    /\ _glyph_counter self2 = _glyph_counter self
    /\ appended self self2 evs
    /\ Forall (fun e => AuditEvent.event_type e = AuditEventType.EXPIRED) evs
    /\ store_wf (store self2)
    /\ GlyphStore.glyphs_path (store self2) ⊆ GlyphStore.glyphs_path (store self)
    /\ tokens (store self2)
       = filter (fun kv => GlyphToken.is_expired now kv.2 = false) (tokens (store self)).
Proof.
  intros Hwf.
  destruct (run_decay_cycle_spec now self Hwf)
    as (self1 & removed & evs & Hdecay & Hset & Hcnt & Happ & Hevs & Hwf1 & Hfiles1 & Htok1).
  destruct (check_accretion_spec now self1 Hwf1) as (st2 & Hcheck & Hext).
  exists self1, removed, (set_store st2 self1), evs.
  rewrite (active_count_swept now _ _ Htok1) in Hcheck.
  rewrite (same_config _ _ Hset) in Hcheck.
  split; [done|]. split; [done|]. split; [by destruct Hset|].
  split; [done|]. split; [done|]. split; [done|]. simpl.
  split; [apply Hext|]. split; [by rewrite (ext_files _ _ Hext)|].
  by rewrite (ext_tokens _ _ Hext).
Qed.

Lemma handle_state_limit now msg self :
  store_wf (store self) ->
  EngineConfig.max_active_glyphs (config self) <= Z.of_nat (active_count now (store self)) ->
  exists self' evs,
    _handle_state now msg self = (self', Ok (limit_reached now))
    /\ same_settings self self'
    /\ _glyph_counter self' = _glyph_counter self
    /\ appended self self' evs
    /\ Forall (fun e => AuditEvent.event_type e = AuditEventType.EXPIRED) evs
    /\ store_wf (store self')
    /\ GlyphStore.glyphs_path (store self') ⊆ GlyphStore.glyphs_path (store self)
    /\ tokens (store self')
       = filter (fun kv => GlyphToken.is_expired now kv.2 = false) (tokens (store self)).
Proof.
  intros Hwf Hfull.
  destruct (sweep_and_count now self Hwf)
    as (self1 & removed & self2 & evs & Hdecay & Hcheck & Hrest).
  exists self2, evs. split; [|exact Hrest].
  unfold _handle_state. unfold py.bind at 1. rewrite Hdecay.
  unfold py.bind at 1. rewrite Hcheck.
  rewrite bool_decide_eq_false_2 by lia. reflexivity.
Qed.

Lemma build_glyph_id now gid ttl msg g :
  build_glyph now gid ttl msg = Ok g -> GlyphToken.glyph_id g = gid.
Proof.
  unfold build_glyph. destruct (GlyphClass.of_value _); [|discriminate].
  destruct (GlyphVector.new _ _ _); [|discriminate].
  unfold GlyphToken.new. destruct (GlyphToken.fields_valid _ _ _); [|discriminate].
  destruct (GlyphToken.model_post_init _ _ _); [|discriminate].
  by intros [= <-].
Qed.

Lemma handle_state_rejected now msg self g first rest :
  store_wf (store self) ->
  Z.of_nat (active_count now (store self)) < EngineConfig.max_active_glyphs (config self) ->
  state_glyph now msg self = Ok g ->
  List.filter (fun r => negb (ValidatorResult.passed r)) (state_results now msg self g)
    = first :: rest ->
  exists self' evs ev,
    _handle_state now msg self
    = (self', Ok (EngineResponse.mk false
                    ("Validation failed: " ++ ValidatorResult.message first) None
                    (Some (map ValidatorResult.model_dump (state_results now msg self g)))
                    None now))
    /\ same_settings self self'
    /\ _glyph_counter self' = S (_glyph_counter self)
    /\ appended self self' (evs ++ [ev])
    /\ Forall (fun e => AuditEvent.event_type e = AuditEventType.EXPIRED) evs
    /\ AuditEvent.event_type ev = AuditEventType.VALIDATION_FAILED
    /\ AuditEvent.glyph_id ev = next_glyph_id self
    /\ AuditEvent.validation_results ev
       = Some (map ValidatorResult.model_dump (state_results now msg self g))
    /\ store_wf (store self')
    /\ GlyphStore.glyphs_path (store self') ⊆ GlyphStore.glyphs_path (store self)
    /\ tokens (store self')
       = filter (fun kv => GlyphToken.is_expired now kv.2 = false) (tokens (store self)).
Proof.
  intros Hwf Hroom Hg Hfailed.
  destruct (sweep_and_count now self Hwf)
    as (self1 & removed & self2 & evs & Hdecay & Hcheck
        & Hset & Hcnt & Happ & Hevs & Hwf2 & Hfiles2 & Htok2).
  destruct (alloc_spec g (store self2) Hwf2)
    as (st3 & Halloc & Hobj3 & Hfiles3 & Hcache3 & Htok3 & Hwf3).
  unfold state_glyph, next_glyph_id in Hg. unfold state_results in *.
  rewrite <- Hcnt, <- (same_config _ _ Hset) in Hg.
  rewrite <- (same_validator _ _ Hset) in Hfailed |- *.
  unfold _handle_state. unfold py.bind at 1. rewrite Hdecay.
  unfold py.bind at 1. rewrite Hcheck.
  rewrite bool_decide_eq_true_2 by lia. cbn [negb].
  unfold py.bind at 1. unfold _generate_glyph_id at 1. cbn beta iota.
  unfold py.bind at 1. unfold py.get at 1. cbn beta iota.
  unfold py.bind at 1. unfold py.of_result at 1.
  cbn [config set_glyph_counter]. rewrite Hg.
  unfold py.bind at 1. erewrite in_store_run; [|exact Halloc].
  cbn [validator set_glyph_counter set_store]. rewrite Hfailed.
  unfold py.bind at 1. unfold audit_event at 1. cbn [AuditLog.create_event].
  unfold py.ret.
  eexists _, evs, _. split; [reflexivity|].
  unfold appended in *. simpl.
  split; [by destruct Hset|]. split; [by rewrite Hcnt|].
  split; [by rewrite Happ, app_assoc|]. split; [done|]. split; [done|].
  split; [by rewrite Hcnt|]. split; [done|]. split; [done|].
  split; [by rewrite Hfiles3|]. by rewrite Htok3.
Qed.

Lemma handle_state_created now msg self g :
  store_wf (store self) ->
  Z.of_nat (active_count now (store self)) < EngineConfig.max_active_glyphs (config self) ->
  state_glyph now msg self = Ok g ->
  List.filter (fun r => negb (ValidatorResult.passed r)) (state_results now msg self g) = [] ->
  exists self' evs ev,
    _handle_state now msg self
    = (self', Ok (EngineResponse.mk true ("State recorded: " ++ next_glyph_id self)
                    (Some (next_glyph_id self)) None (Some (GlyphToken.to_text g)) now))
    /\ same_settings self self'
    /\ _glyph_counter self' = S (_glyph_counter self)
    /\ appended self self' (evs ++ [ev])
    /\ Forall (fun e => AuditEvent.event_type e = AuditEventType.EXPIRED) evs
    /\ AuditEvent.event_type ev = AuditEventType.CREATED
    /\ AuditEvent.glyph_id ev = next_glyph_id self
    /\ AuditEvent.after_state ev = Some (GlyphToken.model_dump g)
    /\ store_wf (store self')
    /\ tokens (store self')
       = <[next_glyph_id self := g]>
           (filter (fun kv => GlyphToken.is_expired now kv.2 = false) (tokens (store self))).
Proof.
  intros Hwf Hroom Hg Hpassed.
  destruct (sweep_and_count now self Hwf)
    as (self1 & removed & self2 & evs & Hdecay & Hcheck
        & Hset & Hcnt & Happ & Hevs & Hwf2 & Hfiles2 & Htok2).
  destruct (alloc_spec g (store self2) Hwf2)
    as (st3 & Halloc & Hobj3 & Hfiles3 & Hcache3 & Htok3 & Hwf3).
  destruct (save_glyph_spec (length (GlyphStore.objects (store self2))) g st3 Hwf3)
    as (st4 & Hsave & Hfiles4 & Htok4 & Hwf4).
  { rewrite Hobj3, lookup_app_r by done. by rewrite Nat.sub_diag. }
  pose proof (build_glyph_id _ _ _ _ _ Hg) as Hid.
  unfold state_glyph in Hg. unfold state_results in *.
  unfold next_glyph_id in *.
  rewrite <- Hcnt, <- (same_config _ _ Hset) in Hg.
  rewrite <- (same_validator _ _ Hset) in Hpassed.
  unfold _handle_state. unfold py.bind at 1. rewrite Hdecay.
  unfold py.bind at 1. rewrite Hcheck.
  rewrite bool_decide_eq_true_2 by lia. cbn [negb].
  unfold py.bind at 1. unfold _generate_glyph_id at 1. cbn beta iota.
  unfold py.bind at 1. unfold py.get at 1. cbn beta iota.
  unfold py.bind at 1. unfold py.of_result at 1.
  cbn [config set_glyph_counter]. rewrite Hg.
  unfold py.bind at 1. erewrite in_store_run; [|exact Halloc].
  cbn [validator set_glyph_counter set_store]. rewrite Hpassed.
  unfold py.bind at 1. erewrite in_store_run; [|exact Hsave].
  unfold py.bind at 1. unfold audit_event at 1. cbn [AuditLog.create_event].
  unfold py.ret. rewrite Hcnt.
  eexists _, evs, _. split; [reflexivity|].
  unfold appended in *. simpl.
  split; [by destruct Hset|]. split; [done|].
  split; [by rewrite Happ, app_assoc|]. split; [done|]. split; [done|].
  split; [done|]. split; [done|]. split; [done|].
  by rewrite Htok4, Htok3, Htok2, Hid.
Qed.

Lemma with_objects_id st l g :
  GlyphStore.objects st !! l = Some g ->
  with_objects (<[l := g]> (GlyphStore.objects st)) st = st.
Proof. intros H. unfold with_objects. rewrite list_insert_id by done. by destruct st. Qed.

Lemma with_objects_twice os os' st : with_objects os (with_objects os' st) = with_objects os st.
Proof. reflexivity. Qed.

Lemma assign_spec l f g st :
  GlyphStore.objects st !! l = Some g ->
  GlyphStore.assign l f st = (with_objects (<[l := f g]> (GlyphStore.objects st)) st, Ok tt).
Proof. intros H. unfold GlyphStore.assign. by rewrite H. Qed.

Lemma apply_reframe_spec payload l g st :
  GlyphStore.objects st !! l = Some g ->
  (forall c, Payload.class payload = Some c -> exists k, GlyphClass.of_value c = Ok k) ->
  apply_reframe payload l st
  = (with_objects (<[l := reframed payload g]> (GlyphStore.objects st)) st, Ok tt).
Proof.
  intros Hg Hclass. unfold apply_reframe, reframed.
  assert (Hlen : (l < length (GlyphStore.objects st))%nat) by (by eapply lookup_lt_Some).
  destruct (Payload.class payload) as [c|];
    [destruct (Hclass c eq_refl) as [k Hk]; rewrite Hk|];
    destruct (Payload.explanation payload) as [e|];
    destruct (Payload.intensity payload) as [i|];
    unfold py.bind, py.of_result, py.ret, GlyphStore.assign; simpl;
    repeat (first [ rewrite Hg
                  | rewrite list_lookup_insert_eq by (rewrite ?length_insert; done) ];
            simpl);
    rewrite ?list_insert_insert_eq; try reflexivity.
  by rewrite with_objects_id.
Qed.

Lemma load_glyph_found gid st st1 l :
  GlyphStore.load_glyph gid st = (st1, Ok (Some l)) ->
  GlyphStore._glyph_cache st1 !! gid = Some l
  /\ GlyphStore.glyphs_path st1 = GlyphStore.glyphs_path st.
Proof.
  unfold GlyphStore.load_glyph.
  destruct (GlyphStore._glyph_cache st !! gid) as [l'|] eqn:Hc.
  { by intros [= <- <-]. }
  destruct (GlyphStore.glyphs_path st !! gid) as [j|]; [|discriminate].
  destruct (GlyphToken.model_validate_json j); [|discriminate].
  intros [= <- <-]. simpl. by rewrite lookup_insert_eq.
Qed.

Lemma reframe_refused now msg self gid st1 l before :
  InputMessage.target_glyph_id msg = Some gid ->
  GlyphStore.load_glyph gid (store self) = (st1, Ok (Some l)) ->
  GlyphStore.objects st1 !! l = Some before ->
  (forall c, Payload.class (InputMessage.payload msg) = Some c ->
             exists k, GlyphClass.of_value c = Ok k) ->
  Scroll.is_mutation_allowed (_get_scroll self) MutationType.TRANSFORM = false ->
  let after := reframed (InputMessage.payload msg) before in
  let self' := set_store (with_objects (<[l := after]> (GlyphStore.objects st1)) st1) self in
  _cmd_reframe now msg self = (self', Ok (transform_refused now))
  /\ audit self' = audit self
  /\ GlyphStore.glyphs_path (store self') = GlyphStore.glyphs_path (store self)
  /\ GlyphStore.load_glyph gid (store self') = (store self', Ok (Some l))
  /\ GlyphStore.objects (store self') !! l = Some after.
Proof.
  intros Htarget Hload Hbefore Hclass Hscroll. simpl.
  destruct (load_glyph_found _ _ _ _ Hload) as [Hcache Hfiles].
  split; [|split; [done|split; [done|split]]].
  - unfold _cmd_reframe. rewrite Htarget. cbn [py.str_opt default].
    unfold py.bind at 1. erewrite in_store_run; [|exact Hload].
    unfold py.bind at 1.
    erewrite in_store_run; [|unfold GlyphStore.deref; simpl; rewrite Hbefore; reflexivity].
    unfold py.bind at 1.
    erewrite in_store_run; [|simpl; by apply apply_reframe_spec].
    unfold py.bind at 1, py.get at 1. cbn beta iota.
    unfold _get_scroll in *. simpl. rewrite Hscroll. reflexivity.
  - unfold GlyphStore.load_glyph. simpl. by rewrite Hcache.
  - simpl. apply list_lookup_insert_eq. by eapply lookup_lt_Some.
Qed.

End EngineFacts.

(** ** engine.py: the handlers *)

Section EngineClaims.

Import GlyphEngine.

Lemma store_wf_checked st : store_wf_check st = true -> store_wf st.
Proof.
  unfold store_wf_check. intros [Hc Hf]%andb_true_iff.
  rewrite forallb_forall in Hc, Hf. split.
  - intros gid l Hl.
    apply elem_of_map_to_list, list_elem_of_In, Hc in Hl.
    by apply bool_decide_eq_true in Hl.
  - intros gid j Hj Hnone.
    apply elem_of_map_to_list, list_elem_of_In, Hf in Hj. simpl in Hj.
    rewrite Hnone in Hj.
    destruct (GlyphToken.model_validate_json j) as [g|] eqn:Hv; [|done].
    f_equal. by eapply validate_json_ok.
Qed.

Example fresh_engine_built :
  GlyphEngine.new (EngineConfig.mk 2 86400 true true) "5e551041" sample_genesis ∅ ∅ []
  = Ok (fresh_engine 2 ∅).
Proof. vm_compute. reflexivity. Qed.

Example fresh_engine_holds_genesis :
  GlyphStore.list_glyphs (store (fresh_engine 2 ∅)) = ["G-001"; "G-000"]%string
  /\ active_count t2025 (store (fresh_engine 2 ∅)) = 2%nat
  /\ active_count a_day_later (store (fresh_engine 2 ∅)) = 1%nat.
Proof. repeat split; vm_compute; reflexivity. Qed.

Lemma all_passed_no_failure (results : list ValidatorResult.t) :
  Forall (fun r => ValidatorResult.passed r = true) results ->
  List.filter (fun r => negb (ValidatorResult.passed r)) results = [].
Proof. induction 1 as [|r rs Hr _ IH]; simpl; [done|]. by rewrite Hr. Qed.

Lemma some_failure_first (results : list ValidatorResult.t) (r : ValidatorResult.t) :
  r ∈ results -> ValidatorResult.passed r = false ->
  exists first rest,
    List.filter (fun r => negb (ValidatorResult.passed r)) results = first :: rest
    /\ first ∈ results /\ ValidatorResult.passed first = false.
Proof.
  intros Hin Hr.
  destruct (List.filter _ results) as [|first rest] eqn:Hf.
  - assert (H : In r (List.filter (fun r => negb (ValidatorResult.passed r)) results)).
    { apply filter_In. split; [by apply list_elem_of_In | by rewrite Hr]. }
    rewrite Hf in H. destruct H.
  - exists first, rest. split; [done|].
    assert (H : In first (List.filter (fun r => negb (ValidatorResult.passed r)) results))
      by (rewrite Hf; by left).
    apply filter_In in H as [H1 H2]. split; [by apply list_elem_of_In|].
    by apply negb_true_iff.
Qed.

(** C6, as amended.  When the count of active tokens is at or above the
    ceiling, a state-creating request gets the failure response of the
    limit; no token is persisted (the stored tokens are those that were
    stored and have not expired), the glyph counter stands, and the only
    audit events appended are expired events of the decay cycle, so none
    is a created or a validation event.  When later the count of active
    tokens is below the ceiling, the identical request, if its token is
    built and passes validation, succeeds: its decay cycle sweeps the
    expired tokens, the new token is stored under the next id, and a
    created event for it ends the log. *)
Theorem C6_accretion_ceiling (self : GlyphEngine.t) (msg : InputMessage.t)
    (now later : py.datetime) :
  store_wf (store self) ->
  EngineConfig.max_active_glyphs (config self) <= Z.of_nat (active_count now (store self)) ->
  exists self1 evs,
    _handle_state now msg self = (self1, Ok (limit_reached now))
    /\ EngineResponse.success (limit_reached now) = false
    /\ tokens (store self1)
       = filter (fun kv => GlyphToken.is_expired now kv.2 = false) (tokens (store self))
    /\ GlyphStore.glyphs_path (store self1) ⊆ GlyphStore.glyphs_path (store self)
    /\ _glyph_counter self1 = _glyph_counter self
    /\ AuditLog.log (audit self1) = AuditLog.log (audit self) ++ evs
    /\ Forall (fun e => AuditEvent.event_type e = AuditEventType.EXPIRED) evs
    /\ (Z.of_nat (active_count later (store self1))
          < EngineConfig.max_active_glyphs (config self) ->
        forall g,
          state_glyph later msg self1 = Ok g ->
          Forall (fun r => ValidatorResult.passed r = true) (state_results later msg self1 g) ->
          exists self2 response evs2 ev,
            _handle_state later msg self1 = (self2, Ok response)
            /\ EngineResponse.success response = true
            /\ EngineResponse.glyph_id response = Some (next_glyph_id self1)
            /\ tokens (store self2) !! next_glyph_id self1 = Some g
            /\ AuditLog.log (audit self2) = AuditLog.log (audit self1) ++ evs2 ++ [ev]
            /\ Forall (fun e => AuditEvent.event_type e = AuditEventType.EXPIRED) evs2
            /\ AuditEvent.event_type ev = AuditEventType.CREATED
            /\ AuditEvent.glyph_id ev = next_glyph_id self1).
Proof.
  intros Hwf Hfull.
  destruct (handle_state_limit now msg self Hwf Hfull)
    as (self1 & evs & Hrun & Hset & Hcnt & Happ & Hevs & Hwf1 & Hfiles & Htok).
  exists self1, evs. repeat (split; [done|]).
  intros Hroom g Hg Hpass. rewrite <- (same_config _ _ Hset) in Hroom.
  destruct (handle_state_created later msg self1 g Hwf1 Hroom Hg
              (all_passed_no_failure _ Hpass))
    as (self2 & evs2 & ev & Hrun2 & _ & _ & Happ2 & Hevs2 & Hty & Hid & _ & _ & Htok2).
  eexists self2, _, evs2, ev. split; [exact Hrun2|]. simpl.
  split; [done|]. split; [done|].
  split; [by rewrite Htok2, lookup_insert_eq|]. by repeat split.
Qed.

(** C6 on a new vault with a ceiling of two: the two genesis glyphs fill
    it, and the request is turned away; a day later the consent glyph has
    expired, and the identical request succeeds as G-001. *)
Lemma C6_accretion_ceiling_witness :
  let first := _handle_state t2025 sample_state (fresh_engine 2 ∅) in
  let second := _handle_state a_day_later sample_state first.1 in
  first.2 = Ok (limit_reached t2025)
  /\ (exists response, second.2 = Ok response /\ EngineResponse.success response = true)
  /\ map AuditEvent.event_type (AuditLog.log (audit second.1))
     = [AuditEventType.EXPIRED; AuditEventType.CREATED].
Proof.
  destruct (C6_accretion_ceiling (fresh_engine 2 ∅) sample_state t2025 a_day_later)
    as (self1 & evs & Hrun & _ & _ & _ & _ & _ & _ & Hlater).
  - apply store_wf_checked. vm_compute. reflexivity.
  - vm_compute. discriminate.
  - cbv zeta. rewrite Hrun. cbn [fst snd]. split; [done|].
    assert (Hself1 : self1 = (_handle_state t2025 sample_state (fresh_engine 2 ∅)).1)
      by (by rewrite Hrun).
    destruct (Hlater ltac:(rewrite Hself1; vm_compute; reflexivity)
                (py.ok_or sample_token (state_glyph a_day_later sample_state self1)))
      as (self2 & response & evs2 & ev & Hrun2 & Hok & _).
    + rewrite Hself1. vm_compute. reflexivity.
    + rewrite Hself1. vm_compute. repeat constructor.
    + rewrite Hrun2. cbn [fst snd]. split.
      * exists response. split; [reflexivity | exact Hok].
      * rewrite Hself1 in Hrun2.
        apply (f_equal fst) in Hrun2. cbn [fst] in Hrun2. rewrite <- Hrun2.
        vm_compute. reflexivity.
Defined.

(** C6 as stated fails when the count is above the ceiling.  On a new
    vault with a ceiling of one the two genesis glyphs are active and the
    request is turned away.  A day later the consent glyph has expired;
    the identical request sweeps it (an expired event for G-001 is logged,
    only G-000 stays stored) and is turned away again. *)
Lemma C6_above_ceiling_counterexample :
  let self := fresh_engine 1 ∅ in
  let first := _handle_state t2025 sample_state self in
  let second := _handle_state a_day_later sample_state first.1 in
  EngineConfig.max_active_glyphs (config self) = 1
  /\ active_count t2025 (store self) = 2%nat
  /\ first.2 = Ok (limit_reached t2025)
  /\ active_count a_day_later (store first.1) = 1%nat
  /\ map (fun e => (AuditEvent.event_type e, AuditEvent.glyph_id e))
         (AuditLog.log (audit second.1))
     = [(AuditEventType.EXPIRED, "G-001"%string)]
  /\ GlyphStore.list_glyphs (store second.1) = ["G-000"%string]
  /\ second.2 = Ok (limit_reached a_day_later).
Proof. cbv zeta. repeat split; vm_compute; reflexivity. Qed.

(** C10.  When a state-creating request reaches validation and any
    result of the returned list fails, whether its check is critical or
    not, the request is rejected: the response is a failure that carries
    the whole list of results, the new token is not stored (the stored
    tokens are those that were stored and have not expired), and the log
    gains, after the expired events of the decay cycle, one
    validation-failed event for the new id with the whole list. *)
Theorem C10_any_failure_rejects (self : GlyphEngine.t) (msg : InputMessage.t)
    (now : py.datetime) (g : GlyphToken.t) (r : ValidatorResult.t) :
  store_wf (store self) ->
  Z.of_nat (active_count now (store self)) < EngineConfig.max_active_glyphs (config self) ->
  state_glyph now msg self = Ok g ->
  r ∈ state_results now msg self g ->
  ValidatorResult.passed r = false ->
  exists self' response evs ev,
    _handle_state now msg self = (self', Ok response)
    /\ EngineResponse.success response = false
    /\ EngineResponse.glyph_id response = None
    /\ EngineResponse.validation_results response
       = Some (map ValidatorResult.model_dump (state_results now msg self g))
    /\ tokens (store self')
       = filter (fun kv => GlyphToken.is_expired now kv.2 = false) (tokens (store self))
    /\ GlyphStore.glyphs_path (store self') ⊆ GlyphStore.glyphs_path (store self)
    /\ AuditLog.log (audit self') = AuditLog.log (audit self) ++ evs ++ [ev]
    /\ Forall (fun e => AuditEvent.event_type e = AuditEventType.EXPIRED) evs
    /\ AuditEvent.event_type ev = AuditEventType.VALIDATION_FAILED
    /\ AuditEvent.glyph_id ev = next_glyph_id self
    /\ AuditEvent.validation_results ev
       = Some (map ValidatorResult.model_dump (state_results now msg self g)).
Proof.
  intros Hwf Hroom Hg Hin Hr.
  destruct (some_failure_first _ r Hin Hr) as (first & rest & Hfailed & _ & _).
  destruct (handle_state_rejected now msg self g first rest Hwf Hroom Hg Hfailed)
    as (self' & evs & ev & Hrun & _ & _ & Happ & Hevs & Hty & Hid & Hres & _ & Hfiles & Htok).
  eexists self', _, evs, ev. split; [exact Hrun|]. simpl. by repeat split.
Qed.

(** C10 on an engine whose validator V-01 has a non-critical identity
    check: the request fails that check alone, all four checks run, and
    the request is rejected with the four results. *)
Lemma C10_any_failure_rejects_witness :
  let run := _handle_state t2025 identity_state lenient_engine in
  (exists response, run.2 = Ok response /\ EngineResponse.success response = false)
  /\ GlyphStore.glyphs_path (store run.1) = GlyphStore.glyphs_path (store lenient_engine)
  /\ map AuditEvent.event_type (AuditLog.log (audit run.1))
     = [AuditEventType.VALIDATION_FAILED].
Proof.
  pose (g := py.ok_or sample_token (state_glyph t2025 identity_state lenient_engine)).
  pose (r := ValidatorEngine._run_check
               (ValidationCheck.mk "no_identity_fixation" "" false)
               (state_context g identity_state) lenient_validator t2025).
  destruct (C10_any_failure_rejects lenient_engine identity_state t2025 g r)
    as (self' & response & evs & ev & Hrun & Hfail & _).
  - apply store_wf_checked. vm_compute. reflexivity.
  - vm_compute. reflexivity.
  - vm_compute. reflexivity.
  - vm_compute. by left.
  - vm_compute. reflexivity.
  - cbv zeta. split.
    + rewrite Hrun. exists response. split; [reflexivity | exact Hfail].
    + split; vm_compute; reflexivity.
Defined.

(** C9.  Let the target of a reframe be found by [load_glyph], as the
    object [l] with state [before], let the class of the payload (when
    there is one) be a class, and let the scroll of the session not permit
    the transform mutation.  The command fails with the response of the
    refusal; the audit log and the file of the token are as before; but the
    object [l] now holds the overrides of the payload, and since the cache
    refers to it, the next [load_glyph] of the id returns it. *)
Theorem C9_refused_reframe_mutates_cache (self : GlyphEngine.t) (msg : InputMessage.t)
    (now : py.datetime) (glyph_id : string) (st1 : GlyphStore.t) (l : GlyphStore.loc)
    (before : GlyphToken.t) :
  InputMessage.target_glyph_id msg = Some glyph_id ->
  GlyphStore.load_glyph glyph_id (store self) = (st1, Ok (Some l)) ->
  GlyphStore.objects st1 !! l = Some before ->
  (forall c, Payload.class (InputMessage.payload msg) = Some c ->
             exists k, GlyphClass.of_value c = Ok k) ->
  Scroll.is_mutation_allowed (_get_scroll self) MutationType.TRANSFORM = false ->
  exists self',
    _cmd_reframe now msg self = (self', Ok (transform_refused now))
    /\ EngineResponse.success (transform_refused now) = false
    /\ audit self' = audit self
    /\ GlyphStore.glyphs_path (store self') = GlyphStore.glyphs_path (store self)
    /\ GlyphStore.load_glyph glyph_id (store self') = (store self', Ok (Some l))
    /\ GlyphStore.objects (store self') !! l
       = Some (reframed (InputMessage.payload msg) before).
Proof.
  intros Htarget Hload Hbefore Hclass Hscroll.
  destruct (reframe_refused now msg self glyph_id st1 l before
              Htarget Hload Hbefore Hclass Hscroll)
    as (Hrun & Haudit & Hfiles & Hagain & Hobj).
  eexists. split; [exact Hrun|]. by repeat split.
Qed.

(** C9 on an engine whose session scroll forbids transformation: the
    reframe of the genesis anchor is refused and nothing is logged, the
    file keeps the genesis explanation, and the token that the next load
    returns carries the explanation, class and intensity of the payload. *)
Lemma C9_refused_reframe_mutates_cache_witness :
  let run := _cmd_reframe t2025 sample_reframe strict_engine in
  let again := GlyphStore.load_glyph "G-000" (store run.1) in
  run.2 = Ok (transform_refused t2025)
  /\ AuditLog.log (audit run.1) = []
  /\ GlyphToken.explanation <$> GlyphStore.glyphs_path (store run.1) !! "G-000"%string
     = Some "Genesis anchor - system bootstrap state."%string
  /\ again.2 = Ok (Some 0%nat)
  /\ (fun g => (GlyphToken.explanation g, GlyphToken.glyph_class g, GlyphToken.intensity g))
       <$> GlyphStore.objects again.1 !! 0%nat
     = Some ("Rewritten"%string, GlyphClass.WARNING, (1 # 4)%Q).
Proof.
  pose (st1 := (GlyphStore.load_glyph "G-000" (store strict_engine)).1).
  pose (before := py.ok_or sample_token (GENESIS_G000 (t2025 - 1000000))).
  destruct (C9_refused_reframe_mutates_cache strict_engine sample_reframe t2025
              "G-000" st1 0%nat before)
    as (self' & Hrun & _ & Haudit & Hfiles & Hagain & Hobj).
  - reflexivity.
  - vm_compute. reflexivity.
  - vm_compute. reflexivity.
  - intros c [= <-]. by exists GlyphClass.WARNING.
  - vm_compute. reflexivity.
  - cbv zeta. repeat split; vm_compute; reflexivity.
Defined.

(** The attenuate command hands the factor of the payload to the token as
    it is: after the genesis anchor was attenuated to one half, a factor
    of two brings its stored intensity back to one. *)
Example cmd_attenuate_factor_two :
  let request :=
    InputMessage.mk InputType.COMMAND
      (Payload.mk None None None None None None None None None None None (Some 2%Q))
      "user" t2025 (Some CommandVerb.ATTENUATE) (Some "G-000"%string)
      (Some "test-token"%string) None in
  let halved :=
    InputMessage.mk InputType.COMMAND
      (Payload.mk None None None None None None None None None None None (Some (1 # 2)%Q))
      "user" t2025 (Some CommandVerb.ATTENUATE) (Some "G-000"%string)
      (Some "test-token"%string) None in
  let run1 := _cmd_attenuate t2025 halved (fresh_engine 100 ∅) in
  let run2 := _cmd_attenuate t2025 request run1.1 in
  (exists g, tokens (store run1.1) !! "G-000"%string = Some g
             /\ (GlyphToken.intensity g == 1 # 2)%Q)
  /\ (exists g, tokens (store run2.1) !! "G-000"%string = Some g
                /\ (GlyphToken.intensity g == 1)%Q).
Proof. cbv zeta. split; eexists; (split; [vm_compute; reflexivity | reflexivity]). Qed.

End EngineClaims.

(** * Further properties of the code *)

(** ** token.py: construction, expiry, refresh and attenuation *)

Section TokenLifecycle.

Import GlyphToken.

Lemma fields_valid_bounds i ttl expl :
  fields_valid i ttl expl = true <->
  (0 <= i)%Q /\ (i <= 1)%Q /\ 1 <= ttl /\ (String.length expl <= 200)%nat.
Proof.
  unfold fields_valid.
  rewrite !andb_true_iff, !Qle_bool_iff, !bool_decide_eq_true. tauto.
Qed.





(** X3.  A refresh that returns decides expiry anew from the time of the
    call: the token is not expired then when its new TTL is not negative
    (even if it was expired before), and it is expired at once when a
    negative extension made the TTL negative. *)
Theorem refresh_decides_expiry now extra g g' :
  refresh now extra g = (g', Ok tt) ->
  (0 <= ttl_seconds g + extra -> is_expired now g' = false)
  /\ (ttl_seconds g + extra < 0 -> is_expired now g' = true).
Proof.
  intros H. apply refresh_ok in H as (Httl & Hexp & _).
  unfold is_expired. rewrite Hexp, Httl. split; intros ?.
  - apply bool_decide_eq_false. lia.
  - apply bool_decide_eq_true. lia.
Qed.

(** The sample token two days after its creation, when it has expired,
    refreshed by one hour and by minus two days. *)
Lemma refresh_decides_expiry_witness :
  is_expired (t2025 + 172800000000) sample_token = true
  /\ is_expired (t2025 + 172800000000)
       (refresh (t2025 + 172800000000) 3600 sample_token).1 = false
  /\ is_expired (t2025 + 172800000000)
       (refresh (t2025 + 172800000000) (-172800) sample_token).1 = true.
Proof.
  split; [reflexivity|]. split.
  - apply (proj1 (refresh_decides_expiry (t2025 + 172800000000) 3600 sample_token _ eq_refl)).
    vm_compute. discriminate.
  - apply (proj2 (refresh_decides_expiry (t2025 + 172800000000) (-172800) sample_token _
                    eq_refl)).
    vm_compute. reflexivity.
Defined.

Lemma refresh_overflow_parts now extra g g' e :
  refresh now extra g = (g', Raised e) ->
  e = py.OverflowError
  /\ ttl_seconds g' = ttl_seconds g + extra
  /\ expires_at g' = expires_at g
  /\ intensity g' = intensity g.
Proof.
  unfold refresh, py.timedelta_seconds, py.datetime_add. simpl.
  repeat case_bool_decide; intros [= <- <-]; simpl; auto.
Qed.

(** X4.  A refresh that raises does so with an overflow error, after the
    TTL was extended and before the expiry was touched: the token keeps
    its old expiry together with the new TTL. *)
Theorem refresh_overflow_keeps_new_ttl now extra g g' e :
  refresh now extra g = (g', Raised e) ->
  e = py.OverflowError
  /\ ttl_seconds g' = ttl_seconds g + extra
  /\ expires_at g' = expires_at g
  /\ intensity g' = intensity g.
Proof. apply refresh_overflow_parts. Qed.

(** The sample token refreshed by ten thousand years. *)
Lemma refresh_overflow_keeps_new_ttl_witness :
  let g' := (refresh t2025 315360000000 sample_token).1 in
  ttl_seconds g' = 315360086400 /\ expires_at g' = expires_at sample_token.
Proof.
  destruct (refresh_overflow_keeps_new_ttl t2025 315360000000 sample_token _
              py.OverflowError eq_refl) as (_ & H1 & H2 & _).
  split; [exact H1 | exact H2].
Defined.

(** X5.  Attenuation by a factor in [0, 1] keeps a valid document valid:
    a token that [model_validate_json] accepts is still accepted after it
    was attenuated, so its file can be read back. *)
Theorem attenuate_keeps_valid (g : GlyphToken.t) (f : Q) :
  model_validate_json g = Ok g -> (0 <= f)%Q -> (f <= 1)%Q ->
  model_validate_json (attenuate f g) = Ok (attenuate f g).
Proof.
  unfold model_validate_json. intros Hg Hf0 Hf1.
  destruct (fields_valid (intensity g) _ _ && _ && _ && _) eqn:Hv; [|discriminate].
  apply andb_true_iff in Hv as [[[Hfv Hx]%andb_true_iff Hy]%andb_true_iff Hz].
  apply fields_valid_bounds in Hfv as (Hi0 & Hi1 & Httl & Hlen).
  unfold attenuate, set_intensity.
  cbn [intensity ttl_seconds explanation vector].
  rewrite Hx, Hy, Hz, !andb_true_r.
  rewrite (proj2 (fields_valid_bounds _ _ _)); [done|].
  split; [apply py_max_ge_l|]. split; [|done].
  rewrite py_max_zero_of_nonneg by (by apply Qmult_le_0_compat).
  apply Qle_trans with (1 * intensity g)%Q; [|by rewrite Qmult_1_l].
  rewrite (Qmult_comm (intensity g) f). by apply Qmult_le_compat_r.
Qed.

Lemma attenuate_keeps_valid_witness :
  model_validate_json (attenuate (1 # 2) sample_token) = Ok (attenuate (1 # 2) sample_token).
Proof.
  apply attenuate_keeps_valid; [reflexivity | discriminate | discriminate].
Defined.

End TokenLifecycle.

(** ** validator.py: registration and the implemented checks *)

Section ValidatorFacts.

Import ValidatorEngine.

Lemma compute_checksum_set_checksum c v :
  Validator.compute_checksum (Validator.set_checksum c v) = Validator.compute_checksum v.
Proof. reflexivity. Qed.

(** X6.  Registration signs every validator of the engine, the ones that
    were there before included: each validator found after
    [_register_core_validators] stores the checksum of its own content,
    so it passes the integrity check and a transition validated against
    it gets the results of its checks, never the integrity failure. *)
Theorem registered_validators_intact (validators : ValidatorEngine.t)
    (validator_id : string) (v : Validator.t) :
  _register_core_validators validators !! validator_id = Some v ->
  Validator.checksum v = Some (Validator.compute_checksum v)
  /\ Validator.verify_integrity v = true
  /\ forall context now,
       validate_transition (_register_core_validators validators) validator_id context now
       = run_checks (Validator.checks v) context v now.
Proof.
  intros Hv. pose proof Hv as Hv'.
  unfold _register_core_validators in Hv'.
  rewrite lookup_fmap in Hv'.
  destruct (foldl _ _ _ !! validator_id) as [u|]; [|discriminate].
  injection Hv' as <-.
  assert (Hint : Validator.verify_integrity
                   (Validator.set_checksum (Some (Validator.compute_checksum u)) u) = true).
  { unfold Validator.verify_integrity. cbn [Validator.checksum Validator.set_checksum].
    rewrite compute_checksum_set_checksum. apply String.eqb_refl. }
  split; [reflexivity|]. split; [exact Hint|].
  intros context now. unfold validate_transition, get_validator.
  rewrite Hv, Hint. reflexivity.
Qed.

Lemma registered_validators_intact_witness :
  Validator.verify_integrity V01 = true
  /\ validate_transition ValidatorEngine.new "V-01" sample_context t2025
     = run_checks (Validator.checks V01) sample_context V01 t2025.
Proof.
  destruct (registered_validators_intact ∅ "V-01" V01 V01_registered) as (_ & H1 & H2).
  split; [exact H1 | exact (H2 sample_context t2025)].
Defined.

Lemma run_check_unimplemented check context validator now :
  ValidationCheck.name check ∉ implemented_checks ->
  _run_check check context validator now = passing check validator now.
Proof.
  intros Hname. unfold _run_check.
  repeat match goal with
  | |- context [String.eqb (ValidationCheck.name check) ?s] =>
      destruct (String.eqb_spec (ValidationCheck.name check) s) as [Heq|_];
      [exfalso; apply Hname; rewrite Heq; apply list_elem_of_In;
       unfold implemented_checks; cbn; tauto|]
  end.
  reflexivity.
Qed.

(** X7.  Only five check names are implemented.  A validator that passes
    its integrity check and whose checks all carry other names accepts
    every context: each check yields a passing result with action allow,
    whatever the glyph, the source, the authentication and the history.
    (The two checks of the multi-agent validator V-02 are of this
    kind.) *)
Theorem unimplemented_checks_always_pass (validators : ValidatorEngine.t)
    (validator_id : string) (v : Validator.t) (context : Context.t) (now : py.datetime) :
  validators !! validator_id = Some v ->
  Validator.verify_integrity v = true ->
  Forall (fun c => ValidationCheck.name c ∉ implemented_checks) (Validator.checks v) ->
  validate_transition validators validator_id context now
  = map (fun c => passing c v now) (Validator.checks v).
Proof.
  intros Hv Hint Hnames. unfold validate_transition, get_validator.
  rewrite Hv, Hint. cbn [negb].
  induction Hnames as [|c cs Hc _ IH]; [reflexivity|].
  cbn [run_checks map]. rewrite (run_check_unimplemented _ _ _ _ Hc).
  cbn [passing ValidatorResult.passed negb andb]. by rewrite IH.
Qed.

Example V02_registered : ValidatorEngine.new !! "V-02"%string = Some V02.
Proof. vm_compute. reflexivity. Qed.

(** The multi-agent validator, for a token that names an identity,
    presented without authentication. *)
Lemma unimplemented_checks_always_pass_witness :
  map (fun r => (ValidatorResult.check_name r, ValidatorResult.passed r))
      (validate_transition ValidatorEngine.new "V-02" anonymous_context t2025)
  = [("no_ownership_conflict", true); ("no_race_condition", true)]%string.
Proof.
  rewrite (unimplemented_checks_always_pass _ _ V02 anonymous_context t2025 V02_registered).
  - reflexivity.
  - vm_compute. reflexivity.
  - repeat constructor; intros H%list_elem_of_In; unfold implemented_checks in H;
      cbn in H; intuition discriminate.
Defined.

Lemma V01_intact : Validator.verify_integrity V01 = true.
Proof. vm_compute. reflexivity. Qed.
Lemma V01_runs context now :
  validate_transition ValidatorEngine.new "V-01" context now
  = run_checks (Validator.checks V01) context V01 now.
Proof.
  unfold validate_transition, get_validator. rewrite V01_registered, V01_intact. reflexivity.
Qed.

Lemma run_checks_all_pass checks context validator now :
  Forall (fun r => ValidatorResult.passed r = true) (run_checks checks context validator now)
  <-> Forall (fun c => ValidatorResult.passed (_run_check c context validator now) = true)
        checks.
Proof.
  induction checks as [|c cs IH]; cbn [run_checks]; [by split; constructor|].
  destruct (ValidatorResult.passed (_run_check c context validator now)) eqn:Hc;
    cbn [negb andb].
  - rewrite !Forall_cons, IH, Hc. tauto.
  - destruct (ValidationCheck.is_critical c); rewrite ?Forall_cons, ?Hc;
      split; try (intros [? _]; discriminate).
Qed.

(** X8.  What the standard session validator of a new engine accepts.
    All the results of V-01 pass exactly when the history holds fewer
    than three amplify entries, the glyph (if the context has one) has an
    explanation without the word identity in any letter case, a positive
    TTL and an intensity of at most 1, the source is given and is not
    the word unknown, and the context is marked authenticated. *)
Theorem V01_accepts_exactly (context : Context.t) (now : py.datetime) :
  Forall (fun r => ValidatorResult.passed r = true)
    (validate_transition ValidatorEngine.new "V-01" context now)
  <->
  (amplify_count (default [] (Context.history context)) < 3)%nat
  /\ (forall g, Context.glyph context = Some g ->
        py.contains "identity" (py.lower (GlyphToken.explanation g)) = false
        /\ 0 < GlyphToken.ttl_seconds g
        /\ (GlyphToken.intensity g <= 1)%Q)
  /\ (exists s, Context.source context = Some s /\ s <> "unknown"%string)
  /\ Context.authenticated context = Some true.
Proof.
  rewrite V01_runs, run_checks_all_pass.
  change (Validator.checks V01) with
    [ ValidationCheck.mk "no_recursive_amplification" "Cannot amplify same glyph repeatedly" true;
      ValidationCheck.mk "no_identity_fixation" "Glyphs cannot represent identity" true;
      ValidationCheck.mk "ttl_required" "All glyphs must have TTL" true;
      ValidationCheck.mk "max_intensity" "Intensity cannot exceed 1.0" false;
      ValidationCheck.mk "authentication_required" "Mutations require authenticated source" true ]%string.
  generalize V01 as v. intros v.
  rewrite !Forall_cons, Forall_nil.
  destruct context as [glyph mutation source auth history].
  unfold _run_check.
  cbn [ValidationCheck.name Context.glyph Context.source Context.history
       Context.authenticated String.eqb Ascii.eqb Bool.eqb].
  cbv zeta.
  assert (Hif : forall (b : bool) c m r,
             ValidatorResult.passed r = true ->
             ValidatorResult.passed (if b then fail c v m now else r) = true <-> b = false).
  { intros [] c m r Hr; cbn [fail ValidatorResult.passed]; [done | by rewrite Hr]. }
  rewrite (Hif (bool_decide _)) by reflexivity.
  rewrite (Hif (_ || _)) by reflexivity.
  rewrite bool_decide_eq_false, orb_false_iff, negb_false_iff.
  assert (Hsrc : (String.eqb (default "unknown"%string source) "unknown" = false
                  /\ default false auth = true)
                 <-> (exists s, source = Some s /\ s <> "unknown"%string) /\ auth = Some true).
  { split.
    - intros [Hs Ha]. destruct source as [s|]; [|discriminate Hs].
      destruct auth as [[]|]; try discriminate Ha.
      apply String.eqb_neq in Hs. split; [by exists s | done].
    - intros [(s & -> & Hs) ->]. cbn [default]. by apply String.eqb_neq in Hs. }
  rewrite Hsrc. clear Hsrc.
  destruct glyph as [g|].
  - rewrite !Hif by reflexivity. unfold py.gt.
    rewrite bool_decide_eq_false, negb_false_iff, Qle_bool_iff.
    split.
    + intros (? & ? & ? & ? & ? & _). split; [lia|]. split; [|done].
      intros g' [= <-]. split; [done|]. split; [lia | done].
    + intros (? & Hg & ?). destruct (Hg g eq_refl) as (? & ? & ?).
      split; [lia|]. split; [done|]. split; [lia|]. done.
  - cbn [ValidatorResult.passed]. split.
    + intros (? & _ & _ & _ & ? & _). split; [lia|]. split; [|done]. intros g [=].
    + intros (? & _ & ?). split; [lia|]. done.
Qed.

End ValidatorFacts.

(** ** audit.py: event ids, replay and summary *)

Section AuditFacts.

Import AuditLog.

Lemma pretty_N_go_leading x : forall s,
  (0 < x)%N -> exists c r, pretty_N_go x s = String c r /\ c <> "0"%char.
Proof.
  induction (N.lt_wf_0 x) as [x _ IH]. intros s Hx.
  rewrite pretty_N_go_step by done.
  destruct (decide (x < 10)%N) as [Hlt|Hge].
  - rewrite N.div_small, pretty_N_go_0 by done. eexists _, _. split; [done|].
    rewrite N.mod_small by done.
    assert (x = 1 \/ x = 2 \/ x = 3 \/ x = 4 \/ x = 5 \/ x = 6
            \/ x = 7 \/ x = 8 \/ x = 9)%N as Hcases by lia.
    repeat destruct Hcases as [->|Hcases]; try discriminate. by subst.
  - apply IH; [apply N.div_lt; lia|]. apply N.div_str_pos. lia.
Qed.

Lemma pretty_nat_leading (n : nat) :
  (0 < n)%nat -> exists c r, pretty n = String c r /\ c <> "0"%char.
Proof.
  intros Hn. unfold pretty, pretty_nat, pretty, pretty_N.
  destruct (decide (N.of_nat n = 0%N)); [lia|].
  apply pretty_N_go_leading. lia.
Qed.

Lemma zeros_then_digit k1 : forall k2 c1 r1 c2 r2,
  c1 <> "0"%char -> c2 <> "0"%char ->
  (py.zeros k1 ++ String c1 r1 = py.zeros k2 ++ String c2 r2)%string ->
  String c1 r1 = String c2 r2.
Proof.
  induction k1 as [|k1 IH]; intros [|k2] c1 r1 c2 r2 H1 H2; cbn; intros Heq.
  - done.
  - injection Heq as -> _. done.
  - injection Heq as <- _. done.
  - injection Heq as Heq. by eapply IH.
Qed.

(** [f"{n:0wd}"] tells positive numbers apart. *)
Lemma zfill_inj w (n m : nat) :
  (0 < n)%nat -> (0 < m)%nat -> py.zfill w n = py.zfill w m -> n = m.
Proof.
  intros Hn Hm. unfold py.zfill.
  destruct (pretty_nat_leading n Hn) as (c1 & r1 & E1 & H1).
  destruct (pretty_nat_leading m Hm) as (c2 & r2 & E2 & H2).
  rewrite E1, E2. intros Heq%zeros_then_digit; [|done..].
  apply (inj pretty). by rewrite E1, E2.
Qed.

Lemma created_from_log lines self :
  created_from (AuditLog.new lines) self ->
  exists evs,
    log self = lines ++ evs
    /\ length evs = _event_counter self
    /\ forall i ev, evs !! i = Some ev ->
         AuditEvent.event_id ev = ("A-" ++ py.zfill 6 (S i))%string.
Proof.
  induction 1 as [|self now ty gid reason src sess b a v r _ (evs & Hlog & Hlen & Hids)].
  - exists []. cbn. rewrite app_nil_r. split; [done|]. split; [done|]. intros i ev [=].
  - eexists (evs ++ [_]). cbn [create_event fst append log _event_counter].
    rewrite Hlog, <- app_assoc. split; [reflexivity|].
    split; [rewrite length_app; cbn; lia|].
    intros i ev Hi. apply lookup_app_Some in Hi as [Hi|[Hge Hi]]; [by apply Hids|].
    apply list_lookup_singleton_Some in Hi as [Hi <-].
    cbn. do 3 f_equal. lia.
Qed.

(** X9.  The events that one [AuditLog] object has written stand at the
    end of the log in the order of their creation, after the lines that
    the file held before, and they are numbered from A-000001 on: the
    i-th of them has the id A- followed by i on at least six digits.
    Their ids are pairwise distinct.  (The numbering does not look at the
    ids of the lines that were there before.) *)
Theorem event_ids_of_a_log (lines : list AuditEvent.t) (self : AuditLog.t) :
  created_from (AuditLog.new lines) self ->
  exists evs,
    log self = lines ++ evs
    /\ length evs = _event_counter self
    /\ (forall i ev, evs !! i = Some ev ->
          AuditEvent.event_id ev = ("A-" ++ py.zfill 6 (S i))%string)
    /\ NoDup (map AuditEvent.event_id evs).
Proof.
  intros (evs & Hlog & Hlen & Hids)%created_from_log.
  exists evs. split; [done|]. split; [done|]. split; [done|].
  change (NoDup (AuditEvent.event_id <$> evs)).
  apply NoDup_alt. intros i j id Hi Hj.
  apply list_lookup_fmap_Some in Hi as (ei & -> & Hei).
  apply list_lookup_fmap_Some in Hj as (ej & Heq & Hej).
  rewrite (Hids _ _ Hei), (Hids _ _ Hej) in Heq.
  injection Heq as Heq. apply zfill_inj in Heq; lia.
Qed.

Lemma event_ids_of_a_log_witness :
  map AuditEvent.event_id (log sample_log)
  = ["A-000001"; "A-000002"; "A-000003"; "A-000004"; "A-000005"]%string
  /\ NoDup (map AuditEvent.event_id (log sample_log)).
Proof.
  split; [reflexivity|].
  destruct (event_ids_of_a_log [] sample_log) as (evs & Hlog & _ & _ & Hnodup).
  - unfold sample_log. cbv zeta. do 5 apply created_from_step. apply created_from_refl.
  - cbn [app] in Hlog. rewrite Hlog. exact Hnodup.
Defined.

(** [sorted] puts an element before the elements that do not come
    before it by their key, so it keeps the order of equal keys. *)
Lemma insert_sorted_perm {A : Type} (key : A -> Z) (a : A) (l : list A) :
  py.insert_sorted key a l ≡ₚ a :: l.
Proof.
  induction l as [|b l IH]; cbn; [done|].
  destruct (key a <=? key b); [done|]. by rewrite IH, Permutation_swap.
Qed.

Lemma sorted_perm {A : Type} (key : A -> Z) (l : list A) : py.sorted key l ≡ₚ l.
Proof.
  induction l as [|a l IH]; cbn; [done|]. by rewrite insert_sorted_perm, IH.
Qed.

Lemma insert_sorted_ordered {A : Type} (key : A -> Z) (a : A) (l : list A) :
  StronglySorted (fun x y => key x <= key y) l ->
  StronglySorted (fun x y => key x <= key y) (py.insert_sorted key a l).
Proof.
  induction 1 as [|b l Hl IH Hb]; cbn; [repeat constructor|].
  destruct (Z.leb_spec (key a) (key b)) as [Hle|Hgt].
  - constructor; [by constructor|]. constructor; [done|].
    eapply Forall_impl; [exact Hb|]. cbn. intros; lia.
  - constructor; [done|].
    rewrite (insert_sorted_perm key a l). constructor; [lia | done].
Qed.

Lemma sorted_ordered {A : Type} (key : A -> Z) (l : list A) :
  StronglySorted (fun x y => key x <= key y) (py.sorted key l).
Proof.
  induction l as [|a l IH]; cbn; [constructor | by apply insert_sorted_ordered].
Qed.

Lemma insert_sorted_stable {A : Type} (key : A -> Z) (k : Z) (a : A) (l : list A) :
  List.filter (fun x => bool_decide (key x = k)) (py.insert_sorted key a l)
  = List.filter (fun x => bool_decide (key x = k)) (a :: l).
Proof.
  induction l as [|b l IH]; [done|]. cbn [py.insert_sorted].
  destruct (Z.leb_spec (key a) (key b)) as [Hle|Hgt]; [done|].
  cbn [List.filter] in *. rewrite IH.
  destruct (decide (key a = k)) as [Ha|Ha].
  - rewrite (bool_decide_eq_true_2 _ Ha), (bool_decide_eq_false_2 (key b = k)) by lia. done.
  - rewrite (bool_decide_eq_false_2 _ Ha). done.
Qed.

Lemma sorted_stable {A : Type} (key : A -> Z) (k : Z) (l : list A) :
  List.filter (fun x => bool_decide (key x = k)) (py.sorted key l)
  = List.filter (fun x => bool_decide (key x = k)) l.
Proof.
  induction l as [|a l IH]; [done|]. cbn [py.sorted].
  rewrite insert_sorted_stable. cbn [List.filter]. by rewrite IH.
Qed.

(** The loop of [reconstruct_glyph_history] over any list of events. *)
Lemma history_replay (evs : list AuditEvent.t) : forall h,
  let h' := fold_left history_step evs h in
  History.glyph_id h' = History.glyph_id h
  /\ History.total_events h' = History.total_events h
  /\ History.timeline h' = History.timeline h ++ map TimelineEntry.of_event evs
  /\ History.mutations h'
     = History.mutations h
       ++ map TimelineEntry.of_event (List.filter (is_type AuditEventType.MUTATED) evs)
  /\ History.creation_event h'
     = match last (List.filter (is_type AuditEventType.CREATED) evs) with
       | Some e => Some (TimelineEntry.of_event e)
       | None => History.creation_event h
       end
  /\ History.current_state h'
     = match last (List.filter has_after_state evs) with
       | Some e => AuditEvent.after_state e
       | None => History.current_state h
       end.
Proof.
  induction evs as [|e evs IH]; intros h; cbn [fold_left].
  { cbn. rewrite !app_nil_r. done. }
  destruct (IH (history_step h e)) as (Hid & Htot & Htl & Hmut & Hcr & Hcur).
  cbv zeta. rewrite Hid, Htot, Htl, Hmut, Hcr, Hcur. clear.
  cbn [history_step History.glyph_id History.total_events History.timeline
       History.mutations History.creation_event History.current_state
       List.filter map].
  set (muts := List.filter (is_type AuditEventType.MUTATED) evs).
  set (crs := List.filter (is_type AuditEventType.CREATED) evs).
  set (afts := List.filter has_after_state evs).
  unfold is_type, has_after_state.
  split; [done|]. split; [done|]. split; [by rewrite <- app_assoc|].
  split; [|split].
  - destruct (decide (AuditEvent.event_type e = AuditEventType.CREATED)) as [Hc|Hc].
    + rewrite (bool_decide_eq_true_2 _ Hc), (bool_decide_eq_false_2
        (AuditEvent.event_type e = AuditEventType.MUTATED)) by (by rewrite Hc). done.
    + rewrite (bool_decide_eq_false_2 _ Hc). case_bool_decide; [|done].
      by rewrite <- app_assoc.
  - case_bool_decide; [|done]. destruct crs as [|e' l]; [done|].
    rewrite last_cons_cons.
    by destruct (proj2 (last_is_Some (e' :: l)) ltac:(done)) as [x ->].
  - destruct (py.truthy (AuditEvent.after_state e)); [|done].
    destruct afts as [|e' l]; [done|]. rewrite last_cons_cons.
    by destruct (proj2 (last_is_Some (e' :: l)) ltac:(done)) as [x ->].
Qed.

(** X10.  A reconstructed history replays the events of the glyph in the
    order of their timestamps, events of equal timestamp in log order.
    The timeline has one entry per event, the mutations are the entries
    of the mutated events in that order, the creation event is the entry
    of the last created event, and the current state is the after-state
    of the last event that has a non-empty one. *)
Theorem reconstruct_history_replay (self : AuditLog.t) (glyph_id : string) :
  let events := query_by_glyph self glyph_id in
  let history := reconstruct_glyph_history self glyph_id in
  exists replay,
    replay ≡ₚ events
    /\ StronglySorted (fun a b => AuditEvent.timestamp a <= AuditEvent.timestamp b) replay
    /\ (forall t, List.filter (stamped t) replay = List.filter (stamped t) events)
    /\ History.glyph_id history = glyph_id
    /\ History.timeline history = map TimelineEntry.of_event replay
    /\ History.total_events history = length (History.timeline history)
    /\ History.mutations history
       = map TimelineEntry.of_event (List.filter (is_type AuditEventType.MUTATED) replay)
    /\ History.creation_event history
       = TimelineEntry.of_event <$> last (List.filter (is_type AuditEventType.CREATED) replay)
    /\ History.current_state history
       = last (List.filter has_after_state replay) ≫= AuditEvent.after_state.
Proof.
  cbv zeta. exists (py.sorted AuditEvent.timestamp (query_by_glyph self glyph_id)).
  split; [apply sorted_perm|]. split; [apply sorted_ordered|].
  split; [intros t; apply sorted_stable|].
  unfold reconstruct_glyph_history.
  destruct (history_replay (py.sorted AuditEvent.timestamp (query_by_glyph self glyph_id))
              (History.mk glyph_id (length (query_by_glyph self glyph_id)) None [] None []))
    as (Hid & Htot & Htl & Hmut & Hcr & Hcur).
  rewrite Hid, Htot, Htl, Hmut, Hcr, Hcur. cbn [History.glyph_id History.total_events
    History.timeline History.mutations History.creation_event History.current_state app].
  split; [done|]. split; [done|].
  split; [by rewrite length_map, (Permutation_length (sorted_perm _ _))|].
  split; [done|]. split.
  - by destruct (last _).
  - by destruct (last _).
Qed.

Lemma value_eqb (a b : AuditEventType.t) :
  String.eqb (AuditEventType.value a) (AuditEventType.value b) = bool_decide (a = b).
Proof. by destruct a, b. Qed.

(** The counting loop of [generate_summary]. *)
Lemma counting_loop (key : AuditEvent.t -> string) (step : Summary.t -> AuditEvent.t -> Summary.t)
    (field : Summary.t -> gmap string nat) (k : string) :
  (forall s e, field (step s e) = <[key e := S (default 0%nat (field s !! key e))]> (field s)) ->
  forall evs s,
    field (fold_left step evs s) !! k
    = match length (List.filter (fun e => String.eqb (key e) k) evs), field s !! k with
      | O, old => old
      | n, old => Some (n + default 0 old)%nat
      end.
Proof.
  intros Hstep. induction evs as [|e evs IH]; intros s; cbn [fold_left List.filter].
  { by destruct (field s !! k). }
  rewrite IH, Hstep. destruct (String.eqb_spec (key e) k) as [->|Hne].
  - rewrite lookup_insert_eq. cbn [length].
    destruct (length _); cbn [default from_option id]; f_equal; lia.
  - by rewrite lookup_insert_ne.
Qed.

Lemma counter_loop (p : AuditEvent.t -> bool) (step : Summary.t -> AuditEvent.t -> Summary.t)
    (field : Summary.t -> nat) :
  (forall s e, field (step s e) = if p e then S (field s) else field s) ->
  forall evs s,
    field (fold_left step evs s) = (length (List.filter p evs) + field s)%nat.
Proof.
  intros Hstep. induction evs as [|e evs IH]; intros s; cbn [fold_left List.filter]; [done|].
  rewrite IH, Hstep. destruct (p e); cbn [length]; lia.
Qed.

Lemma summary_total evs : forall s,
  Summary.total_events (fold_left summary_step evs s) = Summary.total_events s.
Proof. induction evs as [|e evs IH]; intros s; cbn [fold_left]; [done | by rewrite IH]. Qed.

(** X11.  The summary counts every event of the log once under its type
    and once under its glyph: the counter of a type or of a glyph id is
    the number of events that the query by that type or id returns, a key
    is present only if that number is positive, and the numbers of
    rejections and of validation failures are those of the rejected and
    validation_failed events. *)
Theorem generate_summary_counts (self : AuditLog.t) :
  let summary := generate_summary self in
  Summary.total_events summary = length (read_all self)
  /\ (forall event_type,
        default 0%nat (Summary.by_type summary !! AuditEventType.value event_type)
        = length (query_by_type self event_type))
  /\ (forall glyph_id,
        default 0%nat (Summary.by_glyph summary !! glyph_id)
        = length (query_by_glyph self glyph_id))
  /\ (forall glyph_id,
        is_Some (Summary.by_glyph summary !! glyph_id)
        <-> query_by_glyph self glyph_id <> [])
  /\ Summary.rejected_count summary = length (query_by_type self AuditEventType.REJECTED)
  /\ Summary.validation_failures summary
     = length (query_by_type self AuditEventType.VALIDATION_FAILED).
Proof.
  cbv zeta. unfold generate_summary, query_by_type, query_by_glyph.
  set (s0 := Summary.mk _ _ _ _ _). split; [|split; [|split; [|split; [|split]]]].
  - apply summary_total.
  - intros ty.
    rewrite (counting_loop (fun e => AuditEventType.value (AuditEvent.event_type e))
               summary_step Summary.by_type) by done.
    rewrite (List.filter_ext _ (fun e => bool_decide (AuditEvent.event_type e = ty)))
      by (intros e; apply value_eqb).
    cbn [s0 Summary.by_type]. rewrite lookup_empty.
    destruct (length (List.filter _ _)); cbn [default from_option id]; lia.
  - intros gid.
    rewrite (counting_loop AuditEvent.glyph_id summary_step Summary.by_glyph) by done.
    cbn [s0 Summary.by_glyph]. rewrite lookup_empty.
    destruct (length (List.filter _ _)); cbn [default from_option id]; lia.
  - intros gid.
    rewrite (counting_loop AuditEvent.glyph_id summary_step Summary.by_glyph) by done.
    cbn [s0 Summary.by_glyph]. rewrite lookup_empty.
    destruct (List.filter _ _) as [|e l]; cbn [length].
    + split; [by intros [? [=]] | done].
    + split; [done | by eexists].
  - rewrite (counter_loop (is_type AuditEventType.REJECTED) summary_step
               Summary.rejected_count) by done.
    cbn [s0 Summary.rejected_count]. unfold is_type. lia.
  - rewrite (counter_loop (is_type AuditEventType.VALIDATION_FAILED) summary_step
               Summary.validation_failures) by done.
    cbn [s0 Summary.validation_failures]. unfold is_type. lia.
Qed.

End AuditFacts.

(** ** store.py: objects, files and transactions *)

Section StoreOperations.

Import GlyphStore.












(** X16.  The active and the expired glyphs divide the store.  On a
    well-formed store [get_active_glyphs] and [get_expired_glyphs],
    called at the same time, both return; every stored id is in exactly
    one of the two results, so their sizes add up to the number of glyph
    files (the [total_glyphs] of the statistics), and no file is
    changed. *)
Theorem active_and_expired_partition (now : py.datetime) (st : GlyphStore.t) :
  store_wf st ->
  exists st1 st2 active expired,
    get_active_glyphs now st = (st1, Ok active)
    /\ get_expired_glyphs now st1 = (st2, Ok expired)
    /\ (forall glyph_id,
          glyph_id ∈ list_glyphs st <-> glyph_id ∈ active.*1 \/ glyph_id ∈ expired.*1)
    /\ (forall glyph_id, glyph_id ∈ active.*1 -> glyph_id ∉ expired.*1)
    /\ (length active + length expired = length (list_glyphs st))%nat
    /\ glyphs_path st2 = glyphs_path st.
Proof.
  intros Hwf.
  destruct (get_select_spec (fun g => negb (GlyphToken.is_expired now g)) st Hwf)
    as (st1 & active & Hact & Hext1 & Hnd1 & _ & Hin1).
  destruct (get_select_spec (GlyphToken.is_expired now) st1 (ext_wf _ _ Hext1))
    as (st2 & expired & Hexp & Hext2 & Hnd2 & _ & Hin2).
  exists st1, st2, active, expired.
  split; [exact Hact|]. split; [exact Hexp|].
  assert (Hcover : forall gid,
             gid ∈ list_glyphs st <-> gid ∈ active.*1 \/ gid ∈ expired.*1).
  { intros gid. rewrite Hin1, Hin2, (ext_tokens _ _ Hext1), list_glyphs_elem.
    rewrite tokens_lookup. split.
    - intros [j Hj]. rewrite Hj. cbn.
      destruct (GlyphToken.is_expired now (current st gid j)) eqn:E;
        [right | left]; eexists; (split; [reflexivity|]); by rewrite ?E.
    - intros [(g & Hg & _)|(g & Hg & _)]; destruct (glyphs_path st !! gid); by eauto. }
  assert (Hdisj : forall gid, gid ∈ active.*1 -> gid ∉ expired.*1).
  { intros gid (g & Hg & Hp)%Hin1 (g' & Hg' & Hp')%Hin2.
    rewrite (ext_tokens _ _ Hext1), Hg in Hg'. injection Hg' as <-.
    by rewrite Hp' in Hp. }
  split; [exact Hcover|]. split; [exact Hdisj|]. split.
  - rewrite <- (length_fmap fst active), <- (length_fmap fst expired), <- length_app.
    apply Permutation_length, NoDup_Permutation.
    + apply NoDup_app. split; [done|]. split; [exact Hdisj | done].
    + apply NoDup_fst_map_to_list.
    + intros gid. rewrite elem_of_app. symmetry. apply Hcover.
  - by rewrite (ext_files _ _ Hext2), (ext_files _ _ Hext1).
Qed.

(** The two genesis glyphs a day after the start of the process: the
    consent glyph has expired, the anchor has not. *)
Lemma active_and_expired_partition_witness :
  let st := GlyphEngine.store (fresh_engine 100 ∅) in
  let active := get_active_glyphs a_day_later st in
  let expired := get_expired_glyphs a_day_later active.1 in
  (exists items, active.2 = Ok items /\ items.*1 = ["G-000"]%string)
  /\ (exists items, expired.2 = Ok items /\ items.*1 = ["G-001"]%string)
  /\ (1 + 1 = length (list_glyphs st))%nat.
Proof.
  cbv zeta.
  destruct (active_and_expired_partition a_day_later (GlyphEngine.store (fresh_engine 100 ∅)))
    as (st1 & st2 & active & expired & Hact & Hexp & _ & _ & Hlen & _).
  { apply store_wf_checked. vm_compute. reflexivity. }
  split; [|split].
  - eexists. split; vm_compute; reflexivity.
  - eexists. split; vm_compute; reflexivity.
  - vm_compute. reflexivity.
Defined.

End StoreOperations.

(** ** engine.py: what every handler keeps *)

Section EngineInvariants.

Import GlyphEngine.
















End EngineInvariants.

(** ** engine.py: the commands on a target *)

Section EngineCommands.

Import GlyphEngine.




Lemma delete_glyph_spec gid j st :
  store_wf st ->
  GlyphStore.glyphs_path st !! gid = Some j ->
  exists st',
    GlyphStore.delete_glyph gid st = (st', Ok true)
    /\ GlyphStore.objects st' = GlyphStore.objects st
    /\ GlyphStore.glyphs_path st' = delete gid (GlyphStore.glyphs_path st)
    /\ GlyphStore._glyph_cache st' = delete gid (GlyphStore._glyph_cache st)
    /\ tokens st' = delete gid (tokens st)
    /\ store_wf st'.
Proof.
  intros [Hobj Hval] Hj. unfold GlyphStore.delete_glyph. rewrite Hj.
  eexists. split; [reflexivity|].
  cbn [GlyphStore.objects GlyphStore.glyphs_path GlyphStore._glyph_cache].
  split; [done|]. split; [done|]. split; [done|]. split.
  - apply map_eq. intros k. rewrite tokens_lookup.
    cbn [GlyphStore.glyphs_path].
    destruct (decide (k = gid)) as [->|Hne].
    + by rewrite !lookup_delete_eq.
    + rewrite !lookup_delete_ne by done. rewrite tokens_lookup.
      destruct (GlyphStore.glyphs_path st !! k) as [jk|]; [cbn|done]. f_equal.
      unfold current. cbn [GlyphStore._glyph_cache GlyphStore.objects].
      by rewrite lookup_delete_ne.
  - split; cbn [GlyphStore.objects GlyphStore.glyphs_path GlyphStore._glyph_cache].
    + intros k lk Hk. apply lookup_delete_Some in Hk as [_ Hk]. by eapply Hobj.
    + intros k jk Hk Hc. apply lookup_delete_Some in Hk as [Hne Hk].
      rewrite lookup_delete_ne in Hc by done. by eapply Hval.
Qed.

(** X19.  Forgetting is visible.  On a well-formed store, a forget
    command whose target is stored succeeds: the file and the cache entry
    of the glyph are removed, so that a later load finds nothing, and
    exactly one event is appended to the audit log, of type forgotten,
    for that id, with the token as it was as before-state, no
    after-state, and the reason of the payload or, without one, the text
    User requested forget. *)
Theorem forget_removes_and_records (now : py.datetime) (msg : InputMessage.t)
    (self : GlyphEngine.t) (glyph_id : string) (g : GlyphToken.t) :
  InputMessage.target_glyph_id msg = Some glyph_id ->
  store_wf (store self) ->
  tokens (store self) !! glyph_id = Some g ->
  exists self' ev,
    _cmd_forget now msg self
    = (self', Ok (EngineResponse.mk true ("Forgot: " ++ glyph_id) (Some glyph_id) None
                    (Some [py.Lit "Removed glyph: "; py.Lit (GlyphToken.explanation g)])
                    now))
    /\ GlyphStore.glyphs_path (store self') = delete glyph_id (GlyphStore.glyphs_path (store self))
    /\ tokens (store self') = delete glyph_id (tokens (store self))
    /\ GlyphStore.load_glyph glyph_id (store self') = (store self', Ok None)
    /\ store_wf (store self')
    /\ AuditLog.log (audit self') = AuditLog.log (audit self) ++ [ev]
    /\ AuditEvent.event_type ev = AuditEventType.FORGOTTEN
    /\ AuditEvent.glyph_id ev = glyph_id
    /\ AuditEvent.before_state ev = Some (GlyphToken.model_dump g)
    /\ AuditEvent.after_state ev = None
    /\ AuditEvent.reason ev
       = [py.Lit (default "User requested forget"%string
                    (Payload.reason (InputMessage.payload msg)))].
Proof.
  intros Htarget Hwf Hg.
  assert (exists j, GlyphStore.glyphs_path (store self) !! glyph_id = Some j) as [j Hj].
  { rewrite tokens_lookup in Hg. destruct (GlyphStore.glyphs_path (store self) !! glyph_id);
      [by eexists | discriminate]. }
  destruct (load_glyph_stored _ _ _ Hwf Hj) as (st1 & l & Hload & Hext & Hcache).
  assert (Hobj : GlyphStore.objects st1 !! l = Some g).
  { eapply tokens_cached; [exact (ext_wf _ _ Hext) | exact Hcache |].
    by rewrite (ext_tokens _ _ Hext). }
  assert (Hj1 : GlyphStore.glyphs_path st1 !! glyph_id = Some j).
  { by rewrite (ext_files _ _ Hext). }
  destruct (delete_glyph_spec _ _ _ (ext_wf _ _ Hext) Hj1)
    as (st2 & Hdel & Hobjs & Hfiles & Hcache2 & Htokens & Hwf2).
  eexists _, _. split.
  { unfold _cmd_forget. rewrite Htarget. cbn [py.str_opt default from_option id].
    unfold py.bind at 1. erewrite in_store_run; [|exact Hload].
    unfold py.bind at 1. erewrite in_store_run; [|exact Hdel].
    unfold py.bind at 1.
    erewrite in_store_run;
      [|unfold GlyphStore.deref; cbn [store set_store]; rewrite Hobjs, Hobj; reflexivity].
    unfold py.bind at 1, audit_event at 1. cbn [AuditLog.create_event].
    unfold py.ret. reflexivity. }
  cbn [store set_store set_audit audit AuditLog.append AuditLog.log].
  split; [by rewrite Hfiles, (ext_files _ _ Hext)|].
  split; [by rewrite Htokens, (ext_tokens _ _ Hext)|].
  split.
  { unfold GlyphStore.load_glyph. by rewrite Hcache2, Hfiles, !lookup_delete_eq. }
  split; [exact Hwf2|]. done.
Qed.

Lemma forget_removes_and_records_witness :
  let run := _cmd_forget t2025 sample_forget (fresh_engine 100 ∅) in
  (exists response, run.2 = Ok response /\ EngineResponse.success response = true)
  /\ GlyphStore.list_glyphs (store run.1) = ["G-001"]%string
  /\ map (fun e => (AuditEvent.event_type e, AuditEvent.glyph_id e))
         (AuditLog.log (audit run.1))
     = [(AuditEventType.FORGOTTEN, "G-000"%string)].
Proof.
  cbv zeta.
  destruct (tokens (store (fresh_engine 100 ∅)) !! "G-000"%string) as [g|] eqn:Hg;
    [|by vm_compute in Hg].
  destruct (forget_removes_and_records t2025 sample_forget (fresh_engine 100 ∅) "G-000" g)
    as (self' & ev & Hrun & _ & _ & _ & _ & Hlog & Hty & Hid & _).
  - reflexivity.
  - apply store_wf_checked. vm_compute. reflexivity.
  - exact Hg.
  - rewrite Hrun. cbn [fst snd]. split; [eexists; split; reflexivity|].
    split.
    + apply (f_equal fst) in Hrun. cbn [fst] in Hrun. rewrite <- Hrun.
      vm_compute. reflexivity.
    + rewrite Hlog, map_app. cbn [map]. rewrite Hty, Hid. vm_compute. reflexivity.
Defined.

Lemma call_spec l (method : GlyphToken.t -> GlyphToken.t * py.result unit) g g' r st :
  GlyphStore.objects st !! l = Some g ->
  method g = (g', r) ->
  GlyphStore.call l method st = (with_objects (<[l := g']> (GlyphStore.objects st)) st, r).
Proof. intros Hl Hm. unfold GlyphStore.call. by rewrite Hl, Hm. Qed.

Lemma store_wf_insert_object l g' st :
  store_wf st -> store_wf (with_objects (<[l := g']> (GlyphStore.objects st)) st).
Proof.
  intros [Hobj Hval]. split; cbn [with_objects GlyphStore.objects GlyphStore.glyphs_path
    GlyphStore._glyph_cache]; [|done].
  intros k lk Hk. destruct (Hobj _ _ Hk) as [x Hx]. apply lookup_lt_is_Some.
  rewrite length_insert. by eapply lookup_lt_Some.
Qed.

Lemma refresh_glyph_id now extra g :
  GlyphToken.glyph_id (GlyphToken.refresh now extra g).1 = GlyphToken.glyph_id g.
Proof.
  unfold GlyphToken.refresh, py.timedelta_seconds, py.datetime_add. cbn.
  repeat case_bool_decide; reflexivity.
Qed.

(** The first step of a command on a stored target: the target is
    loaded, and the reference names the token that a reader sees. *)
Lemma target_loaded self gid g :
  store_wf (store self) ->
  tokens (store self) !! gid = Some g ->
  exists st1 l,
    GlyphStore.load_glyph gid (store self) = (st1, Ok (Some l))
    /\ extends (store self) st1
    /\ GlyphStore._glyph_cache st1 !! gid = Some l
    /\ GlyphStore.objects st1 !! l = Some g.
Proof.
  intros Hwf Hg.
  assert (exists j, GlyphStore.glyphs_path (store self) !! gid = Some j) as [j Hj].
  { rewrite tokens_lookup in Hg. destruct (GlyphStore.glyphs_path (store self) !! gid);
      [by eexists | discriminate]. }
  destruct (load_glyph_stored _ _ _ Hwf Hj) as (st1 & l & Hload & Hext & Hcache).
  exists st1, l. split; [done|]. split; [done|]. split; [done|].
  eapply tokens_cached; [exact (ext_wf _ _ Hext) | exact Hcache |].
  by rewrite (ext_tokens _ _ Hext).
Qed.

(** X20.  A refresh command on a stored glyph whose refresh returns
    extends the TTL by the seconds of the payload (a day without them)
    and sets the expiry to the time of the command plus the new TTL.
    The refreshed token is written to the file of the glyph and is what
    a later load returns, and exactly one event is appended, of type
    refreshed, with the token before and after the refresh as states. *)
Theorem refresh_extends_and_records (now : py.datetime) (msg : InputMessage.t)
    (self : GlyphEngine.t) (glyph_id : string) (g g' : GlyphToken.t) :
  InputMessage.target_glyph_id msg = Some glyph_id ->
  store_wf (store self) ->
  tokens (store self) !! glyph_id = Some g ->
  GlyphToken.glyph_id g = glyph_id ->
  let additional := default 86400 (Payload.seconds (InputMessage.payload msg)) in
  GlyphToken.refresh now additional g = (g', Ok tt) ->
  exists self' ev,
    _cmd_refresh now msg self
    = (self', Ok (EngineResponse.mk true ("Refreshed: " ++ glyph_id) (Some glyph_id) None
                    (Some (GlyphToken.to_text g')) now))
    /\ GlyphToken.ttl_seconds g' = GlyphToken.ttl_seconds g + additional
    /\ GlyphToken.expires_at g' = now + GlyphToken.ttl_seconds g' * 1000000
    /\ GlyphStore.glyphs_path (store self')
       = <[glyph_id := g']> (GlyphStore.glyphs_path (store self))
    /\ tokens (store self') !! glyph_id = Some g'
    /\ store_wf (store self')
    /\ AuditLog.log (audit self') = AuditLog.log (audit self) ++ [ev]
    /\ AuditEvent.event_type ev = AuditEventType.REFRESHED
    /\ AuditEvent.glyph_id ev = glyph_id
    /\ AuditEvent.before_state ev = Some (GlyphToken.model_dump g)
    /\ AuditEvent.after_state ev = Some (GlyphToken.model_dump g')
    /\ AuditEvent.reason ev
       = [py.Lit "TTL extended by "; py.StrInt additional; py.Lit " seconds"].
Proof.
  intros Htarget Hwf Hg Hid additional Hrefresh.
  destruct (target_loaded self glyph_id g Hwf Hg)
    as (st1 & l & Hload & Hext & Hcache & Hobj).
  pose proof (refresh_glyph_id now additional g) as Hid'.
  rewrite Hrefresh in Hid'. cbn [fst] in Hid'. rewrite Hid in Hid'.
  set (st2 := with_objects (<[l := g']> (GlyphStore.objects st1)) st1).
  assert (Hobj2 : GlyphStore.objects st2 !! l = Some g').
  { apply list_lookup_insert_eq. by eapply lookup_lt_Some. }
  destruct (save_glyph_spec l g' st2 (store_wf_insert_object _ _ _ (ext_wf _ _ Hext)) Hobj2)
    as (st3 & Hsave & Hfiles & Htokens & Hwf3).
  assert (Hobj3 : GlyphStore.objects st3 !! l = Some g').
  { unfold GlyphStore.save_glyph in Hsave. rewrite Hobj2 in Hsave.
    injection Hsave as <-. exact Hobj2. }
  destruct (refresh_ok _ _ _ _ Hrefresh) as (Httl & Hexp & _).
  eexists _, _. split.
  { unfold _cmd_refresh. rewrite Htarget. cbn [py.str_opt default from_option id].
    unfold py.bind at 1. erewrite in_store_run; [|exact Hload].
    unfold py.bind at 1.
    erewrite in_store_run;
      [|unfold GlyphStore.deref; cbn [store set_store]; rewrite Hobj; reflexivity].
    unfold py.bind at 1.
    erewrite in_store_run;
      [|cbn [store set_store]; by apply (call_spec l _ g g' (Ok tt))].
    unfold py.bind at 1. erewrite in_store_run; [|exact Hsave].
    unfold py.bind at 1.
    erewrite in_store_run;
      [|unfold GlyphStore.deref; cbn [store set_store]; rewrite Hobj3; reflexivity].
    unfold py.bind at 1, audit_event at 1. cbn [AuditLog.create_event].
    unfold py.ret. reflexivity. }
  cbn [store set_store set_audit audit AuditLog.append AuditLog.log].
  split; [exact Httl|]. split; [exact Hexp|].
  split.
  { rewrite Hfiles, Hid'. unfold st2. cbn [with_objects GlyphStore.glyphs_path].
    by rewrite (ext_files _ _ Hext). }
  split; [by rewrite Htokens, Hid', lookup_insert_eq|].
  split; [exact Hwf3|]. done.
Qed.

Lemma refresh_extends_and_records_witness :
  let run := _cmd_refresh t2025 sample_refresh (fresh_engine 100 ∅) in
  (exists response, run.2 = Ok response /\ EngineResponse.success response = true)
  /\ (GlyphToken.ttl_seconds <$> tokens (store run.1) !! "G-000"%string)
     = Some (31536000 + 3600)
  /\ (GlyphToken.expires_at <$> tokens (store run.1) !! "G-000"%string)
     = Some (t2025 + (31536000 + 3600) * 1000000).
Proof.
  cbv zeta.
  destruct (tokens (store (fresh_engine 100 ∅)) !! "G-000"%string) as [g|] eqn:Hg;
    [|by vm_compute in Hg].
  destruct (refresh_extends_and_records t2025 sample_refresh (fresh_engine 100 ∅) "G-000" g
              (GlyphToken.refresh t2025 3600 g).1)
    as (self' & ev & Hrun & Httl & Hexp & _ & Htok & _).
  - reflexivity.
  - apply store_wf_checked. vm_compute. reflexivity.
  - exact Hg.
  - vm_compute in Hg. injection Hg as <-. reflexivity.
  - vm_compute in Hg. injection Hg as <-. vm_compute. reflexivity.
  - rewrite Hrun. cbn [fst snd]. split; [eexists; split; reflexivity|].
    rewrite Htok. cbn [fmap option_fmap option_map]. rewrite Hexp, Httl.
    vm_compute in Hg. injection Hg as <-. split; reflexivity.
Defined.

(** X21.  A refresh command whose refresh overflows raises the overflow
    error after the object was changed: no file is written and no audit
    event is appended, but the cached token, which every later load
    returns, carries the extended TTL together with its old expiry. *)
Theorem refresh_overflow_is_not_undone (now : py.datetime) (msg : InputMessage.t)
    (self : GlyphEngine.t) (glyph_id : string) (g g' : GlyphToken.t) (e : py.exn) :
  InputMessage.target_glyph_id msg = Some glyph_id ->
  store_wf (store self) ->
  tokens (store self) !! glyph_id = Some g ->
  let additional := default 86400 (Payload.seconds (InputMessage.payload msg)) in
  GlyphToken.refresh now additional g = (g', Raised e) ->
  exists self' l,
    _cmd_refresh now msg self = (self', Raised e)
    /\ audit self' = audit self
    /\ GlyphStore.glyphs_path (store self') = GlyphStore.glyphs_path (store self)
    /\ GlyphStore.load_glyph glyph_id (store self') = (store self', Ok (Some l))
    /\ GlyphStore.objects (store self') !! l = Some g'
    /\ tokens (store self') !! glyph_id = Some g'
    /\ GlyphToken.ttl_seconds g' = GlyphToken.ttl_seconds g + additional
    /\ GlyphToken.expires_at g' = GlyphToken.expires_at g.
Proof.
  intros Htarget Hwf Hg additional Hrefresh.
  destruct (target_loaded self glyph_id g Hwf Hg)
    as (st1 & l & Hload & Hext & Hcache & Hobj).
  set (st2 := with_objects (<[l := g']> (GlyphStore.objects st1)) st1).
  assert (Hobj2 : GlyphStore.objects st2 !! l = Some g').
  { apply list_lookup_insert_eq. by eapply lookup_lt_Some. }
  exists (set_store st2 self), l. split.
  { unfold _cmd_refresh. rewrite Htarget. cbn [py.str_opt default from_option id].
    unfold py.bind at 1. erewrite in_store_run; [|exact Hload].
    unfold py.bind at 1.
    erewrite in_store_run;
      [|unfold GlyphStore.deref; cbn [store set_store]; rewrite Hobj; reflexivity].
    unfold py.bind at 1.
    erewrite in_store_run;
      [|cbn [store set_store]; by apply (call_spec l _ g g' (Raised e))].
    reflexivity. }
  cbn [store set_store audit].
  split; [done|]. split; [exact (ext_files _ _ Hext)|].
  split. { unfold GlyphStore.load_glyph. cbn [st2 with_objects GlyphStore._glyph_cache].
           by rewrite Hcache. }
  split; [exact Hobj2|]. split.
  { rewrite tokens_lookup. cbn [st2 with_objects GlyphStore.glyphs_path].
    rewrite (ext_files _ _ Hext). rewrite tokens_lookup in Hg.
    destruct (GlyphStore.glyphs_path (store self) !! glyph_id) as [j|]; [|discriminate].
    cbn. f_equal. unfold current, st2 in *.
    cbn [with_objects GlyphStore._glyph_cache GlyphStore.objects] in *.
    by rewrite Hcache, Hobj2. }
  destruct (refresh_overflow_parts _ _ _ _ _ Hrefresh) as (_ & ? & ? & _). done.
Qed.

(** A refresh of the genesis anchor by ten thousand years. *)
Lemma refresh_overflow_is_not_undone_witness :
  let run := _cmd_refresh t2025 overlong_refresh (fresh_engine 100 ∅) in
  run.2 = Raised py.OverflowError
  /\ AuditLog.log (audit run.1) = []
  /\ (GlyphToken.ttl_seconds <$> GlyphStore.glyphs_path (store run.1) !! "G-000"%string)
     = Some 31536000
  /\ (GlyphToken.ttl_seconds <$> tokens (store run.1) !! "G-000"%string)
     = Some (31536000 + 315360000000).
Proof.
  cbv zeta.
  destruct (tokens (store (fresh_engine 100 ∅)) !! "G-000"%string) as [g|] eqn:Hg;
    [|by vm_compute in Hg].
  destruct (refresh_overflow_is_not_undone t2025 overlong_refresh (fresh_engine 100 ∅)
              "G-000" g (GlyphToken.refresh t2025 315360000000 g).1 py.OverflowError)
    as (self' & l & Hrun & Haudit & Hfiles & _ & _ & Htok & Httl & _).
  - reflexivity.
  - apply store_wf_checked. vm_compute. reflexivity.
  - exact Hg.
  - vm_compute in Hg. injection Hg as <-. vm_compute. reflexivity.
  - rewrite Hrun. cbn [fst snd]. split; [reflexivity|].
    rewrite Haudit, Hfiles, Htok. cbn [fmap option_fmap option_map]. rewrite Httl.
    vm_compute in Hg. injection Hg as <-.
    split; [vm_compute; reflexivity|]. split; [vm_compute; reflexivity | reflexivity].
Defined.

(** X22.  An attenuate command on a stored glyph always succeeds, with
    any factor: the intensity of the token becomes the larger of 0 and
    the product of its intensity with the factor of the payload (0.9
    without one), the token is written to the file of the glyph, and
    exactly one event is appended, of type mutated, with the token
    before and after as states and the factor in its reason. *)
Theorem attenuate_command_scales_and_records (now : py.datetime) (msg : InputMessage.t)
    (self : GlyphEngine.t) (glyph_id : string) (g : GlyphToken.t) :
  InputMessage.target_glyph_id msg = Some glyph_id ->
  store_wf (store self) ->
  tokens (store self) !! glyph_id = Some g ->
  GlyphToken.glyph_id g = glyph_id ->
  let factor := default (9 # 10)%Q (Payload.factor (InputMessage.payload msg)) in
  let g' := GlyphToken.attenuate factor g in
  exists self' ev,
    _cmd_attenuate now msg self
    = (self', Ok (EngineResponse.mk true ("Attenuated: " ++ glyph_id) (Some glyph_id) None
                    (Some (GlyphToken.to_text g')) now))
    /\ GlyphToken.intensity g' = py.max 0 (GlyphToken.intensity g * factor)
    /\ GlyphStore.glyphs_path (store self')
       = <[glyph_id := g']> (GlyphStore.glyphs_path (store self))
    /\ tokens (store self') !! glyph_id = Some g'
    /\ store_wf (store self')
    /\ AuditLog.log (audit self') = AuditLog.log (audit self) ++ [ev]
    /\ AuditEvent.event_type ev = AuditEventType.MUTATED
    /\ AuditEvent.glyph_id ev = glyph_id
    /\ AuditEvent.before_state ev = Some (GlyphToken.model_dump g)
    /\ AuditEvent.after_state ev = Some (GlyphToken.model_dump g')
    /\ AuditEvent.reason ev = [py.Lit "Attenuated by factor "; py.StrFloat factor].
Proof.
  intros Htarget Hwf Hg Hid factor g'.
  destruct (target_loaded self glyph_id g Hwf Hg)
    as (st1 & l & Hload & Hext & Hcache & Hobj).
  set (st2 := with_objects (<[l := g']> (GlyphStore.objects st1)) st1).
  assert (Hobj2 : GlyphStore.objects st2 !! l = Some g').
  { apply list_lookup_insert_eq. by eapply lookup_lt_Some. }
  destruct (save_glyph_spec l g' st2 (store_wf_insert_object _ _ _ (ext_wf _ _ Hext)) Hobj2)
    as (st3 & Hsave & Hfiles & Htokens & Hwf3).
  assert (Hobj3 : GlyphStore.objects st3 !! l = Some g').
  { unfold GlyphStore.save_glyph in Hsave. rewrite Hobj2 in Hsave.
    injection Hsave as <-. exact Hobj2. }
  assert (Hid' : GlyphToken.glyph_id g' = glyph_id) by exact Hid.
  eexists _, _. split.
  { unfold _cmd_attenuate. rewrite Htarget. cbn [py.str_opt default from_option id].
    unfold py.bind at 1. erewrite in_store_run; [|exact Hload].
    unfold py.bind at 1.
    erewrite in_store_run;
      [|unfold GlyphStore.deref; cbn [store set_store]; rewrite Hobj; reflexivity].
    unfold py.bind at 1.
    erewrite in_store_run; [|cbn [store set_store]; by apply assign_spec].
    unfold py.bind at 1. erewrite in_store_run; [|exact Hsave].
    unfold py.bind at 1.
    erewrite in_store_run;
      [|unfold GlyphStore.deref; cbn [store set_store]; rewrite Hobj3; reflexivity].
    unfold py.bind at 1, audit_event at 1. cbn [AuditLog.create_event].
    unfold py.ret. reflexivity. }
  cbn [store set_store set_audit audit AuditLog.append AuditLog.log].
  split; [reflexivity|].
  split.
  { rewrite Hfiles, Hid'. unfold st2. cbn [with_objects GlyphStore.glyphs_path].
    by rewrite (ext_files _ _ Hext). }
  split; [by rewrite Htokens, Hid', lookup_insert_eq|].
  split; [exact Hwf3|]. done.
Qed.

Lemma attenuate_command_scales_and_records_witness :
  let run := _cmd_attenuate t2025 sample_attenuate (fresh_engine 100 ∅) in
  (exists response, run.2 = Ok response /\ EngineResponse.success response = true)
  /\ exists g, tokens (store run.1) !! "G-000"%string = Some g
               /\ (GlyphToken.intensity g == 3)%Q.
Proof.
  cbv zeta.
  destruct (tokens (store (fresh_engine 100 ∅)) !! "G-000"%string) as [g|] eqn:Hg;
    [|by vm_compute in Hg].
  destruct (attenuate_command_scales_and_records t2025 sample_attenuate
              (fresh_engine 100 ∅) "G-000" g)
    as (self' & ev & Hrun & Hint & _ & Htok & _).
  - reflexivity.
  - apply store_wf_checked. vm_compute. reflexivity.
  - exact Hg.
  - vm_compute in Hg. injection Hg as <-. reflexivity.
  - rewrite Hrun. cbn [fst snd]. split; [eexists; split; reflexivity|].
    eexists. split; [exact Htok|]. rewrite Hint.
    vm_compute in Hg. injection Hg as <-. vm_compute. reflexivity.
Defined.

Lemma reframed_glyph_id payload g :
  GlyphToken.glyph_id (reframed payload g) = GlyphToken.glyph_id g.
Proof.
  unfold reframed. destruct (Payload.class payload) as [c|];
    [destruct (GlyphClass.of_value c)|]; destruct (Payload.explanation payload);
    destruct (Payload.intensity payload); reflexivity.
Qed.

Lemma reframed_intensity payload g i :
  Payload.intensity payload = Some i -> GlyphToken.intensity (reframed payload g) = i.
Proof. intros Hi. unfold reframed. by rewrite Hi. Qed.

(** X23.  A reframe writes what the payload says without validating it.
    When the scroll permits transformation, a reframe of a stored glyph
    with an intensity outside [0, 1] succeeds, and the file of the glyph
    then holds that intensity.  The document is one that the loader
    refuses: in a process started later on the same files, loading the
    glyph raises a validation error. *)
Theorem reframe_writes_unreadable_file (now : py.datetime) (msg : InputMessage.t)
    (self : GlyphEngine.t) (glyph_id : string) (g : GlyphToken.t) (i : Q) :
  InputMessage.target_glyph_id msg = Some glyph_id ->
  store_wf (store self) ->
  tokens (store self) !! glyph_id = Some g ->
  GlyphToken.glyph_id g = glyph_id ->
  (forall c, Payload.class (InputMessage.payload msg) = Some c ->
             exists k, GlyphClass.of_value c = Ok k) ->
  Payload.intensity (InputMessage.payload msg) = Some i ->
  ~ ((0 <= i)%Q /\ (i <= 1)%Q) ->
  Scroll.is_mutation_allowed (_get_scroll self) MutationType.TRANSFORM = true ->
  exists self' response written,
    _cmd_reframe now msg self = (self', Ok response)
    /\ EngineResponse.success response = true
    /\ GlyphStore.glyphs_path (store self') !! glyph_id = Some written
    /\ GlyphToken.intensity written = i
    /\ GlyphStore.load_glyph glyph_id (restarted (store self'))
       = (restarted (store self'), Raised py.ValidationError).
Proof.
  intros Htarget Hwf Hg Hid Hclass Hi Hrange Hscroll.
  destruct (target_loaded self glyph_id g Hwf Hg)
    as (st1 & l & Hload & Hext & Hcache & Hobj).
  set (after := reframed (InputMessage.payload msg) g).
  set (st2 := with_objects (<[l := after]> (GlyphStore.objects st1)) st1).
  assert (Hobj2 : GlyphStore.objects st2 !! l = Some after).
  { apply list_lookup_insert_eq. by eapply lookup_lt_Some. }
  destruct (save_glyph_spec l after st2 (store_wf_insert_object _ _ _ (ext_wf _ _ Hext)) Hobj2)
    as (st3 & Hsave & Hfiles & _ & _).
  assert (Hobj3 : GlyphStore.objects st3 !! l = Some after).
  { unfold GlyphStore.save_glyph in Hsave. rewrite Hobj2 in Hsave.
    injection Hsave as <-. exact Hobj2. }
  assert (Hfile : GlyphStore.glyphs_path st3 !! glyph_id = Some after).
  { rewrite Hfiles. unfold after at 1. rewrite reframed_glyph_id, Hid.
    apply lookup_insert_eq. }
  eexists _, _, after. split.
  { unfold _cmd_reframe. rewrite Htarget. cbn [py.str_opt default from_option id].
    unfold py.bind at 1. erewrite in_store_run; [|exact Hload].
    unfold py.bind at 1.
    erewrite in_store_run;
      [|unfold GlyphStore.deref; cbn [store set_store]; rewrite Hobj; reflexivity].
    unfold py.bind at 1.
    erewrite in_store_run; [|cbn [store set_store]; by apply apply_reframe_spec].
    unfold py.bind at 1, py.get at 1. cbn beta iota.
    match goal with
    | |- context [_get_scroll ?e] => change (_get_scroll e) with (_get_scroll self)
    end.
    rewrite Hscroll. cbn [negb].
    unfold py.bind at 1. erewrite in_store_run; [|exact Hsave].
    unfold py.bind at 1.
    erewrite in_store_run;
      [|unfold GlyphStore.deref; cbn [store set_store]; rewrite Hobj3; reflexivity].
    unfold py.bind at 1, audit_event at 1. cbn [AuditLog.create_event].
    unfold py.ret. reflexivity. }
  cbn [EngineResponse.success store set_store set_audit].
  split; [done|]. split; [exact Hfile|].
  split; [by apply reframed_intensity|].
  unfold GlyphStore.load_glyph, restarted.
  cbn [GlyphStore._glyph_cache GlyphStore.glyphs_path]. rewrite lookup_empty, Hfile.
  unfold GlyphToken.model_validate_json.
  assert (Hinvalid : GlyphToken.fields_valid (GlyphToken.intensity after)
                       (GlyphToken.ttl_seconds after) (GlyphToken.explanation after)
                     = false).
  { apply not_true_iff_false. intros (H0 & H1 & _)%fields_valid_bounds.
    unfold after in H0, H1. rewrite (reframed_intensity _ _ _ Hi) in H0, H1.
    apply Hrange. by split. }
  rewrite Hinvalid. reflexivity.
Qed.

Lemma reframe_writes_unreadable_file_witness :
  let run := _cmd_reframe t2025 intense_reframe (fresh_engine 100 ∅) in
  (exists response, run.2 = Ok response /\ EngineResponse.success response = true)
  /\ (GlyphToken.intensity <$> GlyphStore.glyphs_path (store run.1) !! "G-000"%string)
     = Some 5%Q
  /\ (GlyphStore.load_glyph "G-000" (restarted (store run.1))).2
     = Raised py.ValidationError.
Proof.
  cbv zeta.
  destruct (tokens (store (fresh_engine 100 ∅)) !! "G-000"%string) as [g|] eqn:Hg;
    [|by vm_compute in Hg].
  destruct (reframe_writes_unreadable_file t2025 intense_reframe (fresh_engine 100 ∅)
              "G-000" g 5%Q)
    as (self' & response & written & Hrun & Hok & Hfile & Hint & Hload).
  - reflexivity.
  - apply store_wf_checked. vm_compute. reflexivity.
  - exact Hg.
  - vm_compute in Hg. injection Hg as <-. reflexivity.
  - intros c [=].
  - reflexivity.
  - intros [_ H]. vm_compute in H. by apply H.
  - vm_compute. reflexivity.
  - rewrite Hrun. cbn [fst snd].
    split; [exists response; split; [reflexivity | exact Hok]|].
    rewrite Hfile, Hload. cbn [fmap option_fmap option_map snd]. rewrite Hint.
    split; reflexivity.
Defined.

End EngineCommands.

(** ** input.py: the parser *)

Section Parser.

Import InputParser.

Lemma input_type_of_value s i : InputType.of_value s = Ok i -> s = InputType.value i.
Proof.
  unfold InputType.of_value.
  repeat match goal with
  | |- context [String.eqb s ?x] =>
      destruct (String.eqb_spec s x) as [->|_]; [by intros [= <-]|]
  end.
  discriminate.
Qed.

Lemma command_verb_of_value s v : CommandVerb.of_value s = Ok v -> s = CommandVerb.value v.
Proof.
  unfold CommandVerb.of_value.
  repeat match goal with
  | |- context [String.eqb s ?x] =>
      destruct (String.eqb_spec s x) as [->|_]; [by intros [= <-]|]
  end.
  discriminate.
Qed.

Lemma of_value_raises_value_error s e :
  (InputType.of_value s = Raised e -> e = py.ValueError)
  /\ (CommandVerb.of_value s = Raised e -> e = py.ValueError).
Proof.
  unfold InputType.of_value, CommandVerb.of_value.
  split; repeat (destruct (String.eqb s _); [discriminate|]); by intros [= <-].
Qed.

Lemma input_type_value_inj i : InputType.of_value (InputType.value i) = Ok i.
Proof. by destruct i. Qed.

Lemma command_verb_value_inj v : CommandVerb.of_value (CommandVerb.value v) = Ok v.
Proof. by destruct v. Qed.

(** The stages of [parse]. *)
Lemma parse_stages (fromisoformat : string -> option py.datetime) now raw :
  parse fromisoformat now raw
  = match RawInput.type raw with
    | None => Raised py.ValueError
    | Some type =>
        match InputType.of_value type with
        | Raised _ => Raised py.ValueError
        | Ok input_type =>
            match RawInput.timestamp raw, RawInput.timestamp raw ≫= fromisoformat with
            | Some _, None => Raised py.ValueError
            | _, timestamp =>
                match RawInput.verb raw, RawInput.verb raw ≫= (fun s =>
                        match CommandVerb.of_value s with
                        | Ok verb => Some verb
                        | Raised _ => None
                        end) with
                | Some _, None => Raised py.ValueError
                | _, command_verb =>
                    let msg :=
                      InputMessage.mk input_type
                        (default Payload.empty (RawInput.payload raw))
                        (default "user"%string (RawInput.source raw))
                        (default now timestamp) command_verb (RawInput.target raw)
                        (RawInput.auth_token raw) (RawInput.session_id raw) in
                    if InputMessage.validate_command msg then Ok msg
                    else Raised py.ValueError
                end
            end
        end
    end.
Proof.
  unfold parse. destruct (RawInput.type raw) as [type|]; [|done].
  destruct (InputType.of_value type) as [i|e] eqn:Hi;
    [|by rewrite (proj1 (of_value_raises_value_error _ _) Hi)].
  destruct (RawInput.timestamp raw) as [s|]; cbn [mbind option_bind];
    [destruct (fromisoformat s); [|done]|];
    (destruct (RawInput.verb raw) as [vs|]; cbn [mbind option_bind];
     [destruct (CommandVerb.of_value vs) as [v|e] eqn:Hv;
      [|by rewrite (proj2 (of_value_raises_value_error _ _) Hv)]|]);
    cbv zeta; cbn [default from_option id]; by destruct (InputMessage.validate_command _).
Qed.

Lemma parse_inv (fromisoformat : string -> option py.datetime) now raw msg :
  parse fromisoformat now raw = Ok msg ->
  RawInput.type raw = Some (InputType.value (InputMessage.input_type msg))
  /\ (forall s, RawInput.timestamp raw = Some s -> is_Some (fromisoformat s))
  /\ RawInput.verb raw = CommandVerb.value <$> InputMessage.command_verb msg
  /\ InputMessage.validate_command msg = true
  /\ msg = InputMessage.mk (InputMessage.input_type msg)
             (default Payload.empty (RawInput.payload raw))
             (default "user"%string (RawInput.source raw))
             (default now (RawInput.timestamp raw ≫= fromisoformat))
             (InputMessage.command_verb msg) (RawInput.target raw)
             (RawInput.auth_token raw) (RawInput.session_id raw).
Proof.
  rewrite parse_stages.
  destruct (RawInput.type raw) as [type|]; [|discriminate].
  destruct (InputType.of_value type) as [i|] eqn:Hi; [|discriminate].
  apply input_type_of_value in Hi as ->.
  destruct (RawInput.timestamp raw) as [s|]; cbn [mbind option_bind];
    [destruct (fromisoformat s) as [t|] eqn:Hs; [|discriminate]|];
    (destruct (RawInput.verb raw) as [vs|]; cbn [mbind option_bind];
     [destruct (CommandVerb.of_value vs) as [v|] eqn:Hv; [|discriminate];
      apply command_verb_of_value in Hv as ->|]);
    cbv zeta; destruct (InputMessage.validate_command _) eqn:Hvalid; try discriminate;
    intros [= <-]; cbn [InputMessage.input_type InputMessage.command_verb];
    (split; [reflexivity|]); (split; [|by repeat split]).
  - intros s' [= <-]. by rewrite Hs.
  - intros s' [= <-]. by rewrite Hs.
  - intros s' [=].
  - intros s' [=].
Qed.

Lemma validate_command_complete msg :
  InputMessage.validate_command msg = true <->
  (InputMessage.input_type msg = InputType.COMMAND ->
   exists verb,
     InputMessage.command_verb msg = Some verb
     /\ (verb ∈ targeted_verbs -> is_Some (InputMessage.target_glyph_id msg))).
Proof.
  unfold InputMessage.validate_command, targeted_verbs.
  destruct (InputMessage.input_type msg); [by split; [intros _ [=] | ]..|].
  destruct (InputMessage.command_verb msg) as [verb|].
  - assert (Hdec : bool_decide (InputMessage.target_glyph_id msg <> None) = true
                   <-> is_Some (InputMessage.target_glyph_id msg)).
    { rewrite bool_decide_eq_true. by rewrite is_Some_alt; destruct (InputMessage.target_glyph_id msg). }
    split.
    + intros Hv _. exists verb. split; [done|]. intros Hin. apply Hdec.
      destruct verb; try done; exfalso; revert Hin;
        rewrite !elem_of_cons, elem_of_nil; intuition discriminate.
    + intros Hc. destruct (Hc eq_refl) as (v & [= <-] & Ht).
      destruct verb; try done; apply Hdec, Ht; rewrite !elem_of_cons; tauto.
  - split; [discriminate|]. intros Hc. by destruct (Hc eq_refl) as (v & [=] & _).
Qed.

(** X24.  What the parser lets through.  A parsed message carries the
    type and the verb that the raw input names, the source of the input
    or user, the payload or an empty one, the given timestamp or the time
    of the call, and the target and tokens as given.  A parsed command
    always has a verb, and with a verb that needs a target (forget,
    reframe, refresh, attenuate) it always has a target. *)
Theorem parsed_message_is_complete (fromisoformat : string -> option py.datetime)
    (now : py.datetime) (raw : RawInput.t) (msg : InputMessage.t) :
  parse fromisoformat now raw = Ok msg ->
  RawInput.type raw = Some (InputType.value (InputMessage.input_type msg))
  /\ RawInput.verb raw = CommandVerb.value <$> InputMessage.command_verb msg
  /\ InputMessage.source msg = default "user"%string (RawInput.source raw)
  /\ InputMessage.payload msg = default Payload.empty (RawInput.payload raw)
  /\ InputMessage.timestamp msg
     = default now (RawInput.timestamp raw ≫= fromisoformat)
  /\ InputMessage.target_glyph_id msg = RawInput.target raw
  /\ InputMessage.auth_token msg = RawInput.auth_token raw
  /\ InputMessage.session_id msg = RawInput.session_id raw
  /\ (InputMessage.input_type msg = InputType.COMMAND ->
      exists verb,
        InputMessage.command_verb msg = Some verb
        /\ (verb ∈ targeted_verbs -> is_Some (InputMessage.target_glyph_id msg))).
Proof.
  intros (Htype & _ & Hverb & Hvalid & Hmsg)%parse_inv.
  split; [exact Htype|]. split; [exact Hverb|].
  split; [by rewrite Hmsg|]. split; [by rewrite Hmsg|]. split; [by rewrite Hmsg|].
  split; [by rewrite Hmsg|]. split; [by rewrite Hmsg|]. split; [by rewrite Hmsg|].
  by apply validate_command_complete.
Qed.

Lemma parsed_message_is_complete_witness :
  exists msg,
    parse sample_fromisoformat (t2025 + 5) raw_forget = Ok msg
    /\ InputMessage.command_verb msg = Some CommandVerb.FORGET
    /\ InputMessage.target_glyph_id msg = Some "G-000"%string
    /\ InputMessage.source msg = "user"%string
    /\ InputMessage.timestamp msg = t2025.
Proof.
  destruct (parse sample_fromisoformat (t2025 + 5) raw_forget) as [msg|] eqn:Hparse;
    [|by vm_compute in Hparse].
  exists msg. split; [reflexivity|].
  destruct (parsed_message_is_complete _ _ _ _ Hparse)
    as (_ & Hverb & Hsource & _ & Htime & Htarget & _).
  split; [|split; [exact Htarget|split; [exact Hsource | exact Htime]]].
  cbn in Hverb. destruct (InputMessage.command_verb msg) as [[]|]; by try discriminate Hverb.
Defined.

(** X25.  What the parser turns away, always with a value error: an
    input without type or with an unknown type, a timestamp that is no
    ISO date, an unknown verb (whatever the type of the input, so also on
    a fact or a state), a command without verb, and a command whose verb
    needs a target and has none.  Every other input is parsed. *)
Theorem parse_rejects_exactly (fromisoformat : string -> option py.datetime)
    (now : py.datetime) (raw : RawInput.t) :
  let unknown_type :=
    forall input_type, RawInput.type raw <> Some (InputType.value input_type) in
  let bad_timestamp :=
    exists s, RawInput.timestamp raw = Some s /\ fromisoformat s = None in
  let unknown_verb :=
    exists s, RawInput.verb raw = Some s /\ forall verb, s <> CommandVerb.value verb in
  let incomplete_command :=
    RawInput.type raw = Some "command"%string
    /\ (RawInput.verb raw = None
        \/ exists verb, RawInput.verb raw = Some (CommandVerb.value verb)
                        /\ verb ∈ targeted_verbs /\ RawInput.target raw = None) in
  (parse fromisoformat now raw = Raised py.ValueError
   <-> unknown_type \/ bad_timestamp \/ unknown_verb \/ incomplete_command)
  /\ (forall e, parse fromisoformat now raw = Raised e -> e = py.ValueError).
Proof.
  cbv zeta.
  assert (Honly : forall e, parse fromisoformat now raw = Raised e -> e = py.ValueError).
  { intros e. rewrite parse_stages. cbv zeta. repeat case_match; congruence. }
  split; [|exact Honly]. split.
  - rewrite parse_stages.
    destruct (RawInput.type raw) as [type|] eqn:Htype; [|by left].
    destruct (InputType.of_value type) as [i|] eqn:Hi.
    2:{ intros _. left. intros i' [= ->]. by rewrite input_type_value_inj in Hi. }
    apply input_type_of_value in Hi as ->.
    destruct (RawInput.timestamp raw) as [s|] eqn:Hts; cbn [mbind option_bind].
    + destruct (fromisoformat s) as [t|] eqn:Hs; [|intros _; right; left; by exists s].
      destruct (RawInput.verb raw) as [vs|] eqn:Hvs; cbn [mbind option_bind].
      * destruct (CommandVerb.of_value vs) as [v|] eqn:Hv.
        2:{ intros _. right; right; left. exists vs. split; [done|]. intros v' ->.
            by rewrite command_verb_value_inj in Hv. }
        apply command_verb_of_value in Hv as ->. cbv zeta.
        destruct (InputMessage.validate_command _) eqn:Hvalid; [discriminate|].
        intros _. right; right; right.
        destruct i; try discriminate Hvalid. split; [done|]. right. exists v.
        split; [done|]. unfold InputMessage.validate_command in Hvalid. cbn in Hvalid.
        unfold targeted_verbs. rewrite !elem_of_cons.
        destruct v; try discriminate Hvalid; apply bool_decide_eq_false in Hvalid;
          (split; [tauto|]); by destruct (RawInput.target raw); [destruct Hvalid|].
      * cbv zeta. destruct (InputMessage.validate_command _) eqn:Hvalid; [discriminate|].
        intros _. right; right; right.
        destruct i; try discriminate Hvalid. split; [done|]. by left.
    + destruct (RawInput.verb raw) as [vs|] eqn:Hvs; cbn [mbind option_bind].
      * destruct (CommandVerb.of_value vs) as [v|] eqn:Hv.
        2:{ intros _. right; right; left. exists vs. split; [done|]. intros v' ->.
            by rewrite command_verb_value_inj in Hv. }
        apply command_verb_of_value in Hv as ->. cbv zeta.
        destruct (InputMessage.validate_command _) eqn:Hvalid; [discriminate|].
        intros _. right; right; right.
        destruct i; try discriminate Hvalid. split; [done|]. right. exists v.
        split; [done|]. unfold InputMessage.validate_command in Hvalid. cbn in Hvalid.
        unfold targeted_verbs. rewrite !elem_of_cons.
        destruct v; try discriminate Hvalid; apply bool_decide_eq_false in Hvalid;
          (split; [tauto|]); by destruct (RawInput.target raw); [destruct Hvalid|].
      * cbv zeta. destruct (InputMessage.validate_command _) eqn:Hvalid; [discriminate|].
        intros _. right; right; right.
        destruct i; try discriminate Hvalid. split; [done|]. by left.
  - intros Hcause.
    destruct (parse fromisoformat now raw) as [msg|e] eqn:Hparse;
      [|by rewrite (Honly e eq_refl)].
    exfalso. apply parse_inv in Hparse as (Htype & Htime & Hverb & Hvalid & Hmsg).
    destruct Hcause as [Hc|[(s & Hs & Hnone)|[(s & Hs & Hnone)|[Hcmd Hc]]]].
    + by eapply Hc.
    + destruct (Htime s Hs) as [t Ht]. congruence.
    + rewrite Hs in Hverb. destruct (InputMessage.command_verb msg) as [v|]; [|discriminate].
      injection Hverb as ->. by eapply Hnone.
    + rewrite Hcmd in Htype. injection Htype as Htype.
      assert (InputMessage.input_type msg = InputType.COMMAND) as Hi
        by (by destruct (InputMessage.input_type msg)).
      destruct (proj1 (validate_command_complete msg) Hvalid Hi) as (v & Hv & Htarget).
      rewrite Hv in Hverb. destruct Hc as [Hc|(v' & Hv' & Hin & Hnot)].
      * by rewrite Hc in Hverb.
      * rewrite Hv' in Hverb. injection Hverb as Hverb.
        assert (v' = v) as -> by (by destruct v', v).
        destruct (Htarget Hin) as [x Hx]. rewrite Hmsg in Hx. cbn in Hx. congruence.
Qed.

End Parser.

(** ** engine.py: decay and new state *)

Section EngineState.

Import GlyphEngine.

(** X26.  The decay cycle is idempotent.  On a well-formed store it
    returns; afterwards no stored token is expired at the time of the
    cycle, and a second cycle at the same time removes nothing: it
    returns the empty list and leaves the audit log, the files and the
    tokens as they are. *)
Theorem decay_cycle_is_idempotent (now : py.datetime) (self : GlyphEngine.t) :
  store_wf (store self) ->
  exists self1 removed self2,
    _run_decay_cycle now self = (self1, Ok removed)
    /\ (forall glyph_id g,
          tokens (store self1) !! glyph_id = Some g -> GlyphToken.is_expired now g = false)
    /\ _run_decay_cycle now self1 = (self2, Ok [])
    /\ audit self2 = audit self1
    /\ GlyphStore.glyphs_path (store self2) = GlyphStore.glyphs_path (store self1)
    /\ tokens (store self2) = tokens (store self1).
Proof.
  intros Hwf.
  destruct (run_decay_cycle_spec now self Hwf)
    as (self1 & removed & evs & Hrun & _ & _ & _ & _ & Hwf1 & _ & Htokens).
  assert (Hfresh : forall gid g,
             tokens (store self1) !! gid = Some g -> GlyphToken.is_expired now g = false).
  { intros gid g. rewrite Htokens. by intros [_ ?]%map_lookup_filter_Some. }
  destruct (get_select_spec (GlyphToken.is_expired now) (store self1) Hwf1)
    as (st2 & kept & Hsel & Hext & _ & _ & Hin).
  assert (kept = []) as ->.
  { destruct kept as [|[gid l] kept]; [done|]. exfalso.
    destruct (proj1 (Hin gid)) as (g & Hg & Hexp); [cbn; left|].
    by rewrite (Hfresh _ _ Hg) in Hexp. }
  exists self1, removed, (set_store st2 self1).
  split; [exact Hrun|]. split; [exact Hfresh|]. split.
  { unfold _run_decay_cycle. unfold py.bind at 1.
    erewrite in_store_run; [|exact Hsel]. reflexivity. }
  cbn [audit set_store store].
  split; [done|]. split; [exact (ext_files _ _ Hext) | exact (ext_tokens _ _ Hext)].
Qed.

(** A new engine a day after its start: the first cycle removes the
    genesis consent glyph and records it, the second finds nothing. *)
Lemma decay_cycle_is_idempotent_witness :
  let first := _run_decay_cycle a_day_later (fresh_engine 100 ∅) in
  let second := _run_decay_cycle a_day_later first.1 in
  first.2 = Ok ["G-001"]%string
  /\ second.2 = Ok []
  /\ AuditLog.log (audit second.1) = AuditLog.log (audit first.1)
  /\ length (AuditLog.log (audit first.1)) = 1%nat.
Proof.
  cbv zeta.
  destruct (decay_cycle_is_idempotent a_day_later (fresh_engine 100 ∅))
    as (self1 & removed & self2 & Hfirst & _ & Hsecond & Haudit & _).
  { apply store_wf_checked. vm_compute. reflexivity. }
  split; [vm_compute; reflexivity|].
  rewrite Hfirst. cbn [fst]. rewrite Hsecond. cbn [fst snd].
  split; [reflexivity|]. split; [by rewrite Haudit|].
  apply (f_equal fst) in Hfirst. cbn [fst] in Hfirst. rewrite <- Hfirst.
  vm_compute. reflexivity.
Defined.

(** X27.  The id of a new state glyph comes from the counter of the
    session alone; the store is not asked whether the id is taken.  When
    a token is stored under the next id, a state request that passes
    validation succeeds under that id and replaces the token: the store
    then holds the new token there, and if the old one was not expired
    the number of stored tokens is the number of active ones before the
    request, one token having been lost. *)
Theorem state_glyph_replaces_same_id (now : py.datetime) (msg : InputMessage.t)
    (self : GlyphEngine.t) (g old : GlyphToken.t) :
  store_wf (store self) ->
  Z.of_nat (active_count now (store self)) < EngineConfig.max_active_glyphs (config self) ->
  state_glyph now msg self = Ok g ->
  Forall (fun r => ValidatorResult.passed r = true) (state_results now msg self g) ->
  tokens (store self) !! next_glyph_id self = Some old ->
  exists self' response,
    _handle_state now msg self = (self', Ok response)
    /\ EngineResponse.success response = true
    /\ EngineResponse.glyph_id response = Some (next_glyph_id self)
    /\ tokens (store self') !! next_glyph_id self = Some g
    /\ (GlyphToken.is_expired now old = false ->
        size (tokens (store self')) = active_count now (store self)).
Proof.
  intros Hwf Hroom Hg Hpass Hold.
  destruct (handle_state_created now msg self g Hwf Hroom Hg
              (all_passed_no_failure _ Hpass))
    as (self' & evs & ev & Hrun & _ & _ & _ & _ & _ & _ & _ & _ & Htokens).
  eexists _, _. split; [exact Hrun|]. cbn [EngineResponse.success EngineResponse.glyph_id].
  split; [done|]. split; [done|]. rewrite Htokens.
  split; [by rewrite lookup_insert_eq|].
  intros Hactive. rewrite map_size_insert_Some; [done|].
  exists old. by apply map_lookup_filter_Some.
Qed.

(** The first state glyph of a new engine takes the id of the genesis
    consent glyph. *)
Lemma state_glyph_replaces_same_id_witness :
  let self := fresh_engine 100 ∅ in
  let run := _handle_state t2025 sample_state self in
  (GlyphToken.glyph_class <$> tokens (store self) !! "G-001"%string)
  = Some GlyphClass.CONSENT
  /\ (exists response,
        run.2 = Ok response /\ EngineResponse.glyph_id response = Some "G-001"%string)
  /\ (GlyphToken.explanation <$> tokens (store run.1) !! "G-001"%string)
     = Some "Test state glyph"%string
  /\ size (tokens (store run.1)) = 2%nat.
Proof.
  cbv zeta. split; [vm_compute; reflexivity|].
  destruct (state_glyph t2025 sample_state (fresh_engine 100 ∅)) as [g|] eqn:Hg;
    [|by vm_compute in Hg].
  destruct (tokens (store (fresh_engine 100 ∅)) !! "G-001"%string) as [old|] eqn:Hold;
    [|by vm_compute in Hold].
  destruct (state_glyph_replaces_same_id t2025 sample_state (fresh_engine 100 ∅) g old)
    as (self' & response & Hrun & _ & Hid & Htok & Hsize).
  - apply store_wf_checked. vm_compute. reflexivity.
  - vm_compute. reflexivity.
  - exact Hg.
  - vm_compute in Hg. injection Hg as <-. vm_compute. repeat constructor.
  - exact Hold.
  - rewrite Hrun. cbn [fst snd].
    split; [exists response; split; [reflexivity | exact Hid]|].
    change "G-001"%string with (next_glyph_id (fresh_engine 100 ∅)).
    rewrite Htok, Hsize.
    + vm_compute in Hg. injection Hg as <-. split; [reflexivity | vm_compute; reflexivity].
    + vm_compute in Hold. injection Hold as <-. vm_compute. reflexivity.
Defined.



End EngineState.

(** ** store.py and engine.py: the start of a process *)

Section Startup.

Import GlyphStore.

Lemma save_all_spec ls : forall st,
  Forall (fun l => is_Some (objects st !! l)) ls ->
  (forall gid l, _glyph_cache st !! gid = Some l -> glyphs_path st !! gid = objects st !! l) ->
  exists st',
    save_all ls st = (st', Ok tt)
    /\ objects st' = objects st
    /\ scrolls_path st' = scrolls_path st
    /\ _scroll_cache st' = _scroll_cache st
    /\ (forall gid g,
          glyphs_path st' !! gid = Some g ->
          glyphs_path st !! gid = Some g
          \/ (GlyphToken.glyph_id g = gid /\ exists l, l ∈ ls /\ objects st !! l = Some g))
    /\ (forall gid, is_Some (glyphs_path st !! gid) -> is_Some (glyphs_path st' !! gid))
    /\ (forall l g, l ∈ ls -> objects st !! l = Some g ->
          is_Some (glyphs_path st' !! GlyphToken.glyph_id g))
    /\ (forall gid l, _glyph_cache st' !! gid = Some l ->
          glyphs_path st' !! gid = objects st' !! l).
Proof.
  induction ls as [|l ls IH]; intros st Hls Hcoh.
  { exists st. cbn. split; [done|]. split; [done|]. split; [done|]. split; [done|].
    split; [by left|]. split; [done|]. split; [|done]. by intros l g ?%elem_of_nil. }
  apply Forall_cons in Hls as [[g Hg] Hls].
  cbn [save_all]. unfold py.bind at 1. unfold save_glyph at 1. rewrite Hg.
  set (st1 := GlyphStore.mk _ _ _ _ _ _ _ _).
  destruct (IH st1) as (st' & Hrun & Hobj & Hscr & Hsc & Hfrom & Hmono & Hall & Hcoh').
  { exact Hls. }
  { intros gid l'. cbn [st1 _glyph_cache glyphs_path objects].
    destruct (decide (gid = GlyphToken.glyph_id g)) as [->|Hne].
    - rewrite !lookup_insert_eq. by intros [= <-].
    - rewrite !lookup_insert_ne by done. apply Hcoh. }
  exists st'. split; [exact Hrun|]. split; [by rewrite Hobj|].
  split; [by rewrite Hscr|]. split; [by rewrite Hsc|]. split; [|split; [|split]].
  - intros gid g' Hg'. destruct (Hfrom _ _ Hg') as [Hst1|(Hid & l' & Hin & Hl')].
    + cbn [st1 glyphs_path] in Hst1.
      destruct (decide (gid = GlyphToken.glyph_id g)) as [->|Hne].
      * rewrite lookup_insert_eq in Hst1. injection Hst1 as <-.
        right. split; [done|]. exists l. split; [by left | done].
      * rewrite lookup_insert_ne in Hst1 by done. by left.
    + right. split; [done|]. exists l'. split; [by right | done].
  - intros gid Hsome. apply Hmono. cbn [st1 glyphs_path].
    destruct (decide (gid = GlyphToken.glyph_id g)) as [->|Hne].
    + rewrite lookup_insert_eq. by eexists.
    + by rewrite lookup_insert_ne.
  - intros l' g' [->|Hin]%elem_of_cons Hl'.
    + rewrite Hg in Hl'. injection Hl' as <-. apply Hmono. cbn [st1 glyphs_path].
      rewrite lookup_insert_eq. by eexists.
    + by eapply Hall.
  - exact Hcoh'.
Qed.

(** X29.  How a store starts.  [GlyphStore(vault_path)] never raises.  On
    a vault that holds a glyph file it changes nothing, and caches
    nothing.  On a vault without glyph files it writes the genesis
    glyphs and the genesis scroll: afterwards every glyph file holds a
    genesis token under that token's id, every genesis token has its
    file, each cache entry refers to the very genesis object whose
    document the file holds, and the scroll file S-000 is the genesis
    scroll, whatever scroll was stored under that id before. *)
Theorem store_bootstrap (genesis : list GlyphToken.t)
    (glyph_files : gmap string GlyphToken.t) (scroll_files : gmap string Scroll.t) :
  let run := GlyphStore.new genesis glyph_files scroll_files in
  run.2 = Ok tt
  /\ objects run.1 = genesis
  /\ (glyph_files <> ∅ ->
      run.1 = GlyphStore.mk genesis glyph_files scroll_files ∅ None 0 ∅ ∅)
  /\ (glyph_files = ∅ ->
      scrolls_path run.1 = <["S-000"%string := GENESIS_SCROLL]> scroll_files
      /\ (forall glyph_id g,
            glyphs_path run.1 !! glyph_id = Some g ->
            g ∈ genesis /\ GlyphToken.glyph_id g = glyph_id)
      /\ (forall g, g ∈ genesis -> is_Some (glyphs_path run.1 !! GlyphToken.glyph_id g))
      /\ (forall glyph_id l,
            _glyph_cache run.1 !! glyph_id = Some l ->
            glyphs_path run.1 !! glyph_id = genesis !! l)).
Proof.
  cbv zeta. unfold GlyphStore.new, _ensure_genesis. cbn [glyphs_path].
  set (st := GlyphStore.mk genesis glyph_files scroll_files ∅ None 0 ∅ ∅).
  destruct (decide (glyph_files = ∅)) as [->|Hne].
  - rewrite map_to_list_empty, bool_decide_eq_true_2 by done.
    destruct (save_all_spec (seq 0 (length genesis)) st)
      as (st' & Hrun & Hobj & Hscr & _ & Hfrom & _ & Hall & Hcoh).
    { apply Forall_forall. intros l Hl%elem_of_seq. apply lookup_lt_is_Some.
      cbn [st objects]. lia. }
    { intros gid l. cbn [st _glyph_cache]. by rewrite lookup_empty. }
    unfold py.bind. rewrite Hrun. unfold save_scroll.
    cbn [fst snd objects scrolls_path glyphs_path _glyph_cache].
    split; [done|]. split; [by rewrite Hobj|]. split; [done|]. intros _.
    split; [by rewrite Hscr|]. split; [|split].
    + intros gid g Hg. destruct (Hfrom _ _ Hg) as [Hst|(Hid & l & _ & Hl)].
      * cbn [st glyphs_path] in Hst. by rewrite lookup_empty in Hst.
      * split; [|done]. by eapply list_elem_of_lookup_2.
    + intros g (l & Hl)%list_elem_of_lookup_1. eapply Hall; [|exact Hl].
      apply elem_of_seq. apply lookup_lt_Some in Hl. lia.
    + intros gid l Hl. rewrite (Hcoh _ _ Hl). by rewrite Hobj.
  - rewrite bool_decide_eq_false_2 by (by rewrite map_to_list_empty_iff).
    cbn [fst snd]. split; [done|]. split; [done|]. split; [done|]. done.
Qed.

Lemma scroll_validate_ok j s : Scroll.model_validate j = Ok s -> s = j.
Proof. unfold Scroll.model_validate. by destruct (forallb _ _); intros [= <-]. Qed.

Lemma load_scroll_spec scroll_id j st :
  scrolls_valid st ->
  scrolls_path st !! scroll_id = Some j ->
  exists st',
    load_scroll scroll_id st = (st', Ok (visible_scroll st scroll_id))
    /\ scrolls_path st' = scrolls_path st
    /\ glyphs_path st' = glyphs_path st
    /\ (forall other, visible_scroll st' other = visible_scroll st other)
    /\ scrolls_valid st'.
Proof.
  intros Hvalid Hj. unfold load_scroll, visible_scroll.
  destruct (_scroll_cache st !! scroll_id) as [s|] eqn:Hc.
  { exists st. split; [done|]. split; [done|]. split; [done|]. split; [done|]. done. }
  rewrite Hj, (Hvalid _ _ Hj Hc).
  eexists. split; [reflexivity|]. cbn [scrolls_path glyphs_path _scroll_cache].
  split; [done|]. split; [done|]. split.
  - intros other. destruct (decide (other = scroll_id)) as [->|Hne].
    + by rewrite lookup_insert_eq, Hc, Hj.
    + by rewrite lookup_insert_ne.
  - intros other j' Hj' Hc'. cbn [scrolls_path _scroll_cache] in Hj', Hc'.
    destruct (decide (other = scroll_id)) as [->|Hne].
    + by rewrite lookup_insert_eq in Hc'.
    + rewrite lookup_insert_ne in Hc' by done. by apply (Hvalid other).
Qed.

Lemma load_scrolls_loop_spec ids : forall scrolls st,
  scrolls_valid st ->
  Forall (fun scroll_id => is_Some (scrolls_path st !! scroll_id)) ids ->
  exists st' loaded,
    GlyphEngine.load_scrolls_loop ids scrolls st = (st', Ok loaded)
    /\ scrolls_path st' = scrolls_path st
    /\ glyphs_path st' = glyphs_path st
    /\ forall scroll_id,
         loaded !! scroll_id
         = if decide (scroll_id ∈ ids) then visible_scroll st scroll_id
           else scrolls !! scroll_id.
Proof.
  induction ids as [|first ids IH]; intros scrolls st Hvalid Hids.
  { exists st, scrolls. split; [done|]. split; [done|]. split; [done|].
    intros scroll_id. by rewrite decide_False by apply not_elem_of_nil. }
  apply Forall_cons in Hids as [[j Hj] Hids].
  destruct (load_scroll_spec first j st Hvalid Hj)
    as (st1 & Hload & Hfiles & Hglyphs & Hvis & Hvalid1).
  assert (exists s, visible_scroll st first = Some s) as [s Hs].
  { unfold visible_scroll. destruct (_scroll_cache st !! first); by eauto. }
  destruct (IH (<[first := s]> scrolls) st1 Hvalid1) as (st' & loaded & Hrun & Hf & Hg & Hl).
  { by rewrite Hfiles. }
  exists st', loaded. split.
  { cbn [GlyphEngine.load_scrolls_loop]. unfold py.bind. by rewrite Hload, Hs. }
  split; [by rewrite Hf|]. split; [by rewrite Hg|].
  intros scroll_id. rewrite Hl, Hvis.
  destruct (decide (scroll_id ∈ ids)) as [Hin|Hnotin].
  - by rewrite decide_True by (by right).
  - destruct (decide (scroll_id = first)) as [->|Hne].
    + by rewrite lookup_insert_eq, decide_True by (by left).
    + rewrite lookup_insert_ne by done.
      by rewrite decide_False by (by intros [?|?]%elem_of_cons).
Qed.

Lemma ensure_default_lookup scroll scrolls scroll_id :
  GlyphEngine.ensure_default scroll scrolls !! scroll_id
  = match scrolls !! scroll_id with
    | Some s => Some s
    | None => if String.eqb scroll_id (Scroll.scroll_id scroll) then Some scroll else None
    end.
Proof.
  unfold GlyphEngine.ensure_default.
  destruct (String.eqb_spec scroll_id (Scroll.scroll_id scroll)) as [->|Hne].
  - destruct (scrolls !! Scroll.scroll_id scroll) as [s|] eqn:E; [by rewrite E|].
    by rewrite lookup_insert_eq.
  - destruct (scrolls !! Scroll.scroll_id scroll) as [s|] eqn:E.
    + by destruct (scrolls !! scroll_id).
    + rewrite lookup_insert_ne by done. by destruct (scrolls !! scroll_id).
Qed.

(** X30.  Which scrolls a session uses.  When the scroll files are
    valid, [_load_scrolls] returns, changes no file, and yields under
    every id that has a scroll file the scroll of that file (the cached
    one, if the store holds one); only an id without file falls back to
    the built-in genesis scroll (S-000) or standard scroll (S-001).  So
    a stored scroll S-001 replaces the standard scroll: it is what
    [_get_scroll] returns, and with it what a reframe is checked
    against. *)
Theorem stored_scrolls_override_builtin (st : GlyphStore.t) :
  scrolls_valid st ->
  exists st' scrolls,
    GlyphEngine._load_scrolls st = (st', Ok scrolls)
    /\ scrolls_path st' = scrolls_path st
    /\ glyphs_path st' = glyphs_path st
    /\ (forall scroll_id,
          scrolls !! scroll_id
          = match scrolls_path st !! scroll_id with
            | Some _ => visible_scroll st scroll_id
            | None => builtin_scroll scroll_id
            end)
    /\ (forall self,
          GlyphEngine._scrolls self = scrolls ->
          GlyphEngine._get_scroll self
          = match scrolls_path st !! "S-001"%string with
            | Some j => default j (_scroll_cache st !! "S-001"%string)
            | None => STANDARD_SCROLL
            end).
Proof.
  intros Hvalid.
  destruct (load_scrolls_loop_spec (list_scrolls st) ∅ st Hvalid)
    as (st' & loaded & Hrun & Hfiles & Hglyphs & Hloaded).
  { apply Forall_forall. intros scroll_id Hin. unfold list_scrolls in Hin.
    apply list_elem_of_fmap in Hin as ([k j] & -> & Hkj).
    apply elem_of_map_to_list in Hkj. by eexists. }
  assert (Hlookup : forall scroll_id,
             loaded !! scroll_id
             = match scrolls_path st !! scroll_id with
               | Some _ => visible_scroll st scroll_id
               | None => None
               end).
  { intros scroll_id. rewrite Hloaded, lookup_empty.
    destruct (scrolls_path st !! scroll_id) as [j|] eqn:Hj.
    - rewrite decide_True; [done|]. unfold list_scrolls.
      apply list_elem_of_fmap. exists (scroll_id, j). split; [done|].
      by apply elem_of_map_to_list.
    - rewrite decide_False; [done|]. unfold list_scrolls.
      intros ([k j] & -> & Hkj)%list_elem_of_fmap.
      apply elem_of_map_to_list in Hkj. cbn in Hj. congruence. }
  assert (Hall : forall scroll_id,
             GlyphEngine.ensure_default STANDARD_SCROLL
               (GlyphEngine.ensure_default GENESIS_SCROLL loaded) !! scroll_id
             = match scrolls_path st !! scroll_id with
               | Some _ => visible_scroll st scroll_id
               | None => builtin_scroll scroll_id
               end).
  { intros scroll_id. rewrite !ensure_default_lookup, Hlookup. unfold builtin_scroll.
    cbn [Scroll.scroll_id GENESIS_SCROLL STANDARD_SCROLL].
    destruct (scrolls_path st !! scroll_id) as [j|] eqn:Hj.
    - unfold visible_scroll. rewrite Hj. by destruct (_scroll_cache st !! scroll_id).
    - by destruct (String.eqb scroll_id "S-000"). }
  eexists st', _. split.
  { unfold GlyphEngine._load_scrolls, py.bind. rewrite Hrun. reflexivity. }
  split; [exact Hfiles|]. split; [exact Hglyphs|]. split; [exact Hall|].
  intros self Hself. unfold GlyphEngine._get_scroll. rewrite Hself, Hall.
  unfold visible_scroll.
  destruct (scrolls_path st !! "S-001"%string) as [j|]; [|reflexivity].
  by destruct (_scroll_cache st !! "S-001"%string).
Qed.

Lemma stored_scrolls_override_builtin_witness :
  exists scrolls,
    (GlyphEngine._load_scrolls scroll_vault).2 = Ok scrolls
    /\ scrolls !! "S-000"%string = Some GENESIS_SCROLL
    /\ scrolls !! "S-001"%string = Some strict_scroll
    /\ scrolls !! "S-901"%string = Some pinned_scroll.
Proof.
  destruct (stored_scrolls_override_builtin scroll_vault)
    as (st' & scrolls & Hrun & _ & _ & Hlookup & _).
  - intros scroll_id j Hj _. cbn [scroll_vault scrolls_path] in Hj.
    apply lookup_insert_Some in Hj as [[_ <-]|[_ Hj]]; [vm_compute; reflexivity|].
    apply lookup_singleton_Some in Hj as [_ <-]. vm_compute. reflexivity.
  - exists scrolls. rewrite Hrun. split; [reflexivity|].
    rewrite !Hlookup. split; [|split]; vm_compute; reflexivity.
Defined.

End Startup.
